(** * smallsh: a shallow embedding of [main.c] and its job-control properties

    The development follows the C source function by function.  C strings
    are values of type [string] (the bytes before the terminating NUL),
    [int] values are [Z], the heap arrays of [main] and
    [parse_command_line] are lists with explicit bounds, and the effects of
    the shell process (terminal output, system calls, the table of child
    processes kept by the kernel) are threaded through a state record.
    Undefined behaviour of the C program (a write past an allocation, a
    dereferenced null token) is an explicit [Undefined] outcome. *)

From Stdlib Require Import ZArith String Ascii List DecimalString.
From stdpp Require Import base list strings gmap.

Open Scope string_scope.
Open Scope list_scope.
Open Scope Z_scope.

(** ** The state of a process *)

(** What a process does to the outside: text on the terminal and system
    calls, each with the value the kernel answered. *)
Inductive event :=
| Stdout (text : string)
| Perror (prefix : string)
| Fork (ret : Z)
| Waitpid (pid options ret : Z)
| Kill (pid sig : Z)
| Chdir (path : option string) (ret : Z)
| Open (path : string) (flags ret : Z)
| Dup2 (oldfd newfd ret : Z)
| Sigaction (signum : Z) (handler : string)
| Execvp (file : option string) (argv : list (option string)).

(** An entry of the kernel's table of children of the shell: whether the
    child has terminated, and the wait status it terminates with. *)
Record child := mk_child {
  terminated : bool;
  wstatus : Z
}.

(** The variables of [main] that the functions share through pointers, the
    global [foreground_only], the children the kernel knows of, and what
    the process has done so far. *)
Record shell := mk_shell {
  status : Z;
  background_procs : list Z;        (* calloc(100, sizeof(int)) *)
  bg_proc_count : Z;
  foreground_only : bool;           (* volatile sig_atomic_t, 0 or 1 *)
  children : gmap Z child;
  trace : list event
}.

Definition set_status (v : Z) (sh : shell) : shell :=
  {| status := v; background_procs := background_procs sh;
     bg_proc_count := bg_proc_count sh;
     foreground_only := foreground_only sh;
     children := children sh; trace := trace sh |}.

Definition set_registry (arr : list Z) (count : Z) (sh : shell) : shell :=
  {| status := status sh; background_procs := arr; bg_proc_count := count;
     foreground_only := foreground_only sh;
     children := children sh; trace := trace sh |}.

Definition set_foreground_only (b : bool) (sh : shell) : shell :=
  {| status := status sh; background_procs := background_procs sh;
     bg_proc_count := bg_proc_count sh; foreground_only := b;
     children := children sh; trace := trace sh |}.

Definition set_children (m : gmap Z child) (sh : shell) : shell :=
  {| status := status sh; background_procs := background_procs sh;
     bg_proc_count := bg_proc_count sh;
     foreground_only := foreground_only sh;
     children := m; trace := trace sh |}.

Definition emit (e : event) (sh : shell) : shell :=
  {| status := status sh; background_procs := background_procs sh;
     bg_proc_count := bg_proc_count sh;
     foreground_only := foreground_only sh;
     children := children sh; trace := trace sh ++ [e] |}.

(** ** Outcomes of C computations *)

Inductive fault :=
| BufferOverflow      (* a string written past the end of its allocation *)
| OutOfBounds         (* an array element accessed outside its allocation *)
| NullDereference     (* a NULL token handed to strlen and strcpy *)
| UninitializedRead   (* an object read before anything was stored in it *)
| OutOfFuel.          (* the bound of a modelled loop is exhausted *)

Inductive outcome (A : Type) :=
| Ret (a : A)                   (* the call returns *)
| Exit (code : Z) (sh : shell)  (* the process calls exit(code) *)
| Replaced (w : Z) (sh : shell) (* execvp succeeded; the new image ends
                                   with wait status w *)
| Undefined (f : fault).        (* the call has undefined behaviour *)

Arguments Ret {A} a.
Arguments Exit {A} code sh.
Arguments Replaced {A} w sh.
Arguments Undefined {A} f.

Definition bind {A B} (m : outcome A) (k : A → outcome B) : outcome B :=
  match m with
  | Ret a => k a
  | Exit code sh => Exit code sh
  | Replaced w sh => Replaced w sh
  | Undefined f => Undefined f
  end.

Notation "'let*' x ':=' m 'in' k" := (bind m (λ x, k))
  (at level 10, x pattern, m at level 100, k at level 200,
   only parsing).

(** ** C strings *)

Module CString.

Definition nl : string := String "010" "".
Definition nul : string := String "000" "".

Definition strlen (s : string) : Z := Z.of_nat (String.length s).

(** [size_t] subtraction, as the unsigned 64-bit arithmetic of the
    arguments handed to [strncat]. *)
Definition size_sub (a b : Z) : Z := (a - b) mod 2 ^ 64.

(** <ctype.h> [isspace] in the C locale. *)
Definition isspace (c : ascii) : bool :=
  let n := Z.of_nat (nat_of_ascii c) in
  (n =? 32) || ((9 <=? n) && (n <=? 13)).

(** First character of a C string; the terminating NUL when it is empty. *)
Definition first_char (s : string) : ascii :=
  match s with
  | EmptyString => "000"%char
  | String c _ => c
  end.

(** [strstr haystack needle]: the suffix of [haystack] that starts at the
    first occurrence of [needle], [None] for NULL. *)
Fixpoint strstr (haystack needle : string) : option string :=
  if String.prefix needle haystack then Some haystack
  else match haystack with
       | EmptyString => None
       | String _ rest => strstr rest needle
       end.

(** The first [n] characters of [src], all of it when it is shorter. *)
Fixpoint take_chars (n : Z) (src : string) : string :=
  match src with
  | EmptyString => EmptyString
  | String c rest => if n <=? 0 then EmptyString
                     else String c (take_chars (n - 1) rest)
  end.

(** Pointer advance [s += n] inside a string. *)
Fixpoint advance (n : Z) (s : string) : string :=
  match s with
  | EmptyString => EmptyString
  | String _ rest => if n <=? 0 then s else advance (n - 1) rest
  end.

(** [strncat dest src n] into a buffer of [cap] bytes: the result and its
    NUL must fit. *)
Definition strncat (cap : Z) (dest src : string) (n : Z) : outcome string :=
  let r := dest +:+ take_chars n src in
  if strlen r <? cap then Ret r else Undefined BufferOverflow.

Definition strcat (cap : Z) (dest src : string) : outcome string :=
  let r := dest +:+ src in
  if strlen r <? cap then Ret r else Undefined BufferOverflow.

(** [printf("%d", n)]. *)
Definition sprintf_d (n : Z) : string := NilZero.string_of_int (Z.to_int n).

(** The tokens [strtok_r] yields for the delimiter [" "]: the maximal
    runs of characters other than a space, in order.  [cur] is the token
    being read. *)
Fixpoint strtok_go (cur : string) (s : string) : list string :=
  match s with
  | EmptyString => if String.eqb cur "" then [] else [cur]
  | String c rest =>
      if Ascii.eqb c " " then
        if String.eqb cur "" then strtok_go "" rest
        else cur :: strtok_go "" rest
      else strtok_go (cur +:+ String c "") rest
  end.

Definition strtok_all (s : string) : list string := strtok_go "" s.

End CString.

Import CString.

(** ** Expansion of [$$] *)

(** The body of the [while (return_string != NULL)] loop of
    [variable_expansion], iterated.  [fuel] bounds the iterations; each one
    moves [str_pointer] at least two characters forward. *)
Fixpoint expansion_loop (fuel : nat) (pid expanded str_pointer : string)
    (return_string : option string) : outcome (string * string) :=
  match return_string with
  | None => Ret (expanded, str_pointer)
  | Some found =>
      match fuel with
      | O => Undefined OutOfFuel
      | S fuel' =>
          bind (strncat 2048 expanded str_pointer
                  (size_sub (strlen str_pointer) (strlen found)))
            (λ expanded1,
              bind (strcat 2048 expanded1 pid)
                (λ expanded2,
                  let str_pointer' :=
                    advance (strlen str_pointer - strlen found + strlen "$$")
                            str_pointer in
                  expansion_loop fuel' pid expanded2 str_pointer'
                                 (strstr str_pointer' "$$")))
      end
  end.

(** [variable_expansion], with [getpid] the identifier of the shell. *)
Definition variable_expansion (getpid : Z) (command_line_str : string)
    : outcome string :=
  let pid := sprintf_d getpid in
  bind (expansion_loop (String.length command_line_str) pid ""
          command_line_str (strstr command_line_str "$$"))
    (λ '(expanded, str_pointer),
      strncat 2048 expanded str_pointer (size_sub (strlen str_pointer) 1)).

(** The expansion as the specification words it: every occurrence of the
    two-character token, taken left to right without overlap, becomes
    [pid]; every other character is kept. *)
Fixpoint replace_dollars (pid s : string) : string :=
  match s with
  | EmptyString => EmptyString
  | String c rest =>
      match rest with
      | String c' rest' =>
          if Ascii.eqb c "$" && Ascii.eqb c' "$"
          then pid +:+ replace_dollars pid rest'
          else String c (replace_dollars pid rest)
      | EmptyString => String c EmptyString
      end
  end.

Definition has_dollars (s : string) : bool :=
  match strstr s "$$" with Some _ => true | None => false end.

(** ** Parsing *)

Record command_line := mk_command_line {
  command : string;
  args : list (option string);      (* the filled slots of the 512 allocated *)
  args_count : Z;
  input_file : option string;       (* [None] is NULL *)
  output_file : option string;
  run_in_background : bool
}.

(** [initialize_struct]. *)
Definition initialize_struct : command_line :=
  {| command := ""; args := []; args_count := 0;
     input_file := None; output_file := None; run_in_background := false |}.

Definition set_input_file (path : string) (c : command_line) :=
  {| command := command c; args := args c; args_count := args_count c;
     input_file := Some path; output_file := output_file c;
     run_in_background := run_in_background c |}.

Definition set_output_file (path : string) (c : command_line) :=
  {| command := command c; args := args c; args_count := args_count c;
     input_file := input_file c; output_file := Some path;
     run_in_background := run_in_background c |}.

Definition is_token (c : ascii) (token : string) : bool :=
  Ascii.eqb (first_char token) c && (strlen token =? 1).

(** The [while (token)] loop of [parse_command_line] over the tokens that
    [strtok_r] still has to deliver; [args_list] and [args_count] are the
    locals of the function. *)
Fixpoint parse_tokens (tokens : list string) (parsed : command_line)
    (args_list : list (option string)) (args_count : Z)
    : outcome (command_line * list (option string) * Z) :=
  match tokens with
  | [] => Ret (parsed, args_list, args_count)
  | token :: rest =>
      if is_token "<" token then
        match rest with
        | [] => Undefined NullDereference
        | path :: rest' =>
            parse_tokens rest' (set_input_file path parsed)
                         args_list args_count
        end
      else if is_token ">" token then
        match rest with
        | [] => Undefined NullDereference
        | path :: rest' =>
            parse_tokens rest' (set_output_file path parsed)
                         args_list args_count
        end
      else if args_count <? 512 then
        parse_tokens rest parsed (args_list ++ [Some token]) (args_count + 1)
      else Undefined OutOfBounds
  end.

Definition parse_command_line (command_line_str : string)
    : outcome command_line :=
  match strtok_all command_line_str with
  | [] => Undefined NullDereference
  | token :: rest =>
      bind (parse_tokens rest
              {| command := token; args := args initialize_struct;
                 args_count := 0; input_file := None; output_file := None;
                 run_in_background := false |}
              [Some token] 1)
        (λ '(parsed, args_list, args_count),
          if (1 <? args_count)
             && bool_decide (last args_list = Some (Some "&"))
          then Ret {| command := command parsed;
                      args := removelast args_list;
                      args_count := args_count - 1;
                      input_file := input_file parsed;
                      output_file := output_file parsed;
                      run_in_background := true |}
          else Ret {| command := command parsed;
                      args := args_list;
                      args_count := args_count;
                      input_file := input_file parsed;
                      output_file := output_file parsed;
                      run_in_background := run_in_background parsed |})
  end.

(** ** The kernel as the shell sees it *)

(** Wait statuses in the encoding of <sys/wait.h>. *)
Definition WIFEXITED (s : Z) : bool := Z.land s 127 =? 0.
Definition WEXITSTATUS (s : Z) : Z := Z.shiftr (Z.land s 65280) 8.
Definition WTERMSIG (s : Z) : Z := Z.land s 127.
(** The status of a child that called [exit(code)], and of one killed by
    signal [sig]. *)
Definition W_EXITCODE (code : Z) : Z := Z.shiftl (Z.land code 255) 8.
Definition W_SIGNALED (sig : Z) : Z := Z.land sig 127.

Definition WNOHANG : Z := 1.
Definition SIGINT : Z := 2.
Definition SIGKILL : Z := 9.
Definition SIGTSTP : Z := 20.
Definition O_RDONLY : Z := 0.
Definition O_WRONLY_CREAT_TRUNC : Z := 577.

(** What the rest of the system answers to the calls whose result the
    shell does not determine itself. *)
Record environment := mk_environment {
  getpid : Z;
  getenv_HOME : option string;
  chdir : option string → Z;                 (* 0, or -1 *)
  open : string → Z → Z;                     (* a descriptor, or -1 *)
  dup2 : Z → Z → Z;                          (* the new descriptor, or -1 *)
  execvp : option string → list (option string) → option Z
    (* [None]: the call returns -1; [Some w]: the image is replaced by a
       program that ends with wait status [w] *)
}.

(** Signals that arrive while a launch is under way: how many times
    SIGTSTP is delivered to a process in each window between two reads of
    [foreground_only]. *)
Record schedule := mk_schedule {
  sig_after_fork : nat;       (* between fork() and the test of line 414 *)
  sig_after_register : nat;   (* between line 417 and the test in the switch *)
  sig_late : nat              (* child: between lines 427 and 431;
                                 shell: while blocked in waitpid *)
}.

Record launch := mk_launch {
  spawn_pid : Z;              (* what fork() returns in the shell *)
  shell_signals : schedule;
  child_signals : schedule
}.

Definition quiet : schedule := mk_schedule 0 0 0.

Definition array_read (arr : list Z) (i : Z) : option Z :=
  if 0 <=? i then arr !! Z.to_nat i else None.

Definition array_write (arr : list Z) (i v : Z) : option (list Z) :=
  if (0 <=? i) && (i <? Z.of_nat (length arr))
  then Some (<[Z.to_nat i := v]> arr) else None.

Definition printf (text : string) (sh : shell) : shell := emit (Stdout text) sh.

(** [write(STDOUT_FILENO, message, n)] for a string literal: [n] bytes of
    the literal and its terminating NUL. *)
Definition write_stdout (message : string) (n : Z) (sh : shell) : shell :=
  emit (Stdout (take_chars n (message +:+ nul))) sh.

(** [fork()] seen from the shell: [ret] is the value returned; a new child
    that will end with wait status [fate] is running when [ret] is an
    identifier. *)
Definition sys_fork (ret fate : Z) (sh : shell) : shell :=
  emit (Fork ret)
    (if 0 <? ret
     then set_children (<[ret := mk_child false fate]> (children sh)) sh
     else sh).

(** [waitpid(pid, &child_status, options)] for [pid > 0]: the value
    returned and what was stored in [child_status], if anything.  A child
    that has terminated is reaped; one still running makes the call return
    0 under WNOHANG, and otherwise suspends the caller until the child has
    terminated.  The shell never asks for a process group ([pid <= 0])
    unless such a value sits in its registry; that request is answered
    with -1 here. *)
Definition sys_waitpid (pid options : Z) (sh : shell)
    : Z * option Z * shell :=
  match (if 0 <? pid then children sh !! pid else None) with
  | Some c =>
      if terminated c || (Z.land options WNOHANG =? 0)
      then (pid, Some (wstatus c),
            emit (Waitpid pid options pid)
                 (set_children (delete pid (children sh)) sh))
      else (0, None, emit (Waitpid pid options 0) sh)
  | None => (-1, None, emit (Waitpid pid options (-1)) sh)
  end.

(** [kill(pid, sig)] with a deadly signal: a running child of that
    identifier terminates by the signal. *)
Definition sys_kill (pid sig : Z) (sh : shell) : shell :=
  emit (Kill pid sig)
    (match (if 0 <? pid then children sh !! pid else None) with
     | Some c =>
         if terminated c then sh
         else set_children
                (<[pid := mk_child true (W_SIGNALED sig)]> (children sh)) sh
     | None => sh
     end).

(** A running child terminates; the shell is not involved. *)
Definition child_terminates (pid : Z) (sh : shell) : shell :=
  set_children (alter (λ c, mk_child true (wstatus c)) pid (children sh)) sh.

(** ** Signal handling *)

Definition message2 : string :=
  nl +:+ "Exiting foreground-only mode" +:+ nl +:+ ": ".
Definition message3 : string :=
  nl +:+ "Entering foreground-only mode (& is now ignored)" +:+ nl +:+ ": ".

Definition handle_SIGTSTP (sh : shell) : shell :=
  if foreground_only sh
  then set_foreground_only false (write_stdout message2 32 sh)
  else set_foreground_only true (write_stdout message3 53 sh).

(** The handler run once for each delivery. *)
Definition deliver_SIGTSTP (n : nat) (sh : shell) : shell :=
  Nat.iter n handle_SIGTSTP sh.

Definition ignore_SIGINT (sh : shell) : shell :=
  emit (Sigaction SIGINT "SIG_IGN") sh.
Definition restore_SIGINT (sh : shell) : shell :=
  emit (Sigaction SIGINT "SIG_DFL") sh.
Definition ignore_SIGTSTP (sh : shell) : shell :=
  emit (Sigaction SIGTSTP "SIG_IGN") sh.
Definition signal_handling (sh : shell) : shell :=
  emit (Sigaction SIGTSTP "handle_SIGTSTP") sh.

(** ** Built-in commands *)

Definition display_status (sh : shell) : shell :=
  if (status sh =? 0) || (status sh =? 1)
  then printf ("exit value " +:+ sprintf_d (status sh) +:+ nl) sh
  else printf ("terminated by signal " +:+ sprintf_d (status sh) +:+ nl) sh.

(** ** The registry of background children *)

(** The [for] loop of [remove_val_at_index], [n] iterations from [i]. *)
Fixpoint shift_down (n : nat) (i : Z) (arr : list Z) : outcome (list Z) :=
  match n with
  | O => Ret arr
  | S n' =>
      match array_read arr (i + 1) with
      | None => Undefined OutOfBounds
      | Some v =>
          match array_write arr i v with
          | None => Undefined OutOfBounds
          | Some arr' => shift_down n' (i + 1) arr'
          end
      end
  end.

Definition remove_val_at_index (arr : list Z) (arr_length index : Z)
    : outcome (list Z * Z) :=
  let* arr' := shift_down (Z.to_nat (arr_length - 1 - index)) index arr in
  Ret (arr', arr_length - 1).

(** The [for] loop of [check_background_procs].  [arr_length] is the count
    read once before the loop, [child_status] the local that [waitpid]
    stores into.  An iteration either moves [i] forward or reaps a child,
    which bounds their number. *)
Fixpoint check_loop (fuel : nat) (arr_length i : Z) (child_status : option Z)
    (sh : shell) : outcome shell :=
  if i <? arr_length then
    match fuel with
    | O => Undefined OutOfFuel
    | S fuel' =>
        match array_read (background_procs sh) i with
        | None => Undefined OutOfBounds
        | Some p =>
            let '(pid_check, stored, sh1) := sys_waitpid p WNOHANG sh in
            let child_status :=
              match stored with Some w => Some w | None => child_status end in
            if pid_check =? p then
              let* (arr, count) :=
                remove_val_at_index (background_procs sh1)
                                    (bg_proc_count sh1) i in
              let sh2 := set_registry arr count sh1 in
              let i := i - 1 in
              match child_status with
              | None => Undefined UninitializedRead
              | Some cs =>
                  let sh3 :=
                    if WIFEXITED cs
                    then printf ("background pid " +:+ sprintf_d pid_check
                                 +:+ " is done: exit value "
                                 +:+ sprintf_d (WEXITSTATUS cs) +:+ nl) sh2
                    else printf ("background pid " +:+ sprintf_d pid_check
                                 +:+ " is done: terminated by signal "
                                 +:+ sprintf_d (WTERMSIG cs) +:+ nl) sh2 in
                  check_loop fuel' arr_length (i + 1) child_status sh3
              end
            else check_loop fuel' arr_length (i + 1) child_status sh1
        end
    end
  else Ret sh.

Definition check_background_procs (sh : shell) : outcome shell :=
  let arr_length := bg_proc_count sh in
  check_loop (Z.to_nat arr_length + size (children sh)) arr_length 0 None sh.

(** The loop of [kill_children]. *)
Fixpoint kill_loop (n : nat) (i : Z) (sh : shell) : outcome shell :=
  match n with
  | O => Ret sh
  | S n' =>
      match array_read (background_procs sh) i with
      | None => Undefined OutOfBounds
      | Some p =>
          let sh1 := sys_kill p SIGKILL sh in
          let '(_, _, sh2) := sys_waitpid p WNOHANG sh1 in
          kill_loop n' (i + 1) sh2
      end
  end.

Definition kill_children (sh : shell) : outcome shell :=
  kill_loop (Z.to_nat (bg_proc_count sh)) 0 sh.

(** ** Launching commands *)

Section Shell.

Variable env : environment.

(** [change_dir]; the call of [get_cwd] that follows has no effect on
    the shell and is left out. *)
Definition change_dir (envpath : option string) (sh : shell) : shell :=
  let change_dir_num := chdir env envpath in
  let sh := emit (Chdir envpath change_dir_num) sh in
  if change_dir_num =? -1
  then printf ("Error changing directories." +:+ nl) sh
  else sh.

(** The test [command_line->run_in_background & !foreground_only], on
    the value the global has when the test is made. *)
Definition background_test (c : command_line) (sh : shell) : bool :=
  run_in_background c && negb (foreground_only sh).

(** The block both redirection functions contain twice: open [path],
    make the descriptor the standard one [newfd], and leave the process
    with status 1 when either step fails. *)
Definition redirect (path : string) (flags newfd : Z)
    (open_failed dup2_failed : string) (sh : shell) : outcome shell :=
  let fd := open env path flags in
  let sh := emit (Open path flags fd) sh in
  if fd =? -1 then Exit 1 (printf (open_failed +:+ nl) sh)
  else
    let result := dup2 env fd newfd in
    let sh := emit (Dup2 fd newfd result) sh in
    if result =? -1 then Exit 1 (printf (dup2_failed +:+ nl) sh)
    else Ret sh.

Definition input_redirect (c : command_line) (sh : shell) : outcome shell :=
  let* sh :=
    match input_file c with
    | Some path =>
        redirect path O_RDONLY 0
          ("cannot open " +:+ path +:+ " for input")
          "error redirecting stdin to input file" sh
    | None => Ret sh
    end in
  if background_test c sh && bool_decide (input_file c = None) then
    redirect "/dev/null" O_RDONLY 0
      "cannot open /dev/null for input"
      "error redirecting stdin to /dev/null" sh
  else Ret sh.

Definition output_redirect (c : command_line) (sh : shell) : outcome shell :=
  let* sh :=
    match output_file c with
    | Some path =>
        redirect path O_WRONLY_CREAT_TRUNC 1
          ("cannot open " +:+ path +:+ " for output")
          "error redirecting stdout to output file" sh
    | None => Ret sh
    end in
  if background_test c sh && bool_decide (output_file c = None) then
    redirect "/dev/null" O_WRONLY_CREAT_TRUNC 1
      "cannot open /dev/null for output"
      "error redirecting stdout to /dev/null" sh
  else Ret sh.

(** Lines 414 to 417 of [fork_child]. *)
Definition register_child (spawn_pid : Z) (c : command_line) (sh : shell)
    : outcome shell :=
  if background_test c sh then
    match array_write (background_procs sh) (bg_proc_count sh) spawn_pid with
    | Some arr => Ret (set_registry arr (bg_proc_count sh + 1) sh)
    | None => Undefined OutOfBounds
    end
  else Ret sh.

(** [case 0] of the switch: the child. *)
Definition child_case (s : schedule) (c : command_line) (sh : shell)
    : outcome shell :=
  let sh :=
    if negb (run_in_background c) || negb (foreground_only sh)
    then restore_SIGINT sh else sh in
  let sh := deliver_SIGTSTP (sig_late s) sh in
  let sh := ignore_SIGTSTP sh in
  let* sh := input_redirect c sh in
  let* sh := output_redirect c sh in
  let file := nth 0 (args c) None in
  match execvp env file (args c) with
  | Some w => Replaced w (emit (Execvp file (args c)) sh)
  | None => Exit 1 (emit (Perror (default "" file))
                         (emit (Execvp file (args c)) sh))
  end.

(** [default] of the switch: the shell. *)
Definition parent_case (spawn_pid : Z) (s : schedule) (c : command_line)
    (sh : shell) : outcome shell :=
  if background_test c sh then
    Ret (printf ("background PID is " +:+ sprintf_d spawn_pid +:+ nl) sh)
  else
    let sh := deliver_SIGTSTP (sig_late s) sh in
    let '(_, child_status, sh) := sys_waitpid spawn_pid 0 sh in
    match child_status with
    | None => Undefined UninitializedRead
    | Some cs =>
        if WIFEXITED cs then Ret (set_status (WEXITSTATUS cs) sh)
        else Ret (set_status (WTERMSIG cs)
                    (printf ("terminated by signal "
                             +:+ sprintf_d (WTERMSIG cs) +:+ nl) sh))
    end.

(** [fork_child] from the return of [fork()] on, in the process in which
    [fork()] returned [spawn_pid]. *)
Definition after_fork (spawn_pid : Z) (s : schedule) (c : command_line)
    (sh : shell) : outcome shell :=
  let sh := deliver_SIGTSTP (sig_after_fork s) sh in
  let* sh := register_child spawn_pid c sh in
  let sh := deliver_SIGTSTP (sig_after_register s) sh in
  if spawn_pid =? -1 then Exit 1 (emit (Perror ("fork()" +:+ nl)) sh)
  else if spawn_pid =? 0 then child_case s c sh
  else parent_case spawn_pid s c sh.

(** The wait status a process ends with.  The child of [fork_child] never
    returns from it: it exits or is replaced.  A child whose own store of
    line 415 is past the array is taken to die of a segmentation fault. *)
Definition wait_status_of (o : outcome shell) : Z :=
  match o with
  | Exit code _ => W_EXITCODE code
  | Replaced w _ => w
  | Ret _ => W_EXITCODE 0
  | Undefined _ => W_SIGNALED 11
  end.

(** [fork_child] in the shell: the child starts as a copy of the shell
    in which [fork()] returned 0. *)
Definition fork_child (l : launch) (c : command_line) (sh : shell)
    : outcome shell :=
  let fate :=
    wait_status_of (after_fork 0 (child_signals l) c (emit (Fork 0) sh)) in
  after_fork (spawn_pid l) (shell_signals l) c
             (sys_fork (spawn_pid l) fate sh).

(** The two stores of [handle_command_line] before it forks. *)
Definition add_NULL (c : command_line) : outcome command_line :=
  if args_count c <? 512 then
    Ret {| command := command c; args := args c ++ [None];
           args_count := args_count c + 1;
           input_file := input_file c; output_file := output_file c;
           run_in_background := run_in_background c |}
  else Undefined OutOfBounds.

Definition handle_command_line (l : launch) (c : command_line)
    (sh : shell) : outcome shell :=
  if String.eqb (command c) "cd" then
    if args_count c =? 1 then Ret (change_dir (getenv_HOME env) sh)
    else Ret (change_dir (nth 1 (args c) None) sh)
  else if String.eqb (command c) "status" then Ret (display_status sh)
  else
    let* c := add_NULL c in
    fork_child l c sh.

(** ** The loop of [main] *)

Definition initial_shell : shell :=
  signal_handling (ignore_SIGINT
    {| status := 0; background_procs := replicate 100 0;
       bg_proc_count := 0; foreground_only := false;
       children := ∅; trace := [] |}).

(** [get_command_line] when [getline] delivers a line. *)
Definition get_command_line (sh : shell) : shell := printf ": " sh.

(** The condition of the inner [do ... while]. *)
Definition inner_loop_repeats (command_line_str : string) : bool :=
  isspace (first_char command_line_str)
  || Ascii.eqb (first_char command_line_str) "#".

(** What follows the inner loop: the body of the [if], or the code after
    the outer loop when the line is the exit command. *)
Definition dispatch (l : launch) (command_line_str : string) (sh : shell)
    : outcome shell :=
  if negb (String.eqb ("exit" +:+ nl) command_line_str) then
    let* command_line_expanded :=
      variable_expansion (getpid env) command_line_str in
    let* command_line_parsed := parse_command_line command_line_expanded in
    handle_command_line l command_line_parsed sh
  else
    let* sh := kill_children sh in
    Exit 0 sh.

(** One pass through the body of the inner loop with the line that
    [getline] delivers, and the dispatch of the line when the inner loop
    ends with it. *)
Definition main_turn (l : launch) (command_line_str : string) (sh : shell)
    : outcome shell :=
  let* sh := check_background_procs sh in
  let sh := get_command_line sh in
  if inner_loop_repeats command_line_str then Ret sh
  else dispatch l command_line_str sh.

(** [main] on the lines [getline] delivers, each with what happens in the
    launch that it may cause; the children change their state between two
    turns only, through [child_terminates]. *)
Fixpoint main_loop (input : list (string * launch)) (sh : shell)
    : outcome shell :=
  match input with
  | [] => Ret sh
  | (command_line_str, l) :: rest =>
      let* sh := main_turn l command_line_str sh in
      main_loop rest sh
  end.

(** ** The launch as the specification words it

    Eligibility is decided once, from the state in which the launch
    begins, and the registration, the parent's choice between waiting and
    returning, and the two null-device fallbacks take that decision
    instead of a test of their own.  Everything else, the SIGINT
    disposition of the child included, is as in the functions above. *)

Definition input_redirect_decided (eligible : bool) (c : command_line)
    (sh : shell) : outcome shell :=
  let* sh :=
    match input_file c with
    | Some path =>
        redirect path O_RDONLY 0
          ("cannot open " +:+ path +:+ " for input")
          "error redirecting stdin to input file" sh
    | None => Ret sh
    end in
  if eligible && bool_decide (input_file c = None) then
    redirect "/dev/null" O_RDONLY 0
      "cannot open /dev/null for input"
      "error redirecting stdin to /dev/null" sh
  else Ret sh.

Definition output_redirect_decided (eligible : bool) (c : command_line)
    (sh : shell) : outcome shell :=
  let* sh :=
    match output_file c with
    | Some path =>
        redirect path O_WRONLY_CREAT_TRUNC 1
          ("cannot open " +:+ path +:+ " for output")
          "error redirecting stdout to output file" sh
    | None => Ret sh
    end in
  if eligible && bool_decide (output_file c = None) then
    redirect "/dev/null" O_WRONLY_CREAT_TRUNC 1
      "cannot open /dev/null for output"
      "error redirecting stdout to /dev/null" sh
  else Ret sh.

Definition after_fork_decided (eligible : bool) (spawn_pid : Z)
    (s : schedule) (c : command_line) (sh : shell) : outcome shell :=
  let sh := deliver_SIGTSTP (sig_after_fork s) sh in
  let* sh :=
    if eligible then
      match array_write (background_procs sh) (bg_proc_count sh)
                        spawn_pid with
      | Some arr => Ret (set_registry arr (bg_proc_count sh + 1) sh)
      | None => Undefined OutOfBounds
      end
    else Ret sh in
  let sh := deliver_SIGTSTP (sig_after_register s) sh in
  if spawn_pid =? -1 then Exit 1 (emit (Perror ("fork()" +:+ nl)) sh)
  else if spawn_pid =? 0 then
    let sh :=
      if negb (run_in_background c) || negb (foreground_only sh)
      then restore_SIGINT sh else sh in
    let sh := deliver_SIGTSTP (sig_late s) sh in
    let sh := ignore_SIGTSTP sh in
    let* sh := input_redirect_decided eligible c sh in
    let* sh := output_redirect_decided eligible c sh in
    let file := nth 0 (args c) None in
    match execvp env file (args c) with
    | Some w => Replaced w (emit (Execvp file (args c)) sh)
    | None => Exit 1 (emit (Perror (default "" file))
                           (emit (Execvp file (args c)) sh))
    end
  else if eligible then
    Ret (printf ("background PID is " +:+ sprintf_d spawn_pid +:+ nl) sh)
  else
    let sh := deliver_SIGTSTP (sig_late s) sh in
    let '(_, child_status, sh) := sys_waitpid spawn_pid 0 sh in
    match child_status with
    | None => Undefined UninitializedRead
    | Some cs =>
        if WIFEXITED cs then Ret (set_status (WEXITSTATUS cs) sh)
        else Ret (set_status (WTERMSIG cs)
                    (printf ("terminated by signal "
                             +:+ sprintf_d (WTERMSIG cs) +:+ nl) sh))
    end.


End Shell.

(** ** Notions of the specification *)

(** A line that is blank or holds only white space, or whose first
    character other than white space is the comment marker. *)
Fixpoint skip_spaces (s : string) : string :=
  match s with
  | EmptyString => EmptyString
  | String c rest => if isspace c then skip_spaces rest else s
  end.

Definition blank_or_comment (line : string) : bool :=
  match skip_spaces line with
  | EmptyString => true
  | String c _ => Ascii.eqb c "#"
  end.

(** A line is skipped when a turn of the loop with it does nothing but the
    reaping pass and the prompt, and dispatched when the turn goes on to
    [dispatch]. *)
Definition skipped (env : environment) (line : string) : Prop :=
  ∀ l sh, main_turn env l line sh
          = (let* sh1 := check_background_procs sh in
             Ret (get_command_line sh1)).

Definition dispatched (env : environment) (line : string) : Prop :=
  ∀ l sh, main_turn env l line sh
          = (let* sh1 := check_background_procs sh in
             dispatch env l line (get_command_line sh1)).

(** A bare redirection operator, and the number of such tokens a list of
    tokens ends with. *)
Definition is_operator (token : string) : bool :=
  String.eqb token "<" || String.eqb token ">".

Fixpoint leading_operators (tokens : list string) : nat :=
  match tokens with
  | [] => O
  | token :: rest =>
      if is_operator token then S (leading_operators rest) else O
  end.

Definition trailing_operators (tokens : list string) : nat :=
  leading_operators (rev tokens).

(** The registry as a collection: the identifiers tracked. *)
Definition registry (sh : shell) : list Z :=
  take (Z.to_nat (bg_proc_count sh)) (background_procs sh).

(** A tracked child has terminated and waits to be reaped. *)
Definition has_terminated (sh : shell) (pid : Z) : bool :=
  match children sh !! pid with
  | Some c => terminated c
  | None => false
  end.

(** The line [check_background_procs] prints for a reaped child. *)
Definition report (sh : shell) (pid : Z) : event :=
  let cs := default 0 (wstatus <$> children sh !! pid) in
  if WIFEXITED cs
  then Stdout ("background pid " +:+ sprintf_d pid
               +:+ " is done: exit value "
               +:+ sprintf_d (WEXITSTATUS cs) +:+ nl)
  else Stdout ("background pid " +:+ sprintf_d pid
               +:+ " is done: terminated by signal "
               +:+ sprintf_d (WTERMSIG cs) +:+ nl).

Definition is_stdout (e : event) : bool :=
  match e with Stdout _ => true | _ => false end.

Definition nonblocking (e : event) : bool :=
  match e with
  | Waitpid _ options _ => negb (Z.land options WNOHANG =? 0)
  | _ => true
  end.

(** The outcome of the two tests the shell makes during a launch: the one
    of line 414, which decides the registration, and the one of line 444,
    which decides between returning and waiting.  Each sees the global as
    the deliveries before it have left it. *)
Definition registers (l : launch) (c : command_line) (sh : shell) : bool :=
  background_test c
    (deliver_SIGTSTP (sig_after_fork (shell_signals l)) sh).

Definition detaches (l : launch) (c : command_line) (sh : shell) : bool :=
  background_test c
    (deliver_SIGTSTP (sig_after_fork (shell_signals l)
                      + sig_after_register (shell_signals l)) sh).

(** The wait status the child of a launch ends with. *)
Definition child_fate (env : environment) (l : launch) (c : command_line)
    (sh : shell) : Z :=
  wait_status_of (after_fork env 0 (child_signals l) c (emit (Fork 0) sh)).

(** The events a process has added to a trace. *)
Definition since (before after : shell) : list event :=
  drop (length (trace before)) (trace after).

Definition is_execvp (e : event) : bool :=
  match e with Execvp _ _ => true | _ => false end.

(** ** A sample environment *)

Definition sample_env : environment :=
  {| getpid := 4242;
     getenv_HOME := Some "/home/user";
     chdir := λ path, if bool_decide (path = Some "/nowhere") then -1 else 0;
     open := λ path _, if String.eqb path "missing_file" then -1 else 3;
     dup2 := λ _ newfd, newfd;
     execvp := λ file _,
       match file with
       | Some "true" => Some (W_EXITCODE 0)
       | Some "false" => Some (W_EXITCODE 1)
       | Some "grep" => Some (W_EXITCODE 2)
       | Some "cat" => Some (W_EXITCODE 0)
       | Some "sleep" => Some (W_EXITCODE 0)
       | Some "killed" => Some (W_SIGNALED 9)
       | _ => None
       end |}.

Definition undisturbed (pid : Z) : launch := mk_launch pid quiet quiet.

(** A command of one word as [handle_command_line] hands it to
    [fork_child], and the same with an input file. *)
Definition one_word (name : string) (background : bool) : command_line :=
  {| command := name; args := [Some name; None]; args_count := 2;
     input_file := None; output_file := None;
     run_in_background := background |}.

Definition reading (name path : string) : command_line :=
  {| command := name; args := [Some name; None]; args_count := 2;
     input_file := Some path; output_file := None;
     run_in_background := false |}.

(** A shell with three background children, of which the first has
    exited and the third has been killed. *)
Definition three_jobs : shell :=
  {| status := 0;
     background_procs := [10; 11; 12] ++ replicate 97 0;
     bg_proc_count := 3;
     foreground_only := false;
     children := {[ 10 := mk_child true (W_EXITCODE 3);
                    11 := mk_child false (W_EXITCODE 0);
                    12 := mk_child true (W_SIGNALED 15) ]};
     trace := [] |}.

(** ** Further notions *)

(** The registry as [main] sets it up and as the loop is meant to keep it:
    one hundred slots, a count within them, and in the counted slots the
    distinct identifiers of children. *)
Definition registry_ok (sh : shell) : Prop :=
  length (background_procs sh) = 100%nat
  ∧ 0 ≤ bg_proc_count sh ≤ 100
  ∧ Forall (λ p, 0 < p) (registry sh)
  ∧ NoDup (registry sh).

(** The identifier a [kill] with SIGKILL is aimed at. *)
Definition kill_target (e : event) : option Z :=
  match e with
  | Kill pid 9 => Some pid
  | _ => None
  end.

Definition is_descriptor_call (e : event) : bool :=
  match e with
  | Open _ _ _ | Dup2 _ _ _ => true
  | _ => false
  end.

Definition is_fork (e : event) : bool :=
  match e with Fork _ => true | _ => false end.

(** The string holds the character. *)
Fixpoint mentions (c : ascii) (s : string) : bool :=
  match s with
  | EmptyString => false
  | String a rest => Ascii.eqb a c || mentions c rest
  end.

(** What the handler of SIGTSTP has written when it returns: the message
    of the mode that is left or entered. *)
Definition mode_message (leaving : bool) : event :=
  if leaving
  then Stdout (nl +:+ "Exiting foreground-only mode" +:+ nl +:+ ": ")
  else Stdout (nl +:+ "Entering foreground-only mode (& is now ignored)"
               +:+ nl +:+ ": " +:+ nul).

Definition is_process_call (e : event) : bool :=
  match e with
  | Fork _ | Waitpid _ _ _ | Kill _ _ => true
  | _ => false
  end.

(** The redirections a child owes its command: for standard input and
    then for standard output, the file the command names or, when the
    command names none and is eligible for the background, the null
    device.  Each is a path, the flags it is opened with, and the
    descriptor it is to replace. *)
Definition redirections (c : command_line) (eligible : bool)
    : list (string * Z * Z) :=
  match input_file c with
  | Some path => [(path, O_RDONLY, 0)]
  | None => if eligible then [("/dev/null", O_RDONLY, 0)] else []
  end
  ++ match output_file c with
     | Some path => [(path, O_WRONLY_CREAT_TRUNC, 1)]
     | None => if eligible then [("/dev/null", O_WRONLY_CREAT_TRUNC, 1)] else []
     end.

(** Carrying the redirections out in order, each by [open] and [dup2],
    up to the first call that fails: the calls made, and whether all
    succeeded. *)
Fixpoint perform (env : environment) (rs : list (string * Z * Z))
    : list event * bool :=
  match rs with
  | [] => ([], true)
  | (path, flags, newfd) :: rest =>
      let fd := open env path flags in
      if fd =? -1 then ([Open path flags fd], false)
      else
        let result := dup2 env fd newfd in
        if result =? -1 then ([Open path flags fd; Dup2 fd newfd result], false)
        else (Open path flags fd :: Dup2 fd newfd result
                :: fst (perform env rest),
              snd (perform env rest))
  end.

Definition is_sigaction (e : event) : bool :=
  match e with Sigaction _ _ => true | _ => false end.

(** The command without its mark for the background. *)
Definition in_foreground (c : command_line) : command_line :=
  {| command := command c; args := args c; args_count := args_count c;
     input_file := input_file c; output_file := output_file c;
     run_in_background := false |}.

(** A line of [n] words. *)
Definition words (n : nat) : string := String.concat " " (repeat "w" n).

(** The test of line 414 as the child makes it in its own copy of the
    shell, and the condition under which the store of line 415 is within
    the array: the count is the index of one of its slots. *)
Definition registers_in_child (l : launch) (c : command_line) (sh : shell)
    : bool :=
  background_test c
    (deliver_SIGTSTP (sig_after_fork (child_signals l)) sh).

Definition has_free_slot (sh : shell) : Prop :=
  0 ≤ bg_proc_count sh < Z.of_nat (length (background_procs sh)).

(** ** The loop of [main] and what happens around it *)

(** What happens to the shell from outside while it runs: a child
    terminates, or SIGTSTP is delivered and the handler runs. *)
Inductive happening :=
| ChildEnds (pid : Z)
| Sigtstp.

Definition happen (h : happening) (sh : shell) : shell :=
  match h with
  | ChildEnds pid => child_terminates pid sh
  | Sigtstp => handle_SIGTSTP sh
  end.

Definition happenings (hs : list happening) (sh : shell) : shell :=
  fold_left (λ s h, happen h s) hs sh.

(** One pass through the body of the inner loop, and the dispatch when
    the inner loop ends with the line: what happens before the pass over
    the registry, what happens while the shell is blocked in [getline],
    what [getline] delivers ([None] when it fails), and the launch the
    line may cause. *)
Record step := mk_step {
  before_pass : list happening;
  at_prompt : list happening;
  line_read : option string;
  launched : launch
}.

(** [get_command_line] and what follows it in [main].  When [getline]
    fails, [get_command_line] prints its error line and returns the buffer
    as [getline] left it, and the condition of the inner loop reads its
    first character, which nothing has stored. *)
Definition turn (env : environment) (t : step) (sh : shell) : outcome shell :=
  let* sh := check_background_procs (happenings (before_pass t) sh) in
  let sh := happenings (at_prompt t) (printf ": " sh) in
  match line_read t with
  | None =>
      let sh := printf ("error reading line" +:+ nl) sh in
      Undefined UninitializedRead
  | Some command_line_str =>
      if inner_loop_repeats command_line_str then Ret sh
      else dispatch env (launched t) command_line_str sh
  end.

Fixpoint session (env : environment) (steps : list step) (sh : shell)
    : outcome shell :=
  match steps with
  | [] => Ret sh
  | t :: rest =>
      let* sh := turn env t sh in
      session env rest sh
  end.

(** A fault of memory: a string buffer overrun, a NULL token dereferenced,
    an array indexed outside its allocation. *)
Definition memory_fault (f : fault) : bool :=
  match f with
  | BufferOverflow | NullDereference | OutOfBounds => true
  | UninitializedRead | OutOfFuel => false
  end.

(** The computation returns, or its behaviour is undefined by one of the
    faults allowed; it does not end the process. *)
Definition faults_within {A} (allowed : fault → bool) (o : outcome A) : Prop :=
  match o with
  | Ret _ => True
  | Undefined f => allowed f = true
  | Exit _ _ | Replaced _ _ => False
  end.

(** * Properties *)

(** ** Strings *)

Arguments String.append !_ _ / : simpl nomatch.

Lemma app_assoc_s (a b c : string) : (a +:+ b) +:+ c = a +:+ (b +:+ c).
Proof. induction a as [|x a IH]; simpl; [done | by rewrite IH]. Qed.

Lemma app_nil_r_s (a : string) : a +:+ "" = a.
Proof. induction a as [|x a IH]; simpl; [done | by rewrite IH]. Qed.

Lemma length_app_s (a b : string) :
  String.length (a +:+ b) = (String.length a + String.length b)%nat.
Proof. induction a as [|x a IH]; simpl; [done | by rewrite IH]. Qed.

Lemma strlen_app (a b : string) : strlen (a +:+ b) = strlen a + strlen b.
Proof. unfold strlen. rewrite length_app_s. lia. Qed.

Lemma strlen_nonneg (a : string) : 0 ≤ strlen a.
Proof. unfold strlen. lia. Qed.

Lemma strlen_cons (x : ascii) (a : string) : strlen (String x a) = strlen a + 1.
Proof. unfold strlen. simpl. lia. Qed.

Lemma take_chars_app (a b : string) : take_chars (strlen a) (a +:+ b) = a.
Proof.
  induction a as [|x a IH]; simpl.
  - by destruct b.
  - rewrite strlen_cons.
    pose proof (strlen_nonneg a).
    destruct (Z.leb_spec (strlen a + 1) 0); [lia|].
    replace (strlen a + 1 - 1) with (strlen a) by lia. by rewrite IH.
Qed.

Lemma advance_app (a b : string) : advance (strlen a) (a +:+ b) = b.
Proof.
  induction a as [|x a IH]; simpl.
  - by destruct b.
  - rewrite strlen_cons.
    pose proof (strlen_nonneg a).
    destruct (Z.leb_spec (strlen a + 1) 0); [lia|].
    replace (strlen a + 1 - 1) with (strlen a) by lia. by rewrite IH.
Qed.

(** ** Expansion of [$$] *)

Lemma prefix_cons (a b : ascii) (s1 s2 : string) :
  String.prefix (String a s1) (String b s2)
  = if ascii_dec a b then String.prefix s1 s2 else false.
Proof. done. Qed.

Lemma prefix_dollars_cons (a b : ascii) (r : string) :
  String.prefix "$$" (String a (String b r))
  = Ascii.eqb a "$" && Ascii.eqb b "$".
Proof.
  rewrite !prefix_cons. cbn [String.prefix].
  destruct (ascii_dec "$" a) as [<-|Ha].
  - destruct (ascii_dec "$" b) as [<-|Hb]; [by destruct r|].
    symmetry. apply andb_false_intro2, Ascii.eqb_neq. congruence.
  - symmetry. apply andb_false_intro1, Ascii.eqb_neq. congruence.
Qed.

Lemma prefix_dollars_short (a : ascii) : String.prefix "$$" (String a "") = false.
Proof. rewrite prefix_cons. by destruct (ascii_dec "$" a). Qed.

Lemma replace_dollars_hit (pid r : string) :
  replace_dollars pid ("$$" +:+ r) = pid +:+ replace_dollars pid r.
Proof. done. Qed.

Lemma replace_dollars_miss (pid : string) (a : ascii) (r : string) :
  String.prefix "$$" (String a r) = false →
  replace_dollars pid (String a r) = String a (replace_dollars pid r).
Proof.
  destruct r as [|b r]; [done|].
  rewrite prefix_dollars_cons. simpl. by intros ->.
Qed.

Lemma prefix_dollars_inv (s : string) :
  String.prefix "$$" s = true → ∃ r, s = "$$" +:+ r.
Proof.
  destruct s as [|a [|b r]]; [done | by rewrite prefix_dollars_short |].
  rewrite prefix_dollars_cons.
  intros [->%Ascii.eqb_eq ->%Ascii.eqb_eq]%andb_true_iff. by exists r.
Qed.

(** What [strstr] finds is the leftmost occurrence: the characters before
    it are kept by the replacement. *)
Lemma strstr_dollars_Some (pid s found : string) :
  strstr s "$$" = Some found →
  ∃ pre rest, s = pre +:+ found ∧ found = "$$" +:+ rest
              ∧ replace_dollars pid s = pre +:+ pid +:+ replace_dollars pid rest.
Proof.
  induction s as [|a r IH]; [done|].
  cbn [strstr]. destruct (String.prefix "$$" (String a r)) eqn:Hp.
  - intros [= <-]. destruct (prefix_dollars_inv _ Hp) as [rest Hr].
    exists "", rest. rewrite Hr. by rewrite replace_dollars_hit.
  - intros Hs. destruct (IH Hs) as (pre & rest & -> & -> & Hrep).
    exists (String a pre), rest. split_and!; [done..|].
    rewrite replace_dollars_miss by done. by rewrite Hrep.
Qed.

Lemma strstr_dollars_None (pid s : string) :
  strstr s "$$" = None → replace_dollars pid s = s.
Proof.
  induction s as [|a r IH]; [done|].
  cbn [strstr]. destruct (String.prefix "$$" (String a r)) eqn:Hp; [done|].
  intros Hs. rewrite replace_dollars_miss by done. by rewrite IH.
Qed.

Lemma strstr_dollars_snoc (body : string) (c : ascii) :
  c ≠ "$"%char →
  strstr (body +:+ String c "") "$$"
  = (λ found, found +:+ String c "") <$> strstr body "$$".
Proof.
  intros Hc. induction body as [|a r IH].
  - cbn [String.append strstr]. by rewrite prefix_dollars_short.
  - change (String a r +:+ String c "")
      with (String a (r +:+ String c "")).
    cbn [strstr].
    assert (String.prefix "$$" (String a (r +:+ String c ""))
            = String.prefix "$$" (String a r)) as ->.
    { destruct r as [|b r].
      - rewrite prefix_dollars_short. cbn [String.append].
        rewrite prefix_dollars_cons.
        apply andb_false_intro2, Ascii.eqb_neq. congruence.
      - change (String b r +:+ String c "") with (String b (r +:+ String c "")).
        by rewrite !prefix_dollars_cons. }
    destruct (String.prefix "$$" (String a r)); [done|]. apply IH.
Qed.

Lemma size_sub_small (a b : Z) : 0 ≤ a - b < 2048 → size_sub a b = a - b.
Proof. intros H. unfold size_sub. apply Z.mod_small. lia. Qed.

(** The loop and the final [strncat] on a line that ends in a character
    other than the dollar sign. *)
Lemma expansion_loop_replaces (pid : string) (c : ascii) (fuel : nat) :
  c ≠ "$"%char →
  ∀ expanded body,
    (String.length body ≤ fuel)%nat →
    strlen (expanded +:+ replace_dollars pid body) < 2048 →
    (let* (expanded', str_pointer) :=
       expansion_loop fuel pid expanded (body +:+ String c "")
                      (strstr (body +:+ String c "") "$$") in
     strncat 2048 expanded' str_pointer (size_sub (strlen str_pointer) 1))
    = Ret (expanded +:+ replace_dollars pid body).
Proof.
  intros Hc. induction fuel as [|fuel IH]; intros expanded body Hfuel Hfit.
  - destruct body; [|simpl in Hfuel; lia].
    cbn [String.append strstr]. rewrite prefix_dollars_short.
    cbn [expansion_loop bind].
    unfold strncat. rewrite app_nil_r_s in Hfit.
    change (size_sub (strlen (String c "")) 1) with 0. simpl.
    rewrite app_nil_r_s. by destruct (Z.ltb_spec (strlen expanded) 2048); [|lia].
  - rewrite strstr_dollars_snoc by done.
    destruct (strstr body "$$") as [found|] eqn:Hs; simpl.
    + destruct (strstr_dollars_Some pid _ _ Hs) as (pre & rest & -> & -> & Hrep).
      rewrite Hrep in Hfit. rewrite !strlen_app in Hfit.
      pose proof (strlen_nonneg expanded). pose proof (strlen_nonneg pre).
      pose proof (strlen_nonneg pid).
      pose proof (strlen_nonneg (replace_dollars pid rest)).
      rewrite !app_assoc_s.
      rewrite size_sub_small by (rewrite !strlen_app; lia).
      replace (strlen (pre +:+ "$$" +:+ rest +:+ String c "")
               - strlen ("$$" +:+ rest +:+ String c "")) with (strlen pre)
        by (rewrite !strlen_app; lia).
      unfold strncat at 1. rewrite take_chars_app.
      destruct (Z.ltb_spec (strlen (expanded +:+ pre)) 2048);
        [|rewrite strlen_app in *; lia].
      cbn [bind]. unfold strcat.
      destruct (Z.ltb_spec (strlen ((expanded +:+ pre) +:+ pid)) 2048);
        [|rewrite !strlen_app in *; lia].
      cbn [bind].
      replace (strlen pre + strlen "$$") with (strlen (pre +:+ "$$"))
        by (by rewrite strlen_app).
      rewrite <- (app_assoc_s pre "$$"), advance_app.
      rewrite IH.
      * rewrite Hrep. by rewrite !app_assoc_s.
      * rewrite !length_app_s in Hfuel. simpl in Hfuel. lia.
      * rewrite !strlen_app. lia.
    + rewrite (strstr_dollars_None pid _ Hs) in *.
      rewrite strlen_app in Hfit.
      pose proof (strlen_nonneg expanded). pose proof (strlen_nonneg body).
      unfold strncat.
      rewrite size_sub_small by (rewrite strlen_app; change (strlen (String c "")) with 1; lia).
      replace (strlen (body +:+ String c "") - 1) with (strlen body)
        by (rewrite strlen_app; change (strlen (String c "")) with 1; lia).
      rewrite take_chars_app.
      by destruct (Z.ltb_spec (strlen (expanded +:+ body)) 2048);
        [|rewrite strlen_app in *; lia].
Qed.

(** C2 (as amended): for every line that ends with its newline and whose
    expansion fits the 2048-byte buffer, [variable_expansion] returns the
    line without that newline and with each occurrence of the two-character
    token, taken left to right without overlap, replaced by the decimal
    string of the shell's process identifier, every other character kept;
    a line without the token comes back unchanged but for the newline. *)
Theorem variable_expansion_replaces (getpid : Z) (body : string) :
  strlen (replace_dollars (sprintf_d getpid) body) < 2048 →
  variable_expansion getpid (body +:+ nl)
  = Ret (replace_dollars (sprintf_d getpid) body)
  ∧ (has_dollars body = false →
     variable_expansion getpid (body +:+ nl) = Ret body).
Proof.
  intros Hfit.
  assert (variable_expansion getpid (body +:+ nl)
          = Ret (replace_dollars (sprintf_d getpid) body)) as Heq.
  { unfold variable_expansion.
    pose proof (expansion_loop_replaces (sprintf_d getpid) "010"
                  (String.length (body +:+ nl)) ltac:(done) "" body) as H.
    simpl in H. apply H; [|done].
    rewrite length_app_s. lia. }
  split; [done|].
  unfold has_dollars. destruct (strstr body "$$") eqn:Hs; [done|].
  intros _. by rewrite Heq, (strstr_dollars_None _ _ Hs).
Qed.

Lemma variable_expansion_replaces_witness :
  variable_expansion 4242 ("echo $$ > out$$$" +:+ nl)
  = Ret (replace_dollars (sprintf_d 4242) "echo $$ > out$$$")
  ∧ (has_dollars "echo $$ > out$$$" = false →
     variable_expansion 4242 ("echo $$ > out$$$" +:+ nl)
     = Ret "echo $$ > out$$$").
Proof. apply (variable_expansion_replaces 4242 "echo $$ > out$$$"). by vm_compute. Defined.

(** C2, as stated, fails: a line without the token is not returned as it
    is, its last character is cut off; and the expansion of the result
    cuts off one more. *)
Lemma variable_expansion_not_identity :
  has_dollars ("ls" +:+ nl) = false
  ∧ variable_expansion 4242 ("ls" +:+ nl) = Ret "ls"
  ∧ variable_expansion 4242 ("ls" +:+ nl) ≠ Ret ("ls" +:+ nl)
  ∧ variable_expansion 4242 "ls" = Ret "l".
Proof. by vm_compute. Qed.

(** The buffer of the expansion has 2048 bytes: a line of 2048 characters
    and its newline is written past its end. *)
Lemma variable_expansion_overflows :
  variable_expansion 4242
    (string_of_list_ascii (repeat "a"%char 2048) +:+ nl)
  = Undefined BufferOverflow.
Proof. by vm_compute. Qed.

(** ** Parsing *)

Lemma is_token_eqb (c : ascii) (token : string) :
  is_token c token = String.eqb token (String c "").
Proof.
  unfold is_token. destruct token as [|a [|b r]].
  - change (strlen "" =? 1) with false. apply andb_false_r.
  - change (strlen (String a "") =? 1) with true.
    cbn [first_char String.eqb]. by destruct (Ascii.eqb a c).
  - cbn [first_char String.eqb]. rewrite !strlen_cons.
    pose proof (strlen_nonneg r).
    destruct (Z.eqb_spec (strlen r + 1 + 1) 1); [lia|].
    rewrite andb_false_r. by destruct (Ascii.eqb a c).
Qed.

Lemma is_operator_tokens (token : string) :
  is_operator token = is_token "<" token || is_token ">" token.
Proof. by rewrite !is_token_eqb. Qed.

Lemma leading_operators_le (l : list string) :
  (leading_operators l ≤ length l)%nat.
Proof. induction l as [|t l IH]; simpl; [lia|]. destruct (is_operator t); lia. Qed.

Lemma leading_operators_snoc (l : list string) (t : string) :
  leading_operators (l ++ [t])
  = if (leading_operators l =? length l)%nat && is_operator t
    then S (leading_operators l) else leading_operators l.
Proof.
  induction l as [|x l IH]; simpl.
  - by destruct (is_operator t).
  - destruct (is_operator x); [|done]. rewrite IH.
    change (S (leading_operators l) =? S (length l))%nat
      with (leading_operators l =? length l)%nat.
    by destruct ((leading_operators l =? length l)%nat && is_operator t).
Qed.

Lemma trailing_operators_cons (t : string) (r : list string) :
  trailing_operators (t :: r)
  = if (trailing_operators r =? length r)%nat && is_operator t
    then S (trailing_operators r) else trailing_operators r.
Proof.
  unfold trailing_operators. simpl rev.
  by rewrite leading_operators_snoc, length_rev.
Qed.

Lemma trailing_operators_le (r : list string) :
  (trailing_operators r ≤ length r)%nat.
Proof.
  unfold trailing_operators. rewrite <- (length_rev r).
  apply leading_operators_le.
Qed.

Lemma trailing_operators_argument (t : string) (r : list string) :
  is_operator t = false → trailing_operators (t :: r) = trailing_operators r.
Proof. intros H. by rewrite trailing_operators_cons, H, andb_false_r. Qed.

Lemma trailing_operators_pair (t p : string) (r : list string) :
  is_operator t = true →
  Nat.odd (trailing_operators (t :: p :: r)) = Nat.odd (trailing_operators r).
Proof.
  intros Ht. rewrite (trailing_operators_cons t), Ht, andb_true_r.
  rewrite (trailing_operators_cons p).
  pose proof (trailing_operators_le r) as Hle.
  destruct (Nat.eqb_spec (trailing_operators r) (length r)) as [He|Hne];
    cbn [andb].
  - destruct (is_operator p).
    + cbn [length]. rewrite He, Nat.eqb_refl. by rewrite Nat.odd_succ_succ.
    + cbn [length]. destruct (Nat.eqb_spec (trailing_operators r) (S (length r)));
        [lia | done].
  - cbn [length]. destruct (Nat.eqb_spec (trailing_operators r) (S (length r)));
      [lia | done].
Qed.

Lemma trailing_operators_last (r : list string) :
  (0 < trailing_operators r)%nat →
  ∃ t, last r = Some t ∧ is_operator t = true.
Proof.
  unfold trailing_operators.
  destruct (rev r) as [|t l] eqn:E; simpl; [lia|].
  apply (f_equal (@rev string)) in E. rewrite rev_involutive in E. subst r.
  destruct (is_operator t) eqn:Ht; [|lia].
  intros _. exists t. simpl. by rewrite last_snoc.
Qed.

(** The loop dereferences a null token exactly when the tokens it is
    given end in an odd number of bare operators, and returns otherwise,
    as long as the argument array has room. *)
Lemma parse_tokens_null (k : nat) :
  ∀ rest parsed args_list n,
    (length rest ≤ k)%nat → n + Z.of_nat (length rest) ≤ 512 →
    if Nat.odd (trailing_operators rest)
    then parse_tokens rest parsed args_list n = Undefined NullDereference
    else ∃ r, parse_tokens rest parsed args_list n = Ret r.
Proof.
  induction k as [|k IH]; intros rest parsed args_list n Hk Hroom.
  { destruct rest; [|simpl in Hk; lia]. simpl. eauto. }
  destruct rest as [|t rest]; [simpl; eauto|].
  cbn [parse_tokens]. pose proof (is_operator_tokens t) as Hop.
  destruct (is_token "<" t) eqn:Hlt; [|destruct (is_token ">" t) eqn:Hgt].
  1,2: destruct rest as [|p rest];
    [ by rewrite trailing_operators_cons, Hop
    | rewrite trailing_operators_pair by done;
      apply IH; simpl in *; lia ].
  rewrite trailing_operators_argument by done.
  simpl in Hroom. destruct (Z.ltb_spec n 512); [|lia].
  apply IH; simpl in *; lia.
Qed.

(** C10 (as amended): on a line with a command token and at most 511
    further tokens, [parse_command_line] dereferences a null token exactly
    when the tokens after the command end in an odd number of consecutive
    bare [<] or [>] tokens (an operator in operator position is then the
    last token), and returns a command otherwise; when every bare operator
    after the command is followed by another token, the branch is not
    reached. *)
Theorem parse_null_dereference (s token : string) (rest : list string) :
  strtok_all s = token :: rest →
  (length rest < 512)%nat →
  (parse_command_line s = Undefined NullDereference
   ↔ Nat.odd (trailing_operators rest) = true)
  ∧ (Nat.odd (trailing_operators rest) = false →
     ∃ c, parse_command_line s = Ret c)
  ∧ ((∀ i t, rest !! i = Some t → is_operator t = true →
             is_Some (rest !! S i)) →
     ∃ c, parse_command_line s = Ret c).
Proof.
  intros Htok Hlen. unfold parse_command_line. rewrite Htok.
  pose proof (parse_tokens_null (length rest) rest
    {| command := token; args := args initialize_struct; args_count := 0;
       input_file := None; output_file := None; run_in_background := false |}
    [Some token] 1 ltac:(lia) ltac:(lia)) as H.
  assert (Nat.odd (trailing_operators rest) = false →
          ∃ c, (let* (parsed, args_list, args_count) :=
                  parse_tokens rest
                    {| command := token; args := args initialize_struct;
                       args_count := 0; input_file := None;
                       output_file := None; run_in_background := false |}
                    [Some token] 1 in
                if (1 <? args_count)
                   && bool_decide (last args_list = Some (Some "&"))
                then Ret {| command := command parsed;
                            args := removelast args_list;
                            args_count := args_count - 1;
                            input_file := input_file parsed;
                            output_file := output_file parsed;
                            run_in_background := true |}
                else Ret {| command := command parsed;
                            args := args_list;
                            args_count := args_count;
                            input_file := input_file parsed;
                            output_file := output_file parsed;
                            run_in_background := run_in_background parsed |})
               = Ret c) as Heven.
  { intros Hev. rewrite Hev in H. destruct H as [[[parsed al] n] ->].
    cbn [bind]. destruct (_ && _); eauto. }
  split_and!; [|done|].
  - destruct (Nat.odd (trailing_operators rest)) eqn:Hodd.
    + by rewrite H.
    + destruct (Heven eq_refl) as [c ->]. done.
  - intros Hfollow. apply Heven.
    destruct (trailing_operators rest) eqn:HT; [done|].
    destruct (trailing_operators_last rest ltac:(lia)) as (t & Hlast & Ht).
    rewrite last_lookup in Hlast.
    destruct (Hfollow _ _ Hlast Ht) as [x Hx].
    apply lookup_lt_Some in Hx. destruct rest; simpl in *; lia.
Qed.

Lemma parse_null_dereference_witness :
  (parse_command_line "wc -l < in > out" = Undefined NullDereference
   ↔ Nat.odd (trailing_operators ["-l"; "<"; "in"; ">"; "out"]) = true)
  ∧ (Nat.odd (trailing_operators ["-l"; "<"; "in"; ">"; "out"]) = false →
     ∃ c, parse_command_line "wc -l < in > out" = Ret c)
  ∧ ((∀ i t, ["-l"; "<"; "in"; ">"; "out"] !! i = Some t →
             is_operator t = true →
             is_Some (["-l"; "<"; "in"; ">"; "out"] !! S i)) →
     ∃ c, parse_command_line "wc -l < in > out" = Ret c).
Proof.
  apply (parse_null_dereference "wc -l < in > out" "wc"
           ["-l"; "<"; "in"; ">"; "out"]).
  - by vm_compute.
  - simpl. lia.
Defined.

(** C10, as stated, fails: the final token of this line is a bare [<],
    and the parse returns; the token is taken as the input path. *)
Lemma parse_final_operator_as_path :
  last (strtok_all "cat < <") = Some "<"
  ∧ parse_command_line "cat < <"
    = Ret {| command := "cat"; args := [Some "cat"]; args_count := 1;
             input_file := Some "<"; output_file := None;
             run_in_background := false |}.
Proof. by vm_compute. Qed.

(** ** Wait statuses *)

Lemma WIFEXITED_exit (code : Z) : WIFEXITED (W_EXITCODE code) = true.
Proof.
  unfold WIFEXITED, W_EXITCODE. apply Z.eqb_eq.
  change 127 with (Z.ones 7). rewrite Z.land_ones by lia.
  rewrite Z.shiftl_mul_pow2 by lia.
  change (2 ^ 8) with (2 * 2 ^ 7). rewrite Z.mul_assoc. apply Z.mod_mul. lia.
Qed.

Lemma WEXITSTATUS_exit (code : Z) :
  WEXITSTATUS (W_EXITCODE code) = Z.land code 255.
Proof.
  unfold WEXITSTATUS, W_EXITCODE.
  change 65280 with (Z.shiftl 255 8).
  rewrite <- Z.shiftl_land, <- Z.land_assoc, Z.land_diag.
  rewrite Z.shiftr_shiftl_l by lia. apply Z.shiftl_0_r.
Qed.




(** ** What the signal handler leaves alone *)

Lemma deliver_SIGTSTP_S (n : nat) (sh : shell) :
  deliver_SIGTSTP (S n) sh = handle_SIGTSTP (deliver_SIGTSTP n sh).
Proof. done. Qed.

Lemma deliver_SIGTSTP_add (n m : nat) (sh : shell) :
  deliver_SIGTSTP (n + m) sh = deliver_SIGTSTP m (deliver_SIGTSTP n sh).
Proof.
  unfold deliver_SIGTSTP. rewrite Nat.add_comm. apply Nat.iter_add.
Qed.

Ltac unfold_setters :=
  unfold printf, write_stdout, set_status, set_registry,
    set_foreground_only, set_children, emit in *;
  cbn [status background_procs bg_proc_count foreground_only children trace]
    in *.

Lemma deliver_SIGTSTP_frame (n : nat) (sh : shell) :
  status (deliver_SIGTSTP n sh) = status sh
  ∧ background_procs (deliver_SIGTSTP n sh) = background_procs sh
  ∧ bg_proc_count (deliver_SIGTSTP n sh) = bg_proc_count sh
  ∧ children (deliver_SIGTSTP n sh) = children sh
  ∧ foreground_only (deliver_SIGTSTP n sh) = Nat.iter n negb (foreground_only sh)
  ∧ ∃ out, trace (deliver_SIGTSTP n sh) = trace sh ++ out
           ∧ Forall (λ e, is_stdout e = true) out.
Proof.
  induction n as [|n (Hs & Hb & Hc & Hk & Hf & out & Ht & Ho)].
  - split_and!; try done. exists []. by rewrite app_nil_r.
  - rewrite deliver_SIGTSTP_S.
    change (Nat.iter (S n) negb (foreground_only sh))
      with (negb (Nat.iter n negb (foreground_only sh))).
    rewrite <- Hf. unfold handle_SIGTSTP.
    destruct (foreground_only (deliver_SIGTSTP n sh)) eqn:E; unfold_setters;
      split_and!; try done.
    all: eexists; rewrite Ht, <- app_assoc; split; [done|].
    all: apply Forall_app; split; [done | by repeat constructor].
Qed.

Lemma background_test_deliver (n : nat) (c : command_line) (sh sh' : shell) :
  foreground_only sh' = foreground_only sh →
  background_test c (deliver_SIGTSTP n sh')
  = background_test c (deliver_SIGTSTP n sh).
Proof.
  intros H. unfold background_test.
  destruct (deliver_SIGTSTP_frame n sh) as (_ & _ & _ & _ & -> & _).
  destruct (deliver_SIGTSTP_frame n sh') as (_ & _ & _ & _ & -> & _).
  by rewrite H.
Qed.

(** ** Launches *)

Lemma sys_fork_frame (ret fate : Z) (sh : shell) :
  status (sys_fork ret fate sh) = status sh
  ∧ background_procs (sys_fork ret fate sh) = background_procs sh
  ∧ bg_proc_count (sys_fork ret fate sh) = bg_proc_count sh
  ∧ foreground_only (sys_fork ret fate sh) = foreground_only sh
  ∧ trace (sys_fork ret fate sh) = trace sh ++ [Fork ret].
Proof. unfold sys_fork. by destruct (0 <? ret). Qed.

Lemma sys_fork_child (ret fate : Z) (sh : shell) :
  0 < ret →
  children (sys_fork ret fate sh) = <[ret := mk_child false fate]> (children sh).
Proof. intros H. unfold sys_fork. by destruct (Z.ltb_spec 0 ret); [|lia]. Qed.

Lemma registers_after_fork (l : launch) (c : command_line) (sh : shell)
    (ret fate : Z) :
  background_test c (deliver_SIGTSTP (sig_after_fork (shell_signals l))
                       (sys_fork ret fate sh))
  = registers l c sh.
Proof. apply background_test_deliver, sys_fork_frame. Qed.

Lemma register_child_frame (spawn_pid : Z) (c : command_line) (sh sh' : shell) :
  register_child spawn_pid c sh = Ret sh' →
  status sh' = status sh ∧ foreground_only sh' = foreground_only sh
  ∧ children sh' = children sh ∧ trace sh' = trace sh.
Proof.
  unfold register_child. destruct (background_test c sh); [|by intros [= <-]].
  destruct (array_write _ _ _); [|done]. by intros [= <-].
Qed.

(** A launch whose two tests both fail: the shell waits for the child it
    has forked and stores what the wait status holds. *)
Lemma fork_child_foreground (env : environment) (l : launch)
    (c : command_line) (sh : shell) :
  0 < spawn_pid l →
  registers l c sh = false →
  detaches l c sh = false →
  let s := shell_signals l in
  let fate := child_fate env l c sh in
  let waiting :=
    deliver_SIGTSTP (sig_after_fork s + sig_after_register s + sig_late s)
                    (sys_fork (spawn_pid l) fate sh) in
  let reaped :=
    emit (Waitpid (spawn_pid l) 0 (spawn_pid l))
         (set_children (delete (spawn_pid l) (children waiting)) waiting) in
  fork_child env l c sh
  = Ret (if WIFEXITED fate then set_status (WEXITSTATUS fate) reaped
         else set_status (WTERMSIG fate)
                (printf ("terminated by signal "
                         +:+ sprintf_d (WTERMSIG fate) +:+ nl) reaped)).
Proof.
  intros Hpid Hreg Hdet s fate waiting reaped. subst s.
  unfold fork_child. fold (child_fate env l c sh). fold fate.
  unfold after_fork, register_child.
  rewrite registers_after_fork, Hreg. cbn [bind].
  destruct (Z.eqb_spec (spawn_pid l) (-1)); [lia|].
  destruct (Z.eqb_spec (spawn_pid l) 0); [lia|].
  unfold parent_case. rewrite <- deliver_SIGTSTP_add.
  rewrite (background_test_deliver _ _ sh) by apply sys_fork_frame.
  fold (detaches l c sh). rewrite Hdet.
  rewrite <- deliver_SIGTSTP_add. fold waiting.
  unfold sys_waitpid.
  destruct (Z.ltb_spec 0 (spawn_pid l)); [|lia].
  assert (children waiting !! spawn_pid l = Some (mk_child false fate)) as ->.
  { unfold waiting.
    destruct (deliver_SIGTSTP_frame
                (sig_after_fork (shell_signals l)
                 + sig_after_register (shell_signals l)
                 + sig_late (shell_signals l))
                (sys_fork (spawn_pid l) fate sh)) as (_ & _ & _ & -> & _).
    rewrite sys_fork_child by done. apply lookup_insert_eq. }
  cbn [terminated wstatus orb]. change (Z.land 0 WNOHANG =? 0) with true.
  cbn iota. by destruct (WIFEXITED fate).
Qed.

Lemma since_app (sh sh' : shell) (es : list event) :
  trace sh' = trace sh ++ es → since sh sh' = es.
Proof. intros H. unfold since. rewrite H. apply drop_app_length. Qed.

Lemma fork_child_foreground_effect (env : environment) (l : launch)
    (c : command_line) (sh : shell) :
  0 < spawn_pid l →
  registers l c sh = false →
  detaches l c sh = false →
  let fate := child_fate env l c sh in
  ∃ sh' out,
    fork_child env l c sh = Ret sh'
    ∧ Forall (λ e, is_stdout e = true) out
    ∧ status sh' = (if WIFEXITED fate then WEXITSTATUS fate else WTERMSIG fate)
    ∧ trace sh'
      = trace sh ++ Fork (spawn_pid l) :: out
        ++ Waitpid (spawn_pid l) 0 (spawn_pid l)
           :: (if WIFEXITED fate then []
               else [Stdout ("terminated by signal "
                             +:+ sprintf_d (WTERMSIG fate) +:+ nl)])
    ∧ background_procs sh' = background_procs sh
    ∧ bg_proc_count sh' = bg_proc_count sh
    ∧ children sh' = delete (spawn_pid l) (children sh).
Proof.
  intros Hpid Hreg Hdet fate.
  rewrite fork_child_foreground by done. fold fate.
  set (n := (sig_after_fork (shell_signals l)
             + sig_after_register (shell_signals l)
             + sig_late (shell_signals l))%nat).
  destruct (deliver_SIGTSTP_frame n (sys_fork (spawn_pid l) fate sh))
    as (Hs & Hb & Hc & Hk & _ & out & Ht & Ho).
  destruct (sys_fork_frame (spawn_pid l) fate sh) as (Hs' & Hb' & Hc' & _ & Ht').
  eexists _, out. split; [done|]. split; [done|].
  destruct (WIFEXITED fate); unfold_setters;
    rewrite ?Ht, ?Ht', ?Hb, ?Hb', ?Hc, ?Hc', ?Hk, <- ?app_assoc;
    rewrite ?sys_fork_child by done; rewrite ?delete_insert_eq;
    split_and!; try done.
  all: by rewrite <- app_assoc.
Qed.

(** A launch in which the shell registers the child at line 414 and, the
    mode having changed, waits for it at line 444. *)
Lemma fork_child_registered_effect (env : environment) (l : launch)
    (c : command_line) (sh : shell) :
  0 < spawn_pid l →
  registers l c sh = true →
  detaches l c sh = false →
  0 ≤ bg_proc_count sh < Z.of_nat (length (background_procs sh)) →
  let fate := child_fate env l c sh in
  ∃ sh' out,
    fork_child env l c sh = Ret sh'
    ∧ Forall (λ e, is_stdout e = true) out
    ∧ status sh' = (if WIFEXITED fate then WEXITSTATUS fate else WTERMSIG fate)
    ∧ trace sh'
      = trace sh ++ Fork (spawn_pid l) :: out
        ++ Waitpid (spawn_pid l) 0 (spawn_pid l)
           :: (if WIFEXITED fate then []
               else [Stdout ("terminated by signal "
                             +:+ sprintf_d (WTERMSIG fate) +:+ nl)])
    ∧ background_procs sh'
      = <[Z.to_nat (bg_proc_count sh) := spawn_pid l]> (background_procs sh)
    ∧ bg_proc_count sh' = bg_proc_count sh + 1
    ∧ children sh' = delete (spawn_pid l) (children sh).
Proof.
  intros Hpid Hreg Hdet Hroom fate.
  unfold fork_child. fold (child_fate env l c sh). fold fate.
  unfold after_fork, register_child.
  rewrite registers_after_fork, Hreg.
  destruct (sys_fork_frame (spawn_pid l) fate sh)
    as (Hs0 & Hb0 & Hc0 & Hf0 & Ht0).
  pose proof (sys_fork_child (spawn_pid l) fate sh Hpid) as Hk0.
  set (sh0 := sys_fork (spawn_pid l) fate sh) in *. clearbody sh0.
  destruct (deliver_SIGTSTP_frame (sig_after_fork (shell_signals l)) sh0)
    as (Hs1 & Hb1 & Hc1 & Hk1 & Hf1 & out1 & Ht1 & Ho1).
  set (sh1 := deliver_SIGTSTP (sig_after_fork (shell_signals l)) sh0) in *.
  unfold array_write. rewrite Hb1, Hc1, Hb0, Hc0.
  destruct (Z.leb_spec 0 (bg_proc_count sh)); [|lia].
  destruct (Z.ltb_spec (bg_proc_count sh)
              (Z.of_nat (length (background_procs sh)))); [|lia].
  cbn [andb bind].
  set (sh2 := set_registry _ _ sh1).
  assert (status sh2 = status sh1 ∧ foreground_only sh2 = foreground_only sh1
          ∧ children sh2 = children sh1 ∧ trace sh2 = trace sh1)
    as (Hs2 & Hf2 & Hk2 & Ht2) by done.
  assert (background_procs sh2
          = <[Z.to_nat (bg_proc_count sh) := spawn_pid l]> (background_procs sh)
          ∧ bg_proc_count sh2 = bg_proc_count sh + 1) as [Hb2 Hc2] by done.
  clearbody sh2. clearbody sh1.
  destruct (Z.eqb_spec (spawn_pid l) (-1)); [lia|].
  destruct (Z.eqb_spec (spawn_pid l) 0); [lia|].
  unfold parent_case.
  assert (background_test c
            (deliver_SIGTSTP (sig_after_register (shell_signals l)) sh2)
          = detaches l c sh) as ->.
  { unfold detaches. rewrite deliver_SIGTSTP_add.
    apply background_test_deliver. rewrite Hf2, Hf1.
    by destruct (deliver_SIGTSTP_frame (sig_after_fork (shell_signals l)) sh)
      as (_ & _ & _ & _ & -> & _); rewrite Hf0. }
  rewrite Hdet.
  destruct (deliver_SIGTSTP_frame (sig_after_register (shell_signals l)) sh2)
    as (Hs3 & Hb3 & Hc3 & Hk3 & _ & out2 & Ht3 & Ho2).
  set (sh3 := deliver_SIGTSTP (sig_after_register (shell_signals l)) sh2) in *.
  clearbody sh3.
  destruct (deliver_SIGTSTP_frame (sig_late (shell_signals l)) sh3)
    as (Hs4 & Hb4 & Hc4 & Hk4 & _ & out3 & Ht4 & Ho3).
  set (sh4 := deliver_SIGTSTP (sig_late (shell_signals l)) sh3) in *.
  clearbody sh4.
  assert (children sh4 = <[spawn_pid l := mk_child false fate]> (children sh))
    as Hk by congruence.
  assert (trace sh4 = trace sh ++ Fork (spawn_pid l) :: out1 ++ out2 ++ out3)
    as Ht.
  { rewrite Ht4, Ht3, Ht2, Ht1, Ht0. by rewrite <- !app_assoc. }
  unfold sys_waitpid. rewrite Hk.
  destruct (Z.ltb_spec 0 (spawn_pid l)); [|lia].
  rewrite lookup_insert_eq. cbn [terminated wstatus orb].
  change (Z.land 0 WNOHANG =? 0) with true. cbn iota.
  rewrite delete_insert_eq.
  assert (Forall (λ e, is_stdout e = true) (out1 ++ out2 ++ out3)) as Hout
    by (by rewrite !Forall_app).
  destruct (WIFEXITED fate); eexists _, (out1 ++ out2 ++ out3);
    (split; [done|]); (split; [done|]); unfold_setters; rewrite Ht;
    (split_and!; [congruence | | congruence | congruence | done]).
  all: rewrite <- !app_assoc; cbn [app]; by rewrite <- !app_assoc.
Qed.

(** A launch in which the test of line 444 finds the command not eligible:
    the shell waits for the child, whether or not it has registered it. *)
Lemma fork_child_waited (env : environment) (l : launch)
    (c : command_line) (sh : shell) :
  0 < spawn_pid l →
  detaches l c sh = false →
  (registers l c sh = true →
   0 ≤ bg_proc_count sh < Z.of_nat (length (background_procs sh))) →
  let fate := child_fate env l c sh in
  ∃ sh' out,
    fork_child env l c sh = Ret sh'
    ∧ Forall (λ e, is_stdout e = true) out
    ∧ status sh' = (if WIFEXITED fate then WEXITSTATUS fate else WTERMSIG fate)
    ∧ trace sh'
      = trace sh ++ Fork (spawn_pid l) :: out
        ++ Waitpid (spawn_pid l) 0 (spawn_pid l)
           :: (if WIFEXITED fate then []
               else [Stdout ("terminated by signal "
                             +:+ sprintf_d (WTERMSIG fate) +:+ nl)])
    ∧ children sh' = delete (spawn_pid l) (children sh).
Proof.
  intros Hpid Hdet Hroom fate.
  destruct (registers l c sh) eqn:Hreg.
  - destruct (fork_child_registered_effect env l c sh Hpid Hreg Hdet
                (Hroom eq_refl))
      as (sh' & out & ? & ? & ? & ? & _ & _ & ?).
    by exists sh', out.
  - destruct (fork_child_foreground_effect env l c sh Hpid Hreg Hdet)
      as (sh' & out & ? & ? & ? & ? & _ & _ & ?).
    by exists sh', out.
Qed.





(** A launch whose two tests both succeed: the child is registered and
    the shell returns without waiting. *)
Lemma fork_child_background (env : environment) (l : launch)
    (c : command_line) (sh : shell) :
  0 < spawn_pid l →
  registers l c sh = true →
  detaches l c sh = true →
  0 ≤ bg_proc_count sh < Z.of_nat (length (background_procs sh)) →
  ∃ sh' out,
    fork_child env l c sh = Ret sh'
    ∧ Forall (λ e, is_stdout e = true) out
    ∧ status sh' = status sh
    ∧ background_procs sh'
      = <[Z.to_nat (bg_proc_count sh) := spawn_pid l]> (background_procs sh)
    ∧ bg_proc_count sh' = bg_proc_count sh + 1
    ∧ children sh'
      = <[spawn_pid l := mk_child false (child_fate env l c sh)]> (children sh)
    ∧ trace sh'
      = trace sh ++ Fork (spawn_pid l) :: out
        ++ [Stdout ("background PID is " +:+ sprintf_d (spawn_pid l) +:+ nl)].
Proof.
  intros Hpid Hreg Hdet Hroom.
  unfold fork_child. fold (child_fate env l c sh).
  set (fate := child_fate env l c sh).
  unfold after_fork, register_child.
  rewrite registers_after_fork, Hreg.
  destruct (deliver_SIGTSTP_frame (sig_after_fork (shell_signals l))
              (sys_fork (spawn_pid l) fate sh))
    as (Hs1 & Hb1 & Hc1 & Hk1 & Hf1 & out1 & Ht1 & Ho1).
  destruct (sys_fork_frame (spawn_pid l) fate sh) as (Hs0 & Hb0 & Hc0 & Hf0 & Ht0).
  rewrite Hb1, Hc1, Hb0, Hc0. unfold array_write.
  destruct (Z.leb_spec 0 (bg_proc_count sh)); [|lia].
  destruct (Z.ltb_spec (bg_proc_count sh) (Z.of_nat (length (background_procs sh))));
    [|lia].
  cbn [andb bind].
  destruct (Z.eqb_spec (spawn_pid l) (-1)); [lia|].
  destruct (Z.eqb_spec (spawn_pid l) 0); [lia|].
  unfold parent_case.
  match goal with
  | |- context [deliver_SIGTSTP (sig_after_register _) ?X] => set (registered := X)
  end.
  assert (background_test c
            (deliver_SIGTSTP (sig_after_register (shell_signals l)) registered)
          = detaches l c sh) as ->.
  { unfold detaches. rewrite deliver_SIGTSTP_add.
    apply background_test_deliver. subst registered. unfold_setters.
    rewrite Hf1.
    by destruct (deliver_SIGTSTP_frame (sig_after_fork (shell_signals l)) sh)
      as (_ & _ & _ & _ & -> & _); rewrite Hf0. }
  rewrite Hdet.
  destruct (deliver_SIGTSTP_frame (sig_after_register (shell_signals l))
              registered) as (Hs2 & Hb2 & Hc2 & Hk2 & _ & out2 & Ht2 & Ho2).
  eexists _, (out1 ++ out2). split; [done|].
  split; [by apply Forall_app|].
  subst registered. unfold_setters.
  rewrite Hs2, Hb2, Hc2, Hk2, Ht2, Hs1, Hk1, Ht1, Hs0, Ht0.
  rewrite sys_fork_child by done.
  split_and!; try done.
  by rewrite <- !app_assoc.
Qed.

Lemma display_status_effect (sh : shell) :
  trace (display_status sh)
  = trace sh
    ++ [Stdout ((if (status sh =? 0) || (status sh =? 1)
                 then "exit value " else "terminated by signal ")
                +:+ sprintf_d (status sh) +:+ nl)]
  ∧ status (display_status sh) = status sh
  ∧ background_procs (display_status sh) = background_procs sh
  ∧ bg_proc_count (display_status sh) = bg_proc_count sh
  ∧ foreground_only (display_status sh) = foreground_only sh
  ∧ children (display_status sh) = children sh.
Proof. unfold display_status. by destruct ((status sh =? 0) || (status sh =? 1)). Qed.




(** ** A missing input file *)

Lemma register_child_room (spawn_pid : Z) (c : command_line) (sh : shell) :
  0 ≤ bg_proc_count sh < Z.of_nat (length (background_procs sh)) →
  ∃ sh', register_child spawn_pid c sh = Ret sh'.
Proof.
  intros Hroom. unfold register_child, array_write.
  destruct (background_test c sh); [|eauto].
  destruct (Z.leb_spec 0 (bg_proc_count sh)); [|lia].
  destruct (Z.ltb_spec (bg_proc_count sh) (Z.of_nat (length (background_procs sh))));
    [|lia].
  cbn [andb]. eauto.
Qed.

Lemma child_case_missing_input (env : environment) (s : schedule)
    (c : command_line) (sh : shell) (path : string) :
  input_file c = Some path →
  open env path O_RDONLY = -1 →
  ∃ sh_e es,
    child_case env s c sh = Exit 1 sh_e
    ∧ trace sh_e = trace sh ++ es
    ∧ Forall (λ e, is_execvp e = false) es
    ∧ last es = Some (Stdout ("cannot open " +:+ path +:+ " for input" +:+ nl)).
Proof.
  intros Hin Hopen. unfold child_case, input_redirect, redirect.
  rewrite Hin, Hopen, Z.eqb_refl. cbn [bind].
  rewrite !app_assoc_s.
  match goal with
  | |- context [deliver_SIGTSTP _ ?X] => set (start := X)
  end.
  destruct (deliver_SIGTSTP_frame (sig_late s) start)
    as (_ & _ & _ & _ & _ & out & Ht & Ho).
  assert (∃ pre, trace start = trace sh ++ pre
                 ∧ Forall (λ e, is_execvp e = false) pre) as (pre & Hpre & Hp).
  { subst start.
    destruct (negb (run_in_background c) || negb (foreground_only sh)).
    - exists [Sigaction SIGINT "SIG_DFL"]. split; [done | by repeat constructor].
    - exists []. split; [by rewrite app_nil_r | done]. }
  eexists _, (pre ++ out ++ [Sigaction SIGTSTP "SIG_IGN"; Open path O_RDONLY (-1);
                             Stdout ("cannot open " +:+ path +:+ " for input" +:+ nl)]).
  split; [done|]. unfold ignore_SIGTSTP. unfold_setters.
  rewrite Ht, Hpre. split_and!.
  - by rewrite <- !app_assoc.
  - apply Forall_app; split; [done|]. apply Forall_app; split.
    + eapply Forall_impl; [exact Ho|]. by intros [] ?.
    + by repeat constructor.
  - by rewrite !app_assoc, last_app.
Qed.

(** C3 (as amended): when the input file of a command cannot be opened
    (and the registry has a slot left), the child reports it and exits
    with status 1 without having called [execvp]; a shell that waits for
    this child then stores 1 in Last Foreground Status and leaves the
    registry as it is, and a shell that runs it in the background keeps
    Last Foreground Status and adds the child to the registry. *)
Theorem missing_input_file (env : environment) (l : launch)
    (c : command_line) (sh : shell) (path : string) :
  input_file c = Some path →
  open env path O_RDONLY = -1 →
  0 < spawn_pid l →
  0 ≤ bg_proc_count sh < Z.of_nat (length (background_procs sh)) →
  (∃ sh_e,
     after_fork env 0 (child_signals l) c (emit (Fork 0) sh) = Exit 1 sh_e
     ∧ Forall (λ e, is_execvp e = false) (since sh sh_e)
     ∧ last (trace sh_e)
       = Some (Stdout ("cannot open " +:+ path +:+ " for input" +:+ nl)))
  ∧ (registers l c sh = false → detaches l c sh = false →
     ∃ sh', fork_child env l c sh = Ret sh'
            ∧ status sh' = 1
            ∧ background_procs sh' = background_procs sh
            ∧ bg_proc_count sh' = bg_proc_count sh)
  ∧ (registers l c sh = true → detaches l c sh = true →
     ∃ sh', fork_child env l c sh = Ret sh'
            ∧ status sh' = status sh
            ∧ bg_proc_count sh' = bg_proc_count sh + 1
            ∧ background_procs sh' !! Z.to_nat (bg_proc_count sh)
              = Some (spawn_pid l)).
Proof.
  intros Hin Hopen Hpid Hroom.
  assert (∃ sh_e es,
            after_fork env 0 (child_signals l) c (emit (Fork 0) sh) = Exit 1 sh_e
            ∧ trace sh_e = trace sh ++ es
            ∧ Forall (λ e, is_execvp e = false) es
            ∧ last es = Some (Stdout ("cannot open " +:+ path
                                      +:+ " for input" +:+ nl)))
    as (sh_e & es & Hchild & Htr & Hes & Hlast).
  { unfold after_fork.
    set (s := child_signals l).
    destruct (deliver_SIGTSTP_frame (sig_after_fork s) (emit (Fork 0) sh))
      as (_ & Hb1 & Hc1 & _ & _ & out1 & Ht1 & Ho1).
    destruct (register_child_room 0 c
                (deliver_SIGTSTP (sig_after_fork s) (emit (Fork 0) sh)))
      as [sh1 Hsh1].
    { by rewrite Hb1, Hc1. }
    rewrite Hsh1. cbn [bind]. change (0 =? -1) with false.
    change (0 =? 0) with true. cbn iota.
    apply register_child_frame in Hsh1 as (_ & _ & _ & Ht1').
    destruct (deliver_SIGTSTP_frame (sig_after_register s) sh1)
      as (_ & _ & _ & _ & _ & out2 & Ht2 & Ho2).
    destruct (child_case_missing_input env s c
                (deliver_SIGTSTP (sig_after_register s) sh1) path Hin Hopen)
      as (sh_e & es & Hrun & Htr & Hes & Hlast).
    exists sh_e, ([Fork 0] ++ out1 ++ out2 ++ es). split; [done|].
    rewrite Htr, Ht2, Ht1', Ht1. unfold_setters. split_and!.
    - by rewrite <- !app_assoc.
    - apply Forall_app; split; [by repeat constructor|].
      apply Forall_app; split;
        [eapply Forall_impl; [exact Ho1|]; by intros [] ?|].
      apply Forall_app; split; [|done].
      eapply Forall_impl; [exact Ho2|]; by intros [] ?.
    - rewrite !app_assoc. destruct es as [|e es _] using rev_ind; [done|].
      rewrite !app_assoc, !last_snoc. by rewrite last_snoc in Hlast. }
  assert (child_fate env l c sh = W_EXITCODE 1) as Hfate.
  { unfold child_fate. by rewrite Hchild. }
  split_and!.
  - exists sh_e. split; [done|]. split.
    + by rewrite (since_app _ _ _ Htr).
    + rewrite Htr. destruct es as [|e es _] using rev_ind; [done|].
      by rewrite app_assoc, !last_snoc in *.
  - intros Hreg Hdet.
    destruct (fork_child_foreground_effect env l c sh Hpid Hreg Hdet)
      as (sh' & out & Hrun & _ & Hst & _ & Hb & Hc & _).
    exists sh'. split; [done|]. rewrite Hfate in Hst.
    by rewrite WIFEXITED_exit, WEXITSTATUS_exit in Hst.
  - intros Hreg Hdet.
    destruct (fork_child_background env l c sh Hpid Hreg Hdet Hroom)
      as (sh' & out & Hrun & _ & Hst & Hb & Hc & _).
    exists sh'. split_and!; try done.
    rewrite Hb. apply list_lookup_insert_eq. lia.
Qed.

Lemma missing_input_file_witness :
  (∃ sh_e,
     after_fork sample_env 0 (child_signals (undisturbed 7))
                (reading "cat" "missing_file") (emit (Fork 0) initial_shell)
     = Exit 1 sh_e
     ∧ Forall (λ e, is_execvp e = false) (since initial_shell sh_e)
     ∧ last (trace sh_e)
       = Some (Stdout ("cannot open " +:+ "missing_file"
                       +:+ " for input" +:+ nl)))
  ∧ (registers (undisturbed 7) (reading "cat" "missing_file") initial_shell
     = false →
     detaches (undisturbed 7) (reading "cat" "missing_file") initial_shell
     = false →
     ∃ sh', fork_child sample_env (undisturbed 7)
                       (reading "cat" "missing_file") initial_shell = Ret sh'
            ∧ status sh' = 1
            ∧ background_procs sh' = background_procs initial_shell
            ∧ bg_proc_count sh' = bg_proc_count initial_shell)
  ∧ (registers (undisturbed 7) (reading "cat" "missing_file") initial_shell
     = true →
     detaches (undisturbed 7) (reading "cat" "missing_file") initial_shell
     = true →
     ∃ sh', fork_child sample_env (undisturbed 7)
                       (reading "cat" "missing_file") initial_shell = Ret sh'
            ∧ status sh' = status initial_shell
            ∧ bg_proc_count sh' = bg_proc_count initial_shell + 1
            ∧ background_procs sh' !! Z.to_nat (bg_proc_count initial_shell)
              = Some (spawn_pid (undisturbed 7))).
Proof.
  apply (missing_input_file sample_env (undisturbed 7)
           (reading "cat" "missing_file") initial_shell "missing_file");
    [reflexivity | reflexivity | reflexivity | by vm_compute].
Defined.

(** C3, as stated, fails: the shell starts with Last Foreground Status 0,
    dispatches a command whose input file cannot be opened, and has Last
    Foreground Status 1 afterwards. *)
Lemma missing_input_file_changes_status :
  open sample_env "missing_file" O_RDONLY = -1
  ∧ status initial_shell = 0
  ∧ match main_turn sample_env (undisturbed 7)
            ("cat < missing_file" +:+ nl) initial_shell with
    | Ret sh' => Some (status sh')
    | _ => None
    end = Some 1.
Proof. by vm_compute. Qed.

(** ** One decision or several *)

Lemma redirect_frame (env : environment) (path : string) (flags newfd : Z)
    (m1 m2 : string) (sh sh' : shell) :
  redirect env path flags newfd m1 m2 sh = Ret sh' →
  foreground_only sh' = foreground_only sh.
Proof.
  unfold redirect. destruct (_ =? -1); [done|].
  destruct (_ =? -1); [done|]. by intros [= <-].
Qed.

Lemma input_redirect_decided_eq (env : environment) (c : command_line)
    (sh : shell) :
  input_redirect env c sh
  = input_redirect_decided env (background_test c sh) c sh.
Proof.
  unfold input_redirect, input_redirect_decided.
  destruct (input_file c) as [path|]; [|done].
  destruct (redirect env path _ _ _ _ sh) as [sh'| | |] eqn:E; try done.
  cbn [bind]. unfold background_test. by rewrite (redirect_frame _ _ _ _ _ _ _ _ E).
Qed.

Lemma output_redirect_decided_eq (env : environment) (c : command_line)
    (sh : shell) :
  output_redirect env c sh
  = output_redirect_decided env (background_test c sh) c sh.
Proof.
  unfold output_redirect, output_redirect_decided.
  destruct (output_file c) as [path|]; [|done].
  destruct (redirect env path _ _ _ _ sh) as [sh'| | |] eqn:E; try done.
  cbn [bind]. unfold background_test. by rewrite (redirect_frame _ _ _ _ _ _ _ _ E).
Qed.

Lemma input_redirect_frame (env : environment) (c : command_line)
    (sh sh' : shell) :
  input_redirect env c sh = Ret sh' → foreground_only sh' = foreground_only sh.
Proof.
  unfold input_redirect.
  destruct (input_file c) as [path|]; cbn [bind].
  - destruct (redirect env path _ _ _ _ sh) as [sh1| | |] eqn:E; try done.
    cbn [bind]. rewrite andb_false_r. intros [= <-].
    by eapply redirect_frame.
  - destruct (_ && _); [|by intros [= <-]]. apply redirect_frame.
Qed.

Lemma after_fork_quiet_decided (env : environment) (spawn_pid : Z)
    (c : command_line) (sh : shell) :
  after_fork env spawn_pid quiet c sh
  = after_fork_decided env (background_test c sh) spawn_pid quiet c sh.
Proof.
  unfold after_fork, after_fork_decided, register_child.
  cbn [quiet sig_after_fork sig_after_register sig_late deliver_SIGTSTP Nat.iter
       nat_rect].
  set (eligible := background_test c sh).
  assert (∀ sh1, foreground_only sh1 = foreground_only sh →
                 background_test c sh1 = eligible) as Hsame.
  { intros sh1 H. unfold eligible, background_test. by rewrite H. }
  assert (∀ sh1, foreground_only sh1 = foreground_only sh →
    (if spawn_pid =? -1 then Exit 1 (emit (Perror ("fork()" +:+ nl)) sh1)
     else if spawn_pid =? 0 then child_case env quiet c sh1
     else parent_case spawn_pid quiet c sh1)
    = (if spawn_pid =? -1 then Exit 1 (emit (Perror ("fork()" +:+ nl)) sh1)
       else if spawn_pid =? 0 then
         let sh :=
           if negb (run_in_background c) || negb (foreground_only sh1)
           then restore_SIGINT sh1 else sh1 in
         let sh := ignore_SIGTSTP sh in
         let* sh := input_redirect_decided env eligible c sh in
         let* sh := output_redirect_decided env eligible c sh in
         let file := nth 0 (args c) None in
         match execvp env file (args c) with
         | Some w => Replaced w (emit (Execvp file (args c)) sh)
         | None => Exit 1 (emit (Perror (default "" file))
                                (emit (Execvp file (args c)) sh))
         end
       else if eligible then
         Ret (printf ("background PID is " +:+ sprintf_d spawn_pid +:+ nl) sh1)
       else
         let '(_, child_status, sh) := sys_waitpid spawn_pid 0 sh1 in
         match child_status with
         | None => Undefined UninitializedRead
         | Some cs =>
             if WIFEXITED cs then Ret (set_status (WEXITSTATUS cs) sh)
             else Ret (set_status (WTERMSIG cs)
                         (printf ("terminated by signal "
                                  +:+ sprintf_d (WTERMSIG cs) +:+ nl) sh))
         end)) as Hswitch.
  { intros sh1 H1. destruct (spawn_pid =? -1); [done|].
    destruct (spawn_pid =? 0).
    - unfold child_case.
      cbn [quiet sig_late deliver_SIGTSTP Nat.iter nat_rect].
      set (start := ignore_SIGTSTP _).
      assert (foreground_only start = foreground_only sh) as Hstart.
      { subst start. by destruct (_ || _). }
      rewrite input_redirect_decided_eq, (Hsame _ Hstart).
      destruct (input_redirect_decided env eligible c start) as [sh2| | |] eqn:E;
        try done.
      cbn [bind]. rewrite output_redirect_decided_eq.
      rewrite <- (Hsame _ Hstart), <- input_redirect_decided_eq in E.
      apply input_redirect_frame in E.
      by rewrite (Hsame sh2) by congruence.
    - unfold parent_case.
      cbn [quiet sig_late deliver_SIGTSTP Nat.iter nat_rect].
      by rewrite (Hsame _ H1). }
  fold eligible. destruct eligible.
  - destruct (array_write _ _ _); [|done]. cbn [bind]. by apply Hswitch.
  - cbn [bind]. by apply Hswitch.
Qed.



(** The test that guards [restore_SIGINT] is another expression: the
    child of a background launch gets the default disposition as well. *)
Lemma background_child_restores_SIGINT :
  background_test (one_word "sleep" true) initial_shell = true
  ∧ match after_fork sample_env 0 quiet (one_word "sleep" true)
            (emit (Fork 0) initial_shell) with
    | Replaced _ sh' =>
        existsb (λ e, match e with
                      | Sigaction 2 "SIG_DFL" => true
                      | _ => false
                      end) (trace sh')
    | _ => false
    end = true.
Proof. by vm_compute. Qed.

(** ** The bound of the registry *)

(** The registration of line 415 has no test of the index: with one
    hundred identifiers tracked it stores past the allocation. *)
Lemma full_registry_overflows (env : environment) (l : launch)
    (c : command_line) (sh : shell) :
  registers l c sh = true →
  length (background_procs sh) = 100%nat →
  bg_proc_count sh = 100 →
  fork_child env l c sh = Undefined OutOfBounds.
Proof.
  intros Hreg Hlen Hcount. unfold fork_child.
  set (fate := wait_status_of _). unfold after_fork, register_child.
  rewrite registers_after_fork, Hreg.
  destruct (deliver_SIGTSTP_frame (sig_after_fork (shell_signals l))
              (sys_fork (spawn_pid l) fate sh)) as (_ & -> & -> & _).
  destruct (sys_fork_frame (spawn_pid l) fate sh) as (_ & -> & -> & _).
  unfold array_write. by rewrite Hlen, Hcount.
Qed.

(** C5, at the failing input: one hundred background commands are
    launched and none has ended; the registry then holds one hundred
    identifiers, and the launch of one more writes past its end. *)
Theorem registry_overflows_at_101 :
  let input :=
    map (λ n, ("sleep 5 &" +:+ nl, undisturbed (1000 + Z.of_nat n)))
        (seq 0 101) in
  match main_loop sample_env (take 100 input) initial_shell with
  | Ret sh => Some (bg_proc_count sh, length (background_procs sh),
                    length (registry sh))
  | _ => None
  end = Some (100, 100%nat, 100%nat)
  ∧ main_loop sample_env input initial_shell = Undefined OutOfBounds.
Proof. by vm_compute. Qed.

(** ** The registry as an array *)

Lemma array_read_middle (pre : list Z) (x : Z) (rest : list Z) :
  array_read (pre ++ x :: rest) (Z.of_nat (length pre)) = Some x.
Proof.
  unfold array_read. destruct (Z.leb_spec 0 (Z.of_nat (length pre))); [|lia].
  rewrite Nat2Z.id. by apply list_lookup_middle.
Qed.

Lemma array_write_middle (pre : list Z) (x v : Z) (rest : list Z) :
  array_write (pre ++ x :: rest) (Z.of_nat (length pre)) v
  = Some (pre ++ v :: rest).
Proof.
  unfold array_write. rewrite length_app. cbn [length].
  destruct (Z.leb_spec 0 (Z.of_nat (length pre))); [|lia].
  destruct (Z.ltb_spec (Z.of_nat (length pre))
              (Z.of_nat (length pre + S (length rest)))); [|lia].
  cbn [andb]. rewrite Nat2Z.id. f_equal.
  by rewrite insert_app_r_alt, Nat.sub_diag by lia.
Qed.

Lemma last_cons_default (l : list Z) (a d d' : Z) :
  List.last (a :: l) d = List.last (a :: l) d'.
Proof.
  revert a. induction l as [|b l IH]; intros a; [done|].
  change (List.last (b :: l) d = List.last (b :: l) d'). apply IH.
Qed.

(** [remove_val_at_index] moves the entries behind [index] one slot down;
    the slot of the last entry keeps its value. *)
Lemma shift_down_spec (mid : list Z) :
  ∀ pre x rest,
    shift_down (length mid) (Z.of_nat (length pre)) (pre ++ x :: mid ++ rest)
    = Ret (pre ++ mid ++ List.last mid x :: rest).
Proof.
  induction mid as [|m mid IH]; intros pre x rest; [done|].
  cbn [length shift_down].
  replace (Z.of_nat (length pre) + 1) with (Z.of_nat (length (pre ++ [x])))
    by (rewrite length_app; simpl; lia).
  replace (pre ++ x :: (m :: mid) ++ rest)
    with ((pre ++ [x]) ++ m :: mid ++ rest) at 1
    by (by rewrite <- app_assoc).
  rewrite array_read_middle, array_write_middle.
  replace (pre ++ m :: (m :: mid) ++ rest)
    with ((pre ++ [m]) ++ m :: mid ++ rest) by (by rewrite <- app_assoc).
  replace (Z.of_nat (length (pre ++ [x])))
    with (Z.of_nat (length (pre ++ [m]))) by (by rewrite !length_app).
  rewrite IH. rewrite <- app_assoc. cbn [app]. do 2 f_equal.
  destruct mid as [|a mid]; [done|].
  change (List.last (m :: a :: mid) x) with (List.last (a :: mid) x).
  by rewrite (last_cons_default mid a m x).
Qed.

Lemma remove_val_at_index_spec (pre : list Z) (x : Z) (mid rest : list Z) :
  remove_val_at_index (pre ++ x :: mid ++ rest)
    (Z.of_nat (length pre + S (length mid))) (Z.of_nat (length pre))
  = Ret (pre ++ mid ++ List.last mid x :: rest,
         Z.of_nat (length pre + length mid)).
Proof.
  unfold remove_val_at_index.
  replace (Z.to_nat (Z.of_nat (length pre + S (length mid)) - 1
                     - Z.of_nat (length pre))) with (length mid) by lia.
  rewrite shift_down_spec. cbn [bind]. do 2 f_equal. lia.
Qed.

(** ** Reaping *)

Lemma waitpid_terminated (sh : shell) (p : Z) :
  0 < p → has_terminated sh p = true →
  sys_waitpid p WNOHANG sh
  = (p, Some (default 0 (wstatus <$> children sh !! p)),
     emit (Waitpid p WNOHANG p) (set_children (delete p (children sh)) sh)).
Proof.
  intros Hp. unfold has_terminated, sys_waitpid.
  destruct (Z.ltb_spec 0 p); [|lia].
  destruct (children sh !! p) as [c|]; [|done]. by intros ->.
Qed.

Lemma waitpid_running (sh : shell) (p : Z) :
  0 < p → has_terminated sh p = false →
  ∃ r, r ≠ p ∧ sys_waitpid p WNOHANG sh = (r, None, emit (Waitpid p WNOHANG r) sh).
Proof.
  intros Hp. unfold has_terminated, sys_waitpid.
  destruct (Z.ltb_spec 0 p); [|lia].
  destruct (children sh !! p) as [c|].
  - intros ->. exists 0. split; [lia | done].
  - intros _. exists (-1). split; [lia | done].
Qed.

Lemma check_loop_unfold (fuel : nat) (n i : Z) (cs : option Z) (sh : shell) :
  check_loop (S fuel) n i cs sh
  = if i <? n then
      match array_read (background_procs sh) i with
      | None => Undefined OutOfBounds
      | Some p =>
          let '(pid_check, stored, sh1) := sys_waitpid p WNOHANG sh in
          let child_status :=
            match stored with Some w => Some w | None => cs end in
          if pid_check =? p then
            let* (arr, count) :=
              remove_val_at_index (background_procs sh1)
                                  (bg_proc_count sh1) i in
            let sh2 := set_registry arr count sh1 in
            let i := i - 1 in
            match child_status with
            | None => Undefined UninitializedRead
            | Some cs =>
                let sh3 :=
                  if WIFEXITED cs
                  then printf ("background pid " +:+ sprintf_d pid_check
                               +:+ " is done: exit value "
                               +:+ sprintf_d (WEXITSTATUS cs) +:+ nl) sh2
                  else printf ("background pid " +:+ sprintf_d pid_check
                               +:+ " is done: terminated by signal "
                               +:+ sprintf_d (WTERMSIG cs) +:+ nl) sh2 in
                check_loop fuel n (i + 1) child_status sh3
            end
          else check_loop fuel n (i + 1) child_status sh1
      end
    else Ret sh.
Proof. done. Qed.

Lemma check_loop_done (fuel : nat) (n i : Z) (cs : option Z) (sh : shell) :
  n ≤ i → check_loop fuel n i cs sh = Ret sh.
Proof.
  intros H. destruct fuel; cbn [check_loop];
    by destruct (Z.ltb_spec i n); [lia|].
Qed.

(** The slots between the count and the length read before the loop hold
    identifiers that [waitpid] does not report: the loop passes them and
    leaves the registry as it is. *)
Lemma check_loop_stale (n0 : Z) (stale : list Z) :
  ∀ fuel pre rest cs sh,
    background_procs sh = pre ++ stale ++ rest →
    n0 = Z.of_nat (length pre + length stale) →
    Forall (λ q, 0 < q ∧ has_terminated sh q = false) stale →
    (length stale ≤ fuel)%nat →
    ∃ sh' es,
      check_loop fuel n0 (Z.of_nat (length pre)) cs sh = Ret sh'
      ∧ background_procs sh' = background_procs sh
      ∧ bg_proc_count sh' = bg_proc_count sh
      ∧ children sh' = children sh
      ∧ status sh' = status sh
      ∧ foreground_only sh' = foreground_only sh
      ∧ trace sh' = trace sh ++ es
      ∧ Forall (λ e, nonblocking e = true ∧ is_stdout e = false) es.
Proof.
  induction stale as [|q stale IH]; intros fuel pre rest cs sh Harr Hn Hst Hfuel.
  - exists sh, []. rewrite check_loop_done by (simpl in Hn; lia).
    by rewrite app_nil_r.
  - destruct fuel as [|fuel]; [simpl in Hfuel; lia|].
    rewrite check_loop_unfold.
    destruct (Z.ltb_spec (Z.of_nat (length pre)) n0); [|simpl in Hn; lia].
    rewrite Harr. cbn [app]. rewrite array_read_middle.
    apply Forall_cons in Hst as [[Hq Hrun] Hst].
    destruct (waitpid_running sh q Hq Hrun) as (r & Hr & ->).
    cbv beta iota zeta.
    destruct (Z.eqb_spec r q); [done|].
    replace (Z.of_nat (length pre) + 1) with (Z.of_nat (length (pre ++ [q])))
      by (rewrite length_app; simpl; lia).
    destruct (IH fuel (pre ++ [q]) rest cs (emit (Waitpid q WNOHANG r) sh))
      as (sh' & es & Hrun' & Hb & Hc & Hk & Hs & Hf & Ht & Hes).
    + unfold_setters. by rewrite Harr, <- app_assoc.
    + rewrite length_app. simpl in *. lia.
    + done.
    + simpl in Hfuel. lia.
    + exists sh', (Waitpid q WNOHANG r :: es). split; [done|].
      unfold_setters. rewrite Ht, <- app_assoc. split_and!; try done.
      * by rewrite Hb, Harr.
      * by constructor.
Qed.

Lemma has_terminated_ext (sh sh' : shell) (q : Z) :
  children sh' !! q = children sh !! q →
  has_terminated sh' q = has_terminated sh q.
Proof. unfold has_terminated. by intros ->. Qed.

Lemma report_ext (sh sh' : shell) (q : Z) :
  children sh' !! q = children sh !! q → report sh' q = report sh q.
Proof. unfold report. by intros ->. Qed.

Lemma printf_if (b : bool) (m1 m2 : string) (sh : shell) :
  (if b then printf m1 sh else printf m2 sh)
  = printf (if b then m1 else m2) sh.
Proof. by destruct b. Qed.

Lemma report_printf (sh : shell) (p : Z) (rest : shell) :
  let cs := default 0 (wstatus <$> children sh !! p) in
  trace (printf (if WIFEXITED cs
                 then "background pid " +:+ sprintf_d p
                      +:+ " is done: exit value "
                      +:+ sprintf_d (WEXITSTATUS cs) +:+ nl
                 else "background pid " +:+ sprintf_d p
                      +:+ " is done: terminated by signal "
                      +:+ sprintf_d (WTERMSIG cs) +:+ nl) rest)
  = trace rest ++ [report sh p].
Proof. intros cs. unfold report. fold cs. by destruct (WIFEXITED cs). Qed.

(** The loop over the tracked identifiers [todo] that it has not looked
    at yet: those that have terminated are reaped, reported and taken out,
    the others stay, in their order. *)
Lemma check_loop_live (n0 : Z) (todo : list Z) :
  ∀ fuel pre stale rest cs sh,
    background_procs sh = pre ++ todo ++ stale ++ rest →
    bg_proc_count sh = Z.of_nat (length pre + length todo) →
    n0 = Z.of_nat (length pre + length todo + length stale) →
    Forall (λ p, 0 < p) todo →
    NoDup todo →
    Forall (λ q, 0 < q ∧ (has_terminated sh q = false ∨ q ∈ todo)) stale →
    (length todo + length stale
     + length (List.filter (has_terminated sh) todo) ≤ fuel)%nat →
    ∃ sh' stale' es,
      check_loop fuel n0 (Z.of_nat (length pre)) cs sh = Ret sh'
      ∧ background_procs sh'
        = pre ++ List.filter (λ p, negb (has_terminated sh p)) todo
          ++ stale' ++ rest
      ∧ bg_proc_count sh'
        = Z.of_nat (length pre
                    + length (List.filter (λ p, negb (has_terminated sh p)) todo))
      ∧ length (background_procs sh') = length (background_procs sh)
      ∧ (∀ q, children sh' !! q
              = if bool_decide (q ∈ todo) && has_terminated sh q
                then None else children sh !! q)
      ∧ status sh' = status sh
      ∧ foreground_only sh' = foreground_only sh
      ∧ trace sh' = trace sh ++ es
      ∧ Forall (λ e, nonblocking e = true) es
      ∧ List.filter is_stdout es
        = map (report sh) (List.filter (has_terminated sh) todo).
Proof.
  induction todo as [|p todo IH];
    intros fuel pre stale rest cs sh Harr Hcount Hn Hpos Hnd Hst Hfuel.
  - destruct (check_loop_stale n0 stale fuel pre rest cs sh)
      as (sh' & es & Hrun & Hb & Hc & Hk & Hs & Hf & Ht & Hes); try done.
    + simpl in Hn. lia.
    + eapply Forall_impl; [exact Hst|]. intros q [Hq [Hr|Hin]]; [done|].
      by apply elem_of_nil in Hin.
    + simpl in Hfuel. lia.
    + exists sh', stale, es. split; [done|]. rewrite Hb, Hc, Hk.
      split_and!; try done.
      * eapply Forall_impl; [exact Hes|]. by intros e [? _].
      * clear -Hes. induction Hes as [|e es [_ He] _ IHes]; [done|].
        cbn [List.filter]. by rewrite He.
  - destruct fuel as [|fuel]; [simpl in Hfuel; lia|].
    rewrite check_loop_unfold.
    destruct (Z.ltb_spec (Z.of_nat (length pre)) n0); [|simpl in Hn; lia].
    rewrite Harr. cbn [app]. rewrite array_read_middle.
    apply Forall_cons in Hpos as [Hp Hpos].
    apply NoDup_cons in Hnd as [Hnotin Hnd].
    destruct (has_terminated sh p) eqn:Hterm.
    + rewrite (waitpid_terminated sh p Hp Hterm). cbv beta iota zeta.
      rewrite Z.eqb_refl.
      set (sh1 := emit (Waitpid p WNOHANG p)
                       (set_children (delete p (children sh)) sh)).
      change (background_procs sh1) with (background_procs sh).
      change (bg_proc_count sh1) with (bg_proc_count sh).
      rewrite Harr, Hcount. cbn [app length].
      rewrite remove_val_at_index_spec. cbn [bind].
      replace (Z.of_nat (length pre) - 1 + 1) with (Z.of_nat (length pre)) by lia.
      rewrite printf_if.
      match goal with
      | |- context [check_loop fuel n0 _ _ ?X] => set (sh3 := X)
      end.
      assert (∀ q, q ≠ p → children sh3 !! q = children sh !! q) as Hother.
      { intros q Hq. subst sh3 sh1. unfold_setters. by apply lookup_delete_ne. }
      assert (children sh3 !! p = None) as Hgone.
      { subst sh3 sh1. unfold_setters. apply lookup_delete_eq. }
      assert (background_procs sh3
              = pre ++ todo ++ (List.last todo p :: stale) ++ rest) as Hb3.
      { subst sh3 sh1. by unfold_setters. }
      assert (bg_proc_count sh3 = Z.of_nat (length pre + length todo)) as Hc3.
      { subst sh3 sh1. by unfold_setters. }
      assert (status sh3 = status sh) as Hs3 by done.
      assert (foreground_only sh3 = foreground_only sh) as Hf3 by done.
      assert (trace sh3 = trace sh ++ [Waitpid p WNOHANG p; report sh p]) as Ht3.
      { subst sh3. rewrite report_printf. subst sh1. unfold_setters.
        by rewrite <- app_assoc. }
      clearbody sh3. clear sh1.
      assert (∀ q, q ∈ todo → q ≠ p) as Hne.
      { intros q Hq ->. done. }
      assert (∀ q, q ∈ todo → has_terminated sh3 q = has_terminated sh q) as Hsame.
      { intros q Hq. apply has_terminated_ext, Hother. by apply Hne. }
      assert (has_terminated sh3 p = false) as Hdead.
      { unfold has_terminated. by rewrite Hgone. }
      destruct (IH fuel pre (List.last todo p :: stale) rest
                  (Some (default 0 (wstatus <$> children sh !! p))) sh3)
        as (sh' & stale' & es & Hrun & Hb & Hc & Hl & Hk & Hs & Hf & Ht & Hes & Hout).
      * done.
      * done.
      * simpl in *. lia.
      * done.
      * done.
      * constructor.
        -- destruct (decide (todo = [])) as [->|Hnil].
           ++ simpl. split; [done | by left].
           ++ destruct (exists_last Hnil) as (front & t & ->).
              rewrite last_last. split.
              ** rewrite Forall_app, Forall_singleton in Hpos. by destruct Hpos.
              ** right. set_solver.
        -- eapply Forall_impl; [exact Hst|]. intros q [Hq [Hr|Hin]].
           ++ split; [done|]. left. destruct (decide (q = p)) as [->|Hqp]; [done|].
              by rewrite (has_terminated_ext sh) by by apply Hother.
           ++ split; [done|]. apply elem_of_cons in Hin as [->|Hin];
                [by left | by right].
      * rewrite (filter_ext_in (has_terminated sh3) (has_terminated sh)).
        -- simpl in Hfuel. rewrite Hterm in Hfuel. simpl in *. lia.
        -- intros q Hq%list_elem_of_In. by apply Hsame.
      * rewrite (filter_ext_in (λ q, negb (has_terminated sh3 q))
                   (λ q, negb (has_terminated sh q))) in Hb, Hc.
        2,3: intros q Hq%list_elem_of_In; f_equal; by apply Hsame.
        rewrite (filter_ext_in (has_terminated sh3) (has_terminated sh)) in Hout
          by (intros q Hq%list_elem_of_In; by apply Hsame).
        exists sh', stale', (Waitpid p WNOHANG p :: report sh p :: es).
        split; [done|]. cbn [List.filter]. rewrite Hterm. cbn [negb].
        split_and!; try done.
        -- rewrite Hl, Hb3, !length_app. cbn [length].
           rewrite !length_app. cbn [length]. lia.
        -- intros q. rewrite Hk. destruct (decide (q = p)) as [->|Hqp].
           ++ rewrite Hgone, Hterm.
              rewrite (bool_decide_eq_true_2 (p ∈ p :: todo)) by set_solver.
              by destruct (_ && _).
           ++ rewrite Hother by done.
              rewrite (has_terminated_ext sh sh3) by (by apply Hother).
              by rewrite (bool_decide_ext (q ∈ todo) (q ∈ p :: todo))
                by set_solver.
        -- by rewrite Hs.
        -- by rewrite Hf.
        -- by rewrite Ht, Ht3, <- !app_assoc.
        -- constructor; [done|]. constructor; [|done].
           unfold report. by destruct (WIFEXITED _).
        -- cbn [List.filter is_stdout nonblocking].
           assert (is_stdout (report sh p) = true) as ->
               by (unfold report; by destruct (WIFEXITED _)).
           cbn [map]. f_equal. rewrite Hout.
           apply map_ext_in. intros q Hq%filter_In%proj1%list_elem_of_In.
           apply report_ext, Hother. by apply Hne.
    + destruct (waitpid_running sh p Hp Hterm) as (r & Hr & ->).
      cbv beta iota zeta. destruct (Z.eqb_spec r p); [done|].
      replace (Z.of_nat (length pre) + 1) with (Z.of_nat (length (pre ++ [p])))
        by (rewrite length_app; simpl; lia).
      destruct (IH fuel (pre ++ [p]) stale rest cs
                  (emit (Waitpid p WNOHANG r) sh))
        as (sh' & stale' & es & Hrun & Hb & Hc & Hl & Hk & Hs & Hf & Ht & Hes & Hout).
      * unfold_setters. by rewrite Harr, <- app_assoc.
      * unfold_setters. rewrite Hcount, length_app. simpl. lia.
      * rewrite length_app. simpl in *. lia.
      * done.
      * done.
      * eapply Forall_impl; [exact Hst|]. intros q [Hq [Hrun|Hin]].
        -- split; [done|]. by left.
        -- split; [done|]. apply elem_of_cons in Hin as [->|Hin];
             [by left | by right].
      * simpl in Hfuel. rewrite Hterm in Hfuel.
        change (has_terminated (emit (Waitpid p WNOHANG r) sh))
          with (has_terminated sh). lia.
      * change (has_terminated (emit (Waitpid p WNOHANG r) sh))
          with (has_terminated sh) in *.
        change (report (emit (Waitpid p WNOHANG r) sh)) with (report sh) in *.
        exists sh', stale', (Waitpid p WNOHANG r :: es).
        split; [done|]. cbn [List.filter]. rewrite Hterm. cbn [negb].
        change (children (emit (Waitpid p WNOHANG r) sh)) with (children sh) in Hk.
        split_and!.
        -- rewrite Hb. by rewrite <- app_assoc.
        -- rewrite Hc, length_app. f_equal. simpl. lia.
        -- rewrite Hl.
           change (background_procs (emit (Waitpid p WNOHANG r) sh))
             with (background_procs sh). by rewrite Harr.
        -- intros q. rewrite Hk. destruct (decide (q = p)) as [->|Hqp].
           ++ rewrite Hterm, !andb_false_r. done.
           ++ by rewrite (bool_decide_ext (q ∈ todo) (q ∈ p :: todo))
                by set_solver.
        -- by rewrite Hs.
        -- by rewrite Hf.
        -- rewrite Ht. unfold_setters. by rewrite <- app_assoc.
        -- by constructor.
        -- done.
Qed.

Lemma terminated_tracked_bound (sh : shell) (l : list Z) :
  NoDup l →
  (length (List.filter (has_terminated sh) l) ≤ size (children sh))%nat.
Proof.
  intros Hnd.
  assert (NoDup (List.filter (has_terminated sh) l)) as Hnd'
    by (apply NoDup_ListNoDup, List.NoDup_filter; by apply NoDup_ListNoDup).
  rewrite <- (size_list_to_set (C := gset Z)) by done.
  rewrite <- (size_dom (children sh)).
  apply subseteq_size. intros q Hq.
  apply elem_of_list_to_set, list_elem_of_In, filter_In in Hq as [_ Hq].
  apply elem_of_dom. unfold has_terminated in Hq.
  by destruct (children sh !! q).
Qed.

Lemma check_background_procs_spec (sh : shell) :
  0 ≤ bg_proc_count sh ≤ Z.of_nat (length (background_procs sh)) →
  Forall (λ p, 0 < p) (registry sh) →
  NoDup (registry sh) →
  ∃ sh' es,
    check_background_procs sh = Ret sh'
    ∧ trace sh' = trace sh ++ es
    ∧ registry sh'
      = List.filter (λ p, negb (has_terminated sh p)) (registry sh)
    ∧ List.filter is_stdout es
      = map (report sh) (List.filter (has_terminated sh) (registry sh))
    ∧ Forall (λ e, nonblocking e = true) es
    ∧ (∀ q, children sh' !! q
            = if bool_decide (q ∈ registry sh) && has_terminated sh q
              then None else children sh !! q)
    ∧ status sh' = status sh
    ∧ foreground_only sh' = foreground_only sh
    ∧ length (background_procs sh') = length (background_procs sh)
    ∧ 0 ≤ bg_proc_count sh' ≤ bg_proc_count sh.
Proof.
  intros Hcount Hpos Hnd. unfold check_background_procs.
  assert (length (registry sh) = Z.to_nat (bg_proc_count sh)) as Hlen.
  { unfold registry. rewrite length_take. lia. }
  destruct (check_loop_live (bg_proc_count sh) (registry sh)
              (Z.to_nat (bg_proc_count sh) + size (children sh))
              [] [] (drop (Z.to_nat (bg_proc_count sh)) (background_procs sh))
              None sh)
    as (sh' & stale' & es & Hrun & Hb & Hc & Hl & Hk & Hs & Hf & Ht & Hes & Hout);
    try done.
  - cbn [app]. unfold registry. by rewrite take_drop.
  - cbn [length]. lia.
  - cbn [length]. lia.
  - pose proof (terminated_tracked_bound sh (registry sh) Hnd). cbn [length]. lia.
  - exists sh', es. split; [exact Hrun|]. split_and!; try done.
    + unfold registry at 1. rewrite Hb, Hc. cbn [app length].
      rewrite Nat2Z.id. apply take_app_length.
    + cbn [length] in Hc. lia.
    + cbn [length] in Hc. rewrite Hc.
      pose proof (List.filter_length_le
                    (λ p, negb (has_terminated sh p)) (registry sh)). lia.
Qed.

(** C9: a pass of [check_background_procs] over a registry of distinct
    identifiers of children returns, and what it leaves is this: every
    tracked identifier whose child has terminated is reported once, with
    its exit code or terminating signal, is reaped and is no longer in the
    registry; the others are still tracked, in their order; and every
    [waitpid] of the pass carries WNOHANG. *)
Theorem reap_pass (sh : shell) :
  0 ≤ bg_proc_count sh ≤ Z.of_nat (length (background_procs sh)) →
  Forall (λ p, 0 < p) (registry sh) →
  NoDup (registry sh) →
  ∃ sh',
    check_background_procs sh = Ret sh'
    ∧ registry sh'
      = List.filter (λ p, negb (has_terminated sh p)) (registry sh)
    ∧ List.filter is_stdout (since sh sh')
      = map (report sh) (List.filter (has_terminated sh) (registry sh))
    ∧ Forall (λ e, nonblocking e = true) (since sh sh')
    ∧ (∀ q, children sh' !! q
            = if bool_decide (q ∈ registry sh) && has_terminated sh q
              then None else children sh !! q).
Proof.
  intros Hcount Hpos Hnd.
  destruct (check_background_procs_spec sh Hcount Hpos Hnd)
    as (sh' & es & Hrun & Ht & Hreg & Hout & Hes & Hk & _).
  exists sh'. rewrite (since_app _ _ _ Ht). by split_and!.
Qed.

Lemma reap_pass_witness :
  ∃ sh',
    check_background_procs three_jobs = Ret sh'
    ∧ registry sh'
      = List.filter (λ p, negb (has_terminated three_jobs p))
                    (registry three_jobs)
    ∧ List.filter is_stdout (since three_jobs sh')
      = map (report three_jobs)
            (List.filter (has_terminated three_jobs) (registry three_jobs))
    ∧ Forall (λ e, nonblocking e = true) (since three_jobs sh')
    ∧ (∀ q, children sh' !! q
            = if bool_decide (q ∈ registry three_jobs)
                 && has_terminated three_jobs q
              then None else children three_jobs !! q).
Proof. apply (reap_pass three_jobs); compute_done. Defined.

Example three_jobs_reaped :
  match check_background_procs three_jobs with
  | Ret sh' => Some (registry sh', List.filter is_stdout (trace sh'))
  | _ => None
  end
  = Some ([11],
          [Stdout ("background pid 10 is done: exit value 3" +:+ nl);
           Stdout ("background pid 12 is done: terminated by signal 15" +:+ nl)]).
Proof. by vm_compute. Qed.

(** ** What can change Last Foreground Status *)

Ltac list_assoc :=
  repeat (progress (rewrite <- ?app_assoc; cbn [app])).

Lemma child_case_never_returns (env : environment) (s : schedule)
    (c : command_line) (sh sh' : shell) :
  child_case env s c sh ≠ Ret sh'.
Proof.
  unfold child_case.
  destruct (input_redirect env c _) as [sh1| | |]; cbn [bind]; try done.
  destruct (output_redirect env c sh1) as [sh2| | |]; cbn [bind]; try done.
  by destruct (execvp env _ _).
Qed.

Lemma background_test_ext (c : command_line) (sh sh' : shell) :
  foreground_only sh' = foreground_only sh →
  background_test c sh' = background_test c sh.
Proof. unfold background_test. by intros ->. Qed.

(** A launch from which the shell returns has forked; and when it has
    changed Last Foreground Status, the test of line 444 had failed and
    the shell has waited for the child. *)
Lemma fork_child_returns (env : environment) (l : launch)
    (c : command_line) (sh sh' : shell) :
  fork_child env l c sh = Ret sh' →
  ∃ es,
    trace sh' = trace sh ++ Fork (spawn_pid l) :: es
    ∧ (status sh' ≠ status sh →
       detaches l c sh = false
       ∧ ∃ r, Waitpid (spawn_pid l) 0 r ∈ es).
Proof.
  unfold fork_child. set (fate := wait_status_of _).
  unfold after_fork.
  set (a := sig_after_fork (shell_signals l)).
  set (b := sig_after_register (shell_signals l)).
  destruct (sys_fork_frame (spawn_pid l) fate sh) as (Hs0 & _ & _ & Hf0 & Ht0).
  destruct (deliver_SIGTSTP_frame a (sys_fork (spawn_pid l) fate sh))
    as (Hs1 & _ & _ & _ & Hf1 & out1 & Ht1 & _).
  destruct (register_child _ c _) as [sh1| | |] eqn:Hreg; cbn [bind]; try done.
  apply register_child_frame in Hreg as (Hs2 & Hf2 & _ & Ht2).
  destruct (deliver_SIGTSTP_frame b sh1)
    as (Hs3 & _ & _ & _ & Hf3 & out2 & Ht3 & _).
  set (d2 := deliver_SIGTSTP b sh1) in *.
  assert (background_test c d2 = detaches l c sh) as Htest.
  { apply background_test_ext. unfold detaches. fold a b.
    rewrite deliver_SIGTSTP_add, Hf3, Hf2, Hf1, Hf0.
    destruct (deliver_SIGTSTP_frame b (deliver_SIGTSTP a sh))
      as (_ & _ & _ & _ & -> & _).
    by destruct (deliver_SIGTSTP_frame a sh) as (_ & _ & _ & _ & -> & _). }
  assert (status d2 = status sh) as Hsd by congruence.
  assert (trace d2 = trace sh ++ Fork (spawn_pid l) :: out1 ++ out2) as Htd.
  { rewrite Ht3, Ht2, Ht1, Ht0. by list_assoc. }
  clearbody d2.
  destruct (spawn_pid l =? -1); [done|].
  destruct (spawn_pid l =? 0); [intros H; by apply child_case_never_returns in H|].
  unfold parent_case. rewrite Htest.
  destruct (detaches l c sh).
  - intros [= <-]. exists (out1 ++ out2 ++
      [Stdout ("background PID is " +:+ sprintf_d (spawn_pid l) +:+ nl)]).
    unfold_setters. rewrite Htd. list_assoc. split; [done|].
    intros Hne. by rewrite Hsd in Hne.
  - destruct (deliver_SIGTSTP_frame (sig_late (shell_signals l)) d2)
      as (_ & _ & _ & _ & _ & out3 & Ht4 & _).
    set (d3 := deliver_SIGTSTP (sig_late (shell_signals l)) d2) in *.
    clearbody d3.
    assert (∃ r cs sh4, sys_waitpid (spawn_pid l) 0 d3 = (r, cs, sh4)
                        ∧ trace sh4 = trace d3 ++ [Waitpid (spawn_pid l) 0 r])
      as (r & cs & sh4 & -> & Ht5).
    { unfold sys_waitpid. destruct (if 0 <? spawn_pid l then _ else _) as [k|].
      - destruct (_ || _); eauto.
      - eauto. }
    destruct cs as [w|]; [|done].
    assert (Waitpid (spawn_pid l) 0 r
            ∈ out1 ++ out2 ++ out3 ++ [Waitpid (spawn_pid l) 0 r]) as Hin
      by set_solver.
    destruct (WIFEXITED w); intros [= <-].
    + exists (out1 ++ out2 ++ out3 ++ [Waitpid (spawn_pid l) 0 r]).
      unfold_setters. rewrite Ht5, Ht4, Htd. list_assoc.
      split; [done|]. intros _. split; [done|]. by exists r.
    + exists (out1 ++ out2 ++ out3 ++ [Waitpid (spawn_pid l) 0 r]
              ++ [Stdout ("terminated by signal "
                          +:+ sprintf_d (WTERMSIG w) +:+ nl)]).
      unfold_setters. rewrite Ht5, Ht4, Htd. list_assoc.
      split; [done|]. intros _. split; [done|]. exists r. set_solver.
Qed.

Lemma kill_loop_frame (n : nat) :
  ∀ i sh,
    0 ≤ i → i + Z.of_nat n ≤ Z.of_nat (length (background_procs sh)) →
    ∃ sh', kill_loop n i sh = Ret sh' ∧ status sh' = status sh.
Proof.
  induction n as [|n IH]; intros i sh Hi Hlen; [by exists sh|].
  cbn [kill_loop]. unfold array_read.
  destruct (Z.leb_spec 0 i); [|lia].
  destruct (lookup_lt_is_Some_2 (background_procs sh) (Z.to_nat i)) as [p ->];
    [lia|].
  set (sh1 := sys_kill p SIGKILL sh).
  assert (status sh1 = status sh ∧ background_procs sh1 = background_procs sh)
    as [Hs1 Hb1].
  { subst sh1. unfold sys_kill.
    destruct (if 0 <? p then _ else _) as [k|]; [|done]. by destruct (terminated k). }
  clearbody sh1.
  assert (∃ r cs sh2, sys_waitpid p WNOHANG sh1 = (r, cs, sh2)
                      ∧ status sh2 = status sh1
                      ∧ background_procs sh2 = background_procs sh1)
    as (r & cs & sh2 & -> & Hs2 & Hb2).
  { unfold sys_waitpid. destruct (if 0 <? p then _ else _) as [k|].
    - destruct (_ || _); eauto 10.
    - eauto 10. }
  destruct (IH (i + 1) sh2) as (sh' & Hrun & Hs); [lia | rewrite Hb2, Hb1; lia|].
  exists sh'. split; [done | congruence].
Qed.

(** C8: the built-in commands [cd] and [status], the exit command and a
    pass of [check_background_procs] return with Last Foreground Status
    as it was; a dispatched command that leaves another value in it was
    not a built-in, was not detached, and the shell has waited for it. *)
Theorem status_changes_only_in_foreground (env : environment) (l : launch)
    (sh : shell) :
  0 ≤ bg_proc_count sh ≤ Z.of_nat (length (background_procs sh)) →
  Forall (λ p, 0 < p) (registry sh) →
  NoDup (registry sh) →
  (∀ c, command c = "cd" ∨ command c = "status" →
        ∃ sh', handle_command_line env l c sh = Ret sh'
               ∧ status sh' = status sh)
  ∧ (∃ sh', dispatch env l ("exit" +:+ nl) sh = Exit 0 sh'
            ∧ status sh' = status sh)
  ∧ (∃ sh', check_background_procs sh = Ret sh' ∧ status sh' = status sh)
  ∧ (∀ c sh', handle_command_line env l c sh = Ret sh' →
              status sh' ≠ status sh →
              command c ≠ "cd" ∧ command c ≠ "status"
              ∧ ∃ c' r, add_NULL c = Ret c'
                        ∧ detaches l c' sh = false
                        ∧ Waitpid (spawn_pid l) 0 r ∈ since sh sh').
Proof.
  intros Hcount Hpos Hnd. split_and!.
  - intros c [Hc|Hc]; unfold handle_command_line; rewrite Hc; cbn [String.eqb].
    + change (String.eqb "cd" "cd") with true. cbn iota.
      destruct (args_count c =? 1); eexists; (split; [done|]);
        unfold change_dir; by destruct (_ =? -1).
    + change (String.eqb "status" "cd") with false.
      change (String.eqb "status" "status") with true. cbn iota.
      eexists. split; [done|]. apply display_status_effect.
  - unfold dispatch. rewrite String.eqb_refl. cbn [negb].
    unfold kill_children.
    destruct (kill_loop_frame (Z.to_nat (bg_proc_count sh)) 0 sh)
      as (sh' & -> & Hs); [lia | lia |].
    by exists sh'.
  - destruct (check_background_procs_spec sh Hcount Hpos Hnd)
      as (sh' & es & Hrun & _ & _ & _ & _ & _ & Hs & _).
    by exists sh'.
  - intros c sh'. unfold handle_command_line.
    destruct (String.eqb_spec (command c) "cd") as [Hcd|Hcd].
    { destruct (args_count c =? 1); intros [= <-]; unfold change_dir;
        by destruct (_ =? -1). }
    destruct (String.eqb_spec (command c) "status") as [Hst|Hst].
    { intros [= <-]. by destruct (display_status_effect sh) as (_ & -> & _). }
    destruct (add_NULL c) as [c'| | |]; cbn [bind]; try done.
    intros Hrun Hne.
    destruct (fork_child_returns env l c' sh sh' Hrun) as (es & Ht & Hwait).
    destruct (Hwait Hne) as (Hdet & r & Hr).
    split_and!; [done..|]. exists c', r. split_and!; [done..|].
    rewrite (since_app _ _ _ Ht). set_solver.
Qed.

Lemma status_changes_only_in_foreground_witness :
  (∀ c, command c = "cd" ∨ command c = "status" →
        ∃ sh', handle_command_line sample_env (undisturbed 7) c three_jobs
               = Ret sh'
               ∧ status sh' = status three_jobs)
  ∧ (∃ sh', dispatch sample_env (undisturbed 7) ("exit" +:+ nl) three_jobs
            = Exit 0 sh'
            ∧ status sh' = status three_jobs)
  ∧ (∃ sh', check_background_procs three_jobs = Ret sh'
            ∧ status sh' = status three_jobs)
  ∧ (∀ c sh', handle_command_line sample_env (undisturbed 7) c three_jobs
              = Ret sh' →
              status sh' ≠ status three_jobs →
              command c ≠ "cd" ∧ command c ≠ "status"
              ∧ ∃ c' r, add_NULL c = Ret c'
                        ∧ detaches (undisturbed 7) c' three_jobs = false
                        ∧ Waitpid (spawn_pid (undisturbed 7)) 0 r
                          ∈ since three_jobs sh').
Proof.
  apply (status_changes_only_in_foreground sample_env (undisturbed 7) three_jobs);
    compute_done.
Defined.

(** ** Lines the loop passes over *)

Lemma handle_command_line_acts (env : environment) (l : launch)
    (c : command_line) (sh sh' : shell) :
  handle_command_line env l c sh = Ret sh' →
  (length (trace sh) < length (trace sh'))%nat.
Proof.
  unfold handle_command_line.
  destruct (String.eqb (command c) "cd").
  { destruct (args_count c =? 1); intros [= <-]; unfold change_dir;
      destruct (_ =? -1); unfold_setters; rewrite ?length_app; simpl; lia. }
  destruct (String.eqb (command c) "status").
  { intros [= <-]. destruct (display_status_effect sh) as (-> & _).
    rewrite length_app. simpl. lia. }
  destruct (add_NULL c) as [c'| | |]; cbn [bind]; try done.
  intros Hrun. destruct (fork_child_returns env l c' sh sh' Hrun) as (es & -> & _).
  rewrite length_app. simpl. lia.
Qed.

Lemma dispatch_acts (env : environment) (l : launch) (line : string)
    (sh : shell) :
  dispatch env l line sh ≠ Ret sh.
Proof.
  unfold dispatch. destruct (negb _).
  - destruct (variable_expansion _ _) as [e| | |]; cbn [bind]; try done.
    destruct (parse_command_line e) as [c| | |]; cbn [bind]; try done.
    intros H%handle_command_line_acts. lia.
  - by destruct (kill_children sh).
Qed.

Lemma check_loop_status (fuel : nat) :
  ∀ n i cs sh sh',
    check_loop fuel n i cs sh = Ret sh' → status sh' = status sh.
Proof.
  induction fuel as [|fuel IH]; intros n i cs sh sh'.
  { cbn [check_loop]. destruct (i <? n); [done | by intros [= <-]]. }
  rewrite check_loop_unfold. destruct (i <? n); [|by intros [= <-]].
  destruct (array_read _ i) as [p|]; [|done].
  assert (∃ r st sh1, sys_waitpid p WNOHANG sh = (r, st, sh1)
                      ∧ status sh1 = status sh) as (r & st & sh1 & -> & Hs1).
  { unfold sys_waitpid. destruct (if 0 <? p then _ else _) as [k|].
    - destruct (_ || _); eauto 10.
    - eauto 10. }
  cbv beta iota zeta. destruct (r =? p).
  - destruct (remove_val_at_index _ _ _) as [[arr count]| | |]; cbn [bind];
      try done.
    destruct (match st with Some w => Some w | None => cs end) as [w|]; [|done].
    rewrite printf_if. intros H%IH. by rewrite H.
  - intros H%IH. by rewrite H.
Qed.

Lemma first_of_blank_or_comment (line : string) :
  line ≠ "" → blank_or_comment line = true →
  isspace (first_char line) = true ∨ first_char line = "#"%char.
Proof.
  destruct line as [|c rest]; [done|]. intros _.
  unfold blank_or_comment. cbn [skip_spaces first_char].
  destruct (isspace c); [by left|]. intros H%Ascii.eqb_eq. by right.
Qed.

(** The condition of the inner loop as the code has it: only the first
    character of the line is tested.  A line is passed over, with the
    status as it was, exactly when that character is white space or [#];
    the blank lines and the comment lines are among those passed over, and
    so is every line that holds a command after leading white space. *)
Theorem inner_loop_skips (env : environment) (line : string) :
  (skipped env line
   ↔ isspace (first_char line) = true ∨ first_char line = "#"%char)
  ∧ (dispatched env line
     ↔ ¬ (isspace (first_char line) = true ∨ first_char line = "#"%char))
  ∧ (line ≠ "" → blank_or_comment line = true → skipped env line)
  ∧ (skipped env line →
     ∀ l sh sh', main_turn env l line sh = Ret sh' → status sh' = status sh).
Proof.
  assert (inner_loop_repeats line = true
          ↔ isspace (first_char line) = true ∨ first_char line = "#"%char)
    as Hcond.
  { unfold inner_loop_repeats. rewrite orb_true_iff, Ascii.eqb_eq. done. }
  assert (check_background_procs initial_shell = Ret initial_shell) as Hinit
    by done.
  assert (inner_loop_repeats line = true → skipped env line) as Hskip.
  { intros H l sh. unfold main_turn. by rewrite H. }
  assert (inner_loop_repeats line = false → dispatched env line) as Hdisp.
  { intros H l sh. unfold main_turn. by rewrite H. }
  assert (skipped env line → dispatched env line → False) as Hboth.
  { intros Hs Hd. specialize (Hs (undisturbed 1) initial_shell).
    rewrite (Hd (undisturbed 1) initial_shell), Hinit in Hs. cbn [bind] in Hs.
    by apply dispatch_acts in Hs. }
  split_and!.
  - split; [|by intros ?%Hcond%Hskip].
    intros Hs. apply Hcond.
    destruct (decide (inner_loop_repeats line = true)) as [E|E]; [done|].
    apply not_true_is_false in E. destruct (Hboth Hs (Hdisp E)).
  - split.
    + intros Hd H%Hcond%Hskip. by apply Hboth.
    + intros Hn. apply Hdisp.
      destruct (decide (inner_loop_repeats line = true)) as [E|E];
        [|by apply not_true_is_false].
      destruct Hn. by apply Hcond.
  - intros Hne Hb. by apply Hskip, Hcond, first_of_blank_or_comment.
  - intros Hs l sh sh'. rewrite (Hs l sh). unfold check_background_procs.
    destruct (check_loop _ _ _ _ sh) as [sh1| | |] eqn:E; cbn [bind]; try done.
    intros [= <-]. by apply check_loop_status in E.
Qed.

(** C4, at the failing input: the line of one space and the command [ls]
    is neither blank nor a comment, yet the loop passes over it and reads
    the next line, where the comment on the loop in [main] says that it
    reads until a command that is not empty and not a comment is given;
    the same command without the space is dispatched. *)
Lemma leading_space_is_skipped :
  blank_or_comment (" ls" +:+ nl) = false
  ∧ main_turn sample_env (undisturbed 7) (" ls" +:+ nl) initial_shell
    = Ret (get_command_line initial_shell)
  ∧ main_turn sample_env (undisturbed 7) ("ls" +:+ nl) initial_shell
    ≠ Ret (get_command_line initial_shell).
Proof. by vm_compute. Qed.

(** ** A session *)

(** A background command is launched, its child ends while the shell
    waits at the prompt, and the next turn reports it before it runs the
    [status] command, which still sees the status the shell started with. *)
Example background_job_session :
  match main_turn sample_env (undisturbed 10) ("sleep 5 &" +:+ nl)
                  initial_shell with
  | Ret sh1 =>
      match main_turn sample_env (undisturbed 11) ("status" +:+ nl)
                      (child_terminates 10 sh1) with
      | Ret sh2 => Some (registry sh1, registry sh2, since sh1 sh2)
      | _ => None
      end
  | _ => None
  end
  = Some ([10], [],
          [Waitpid 10 WNOHANG 10;
           Stdout ("background pid 10 is done: exit value 0" +:+ nl);
           Waitpid 10 WNOHANG (-1);
           Stdout ": ";
           Stdout ("exit value 0" +:+ nl)]).
Proof. by vm_compute. Qed.

(** In foreground-only mode a command that ends in [&] is waited for and
    does not enter the registry. *)
Example foreground_only_session :
  match main_turn sample_env (undisturbed 10) ("sleep 5 &" +:+ nl)
                  (handle_SIGTSTP initial_shell) with
  | Ret sh1 => Some (registry sh1, status sh1,
                     existsb (λ e, negb (nonblocking e)) (trace sh1))
  | _ => None
  end
  = Some ([], 0, true).
Proof. by vm_compute. Qed.

(** * Further properties of the code *)

(** ** The parsed command *)

Lemma parse_tokens_arguments (k : nat) :
  ∀ rest parsed al n parsed' al' n',
    (length rest ≤ k)%nat →
    parse_tokens rest parsed al n = Ret (parsed', al', n') →
    ∃ xs, al' = al ++ (Some <$> xs)
          ∧ Forall (λ t, is_operator t = false) xs
          ∧ sublist xs rest
          ∧ n' = n + Z.of_nat (length xs)
          ∧ (n ≤ 512 → n' ≤ 512)
          ∧ command parsed' = command parsed
          ∧ run_in_background parsed' = run_in_background parsed.
Proof.
  induction k as [|k IH]; intros rest parsed al n parsed' al' n' Hk.
  { destruct rest; [|simpl in Hk; lia]. intros [= <- <- <-].
    exists []. rewrite app_nil_r. split_and!; try done. simpl. lia. }
  destruct rest as [|t rest].
  { intros [= <- <- <-]. exists []. rewrite app_nil_r.
    split_and!; try done. simpl. lia. }
  cbn [parse_tokens]. pose proof (is_operator_tokens t) as Hop.
  destruct (is_token "<" t) eqn:Hlt; [|destruct (is_token ">" t) eqn:Hgt].
  1,2: destruct rest as [|path rest]; [done|];
    intros H; apply IH in H; [|simpl in *; lia];
    destruct H as (xs & ? & ? & ? & ? & ? & ? & ?); exists xs;
    split_and!; try done; by do 2 apply sublist_cons.
  destruct (Z.ltb_spec n 512) as [Hn|Hn]; [|done].
  intros H. apply IH in H; [|simpl in *; lia].
  destruct H as (xs & -> & Hxs & Hsub & -> & Hle & Hc & Hb).
  exists (t :: xs). rewrite <- app_assoc. split_and!; try done.
  - by constructor.
  - by apply sublist_skip.
  - simpl. lia.
  - intros _. apply Hle. lia.
Qed.

Lemma removelast_fmap_Some (xs : list string) :
  removelast (Some <$> xs) = Some <$> removelast xs.
Proof.
  induction xs as [|x xs IH]; [done|].
  destruct xs as [|y xs]; [done|].
  change (removelast (Some <$> x :: y :: xs))
    with (Some x :: removelast (Some <$> y :: xs)).
  by rewrite IH.
Qed.

(** X1: what [parse_command_line] returns has the command as its first
    argument, no NULL among its arguments, at most 512 of them, and a count
    that is their number; the command is the first token of the line. *)
Theorem parsed_command_shape (s : string) (c : command_line) :
  parse_command_line s = Ret c →
  head (strtok_all s) = Some (command c)
  ∧ head (args c) = Some (Some (command c))
  ∧ Forall (λ a, a ≠ None) (args c)
  ∧ args_count c = Z.of_nat (length (args c))
  ∧ 1 ≤ args_count c ≤ 512.
Proof.
  unfold parse_command_line. destruct (strtok_all s) as [|t rest]; [done|].
  destruct (parse_tokens rest _ _ _) as [[[parsed al] n]| | |] eqn:E; try done.
  cbn [bind].
  apply (parse_tokens_arguments (length rest)) in E; [|done].
  destruct E as (xs & -> & Hxs & _ & -> & Hle & Hc & Hb).
  cbn [command] in Hc. specialize (Hle ltac:(lia)).
  assert (Forall (λ a : option string, a ≠ None) (Some <$> xs)) as Hsome.
  { apply Forall_fmap, Forall_true. done. }
  destruct (_ && _) eqn:Hamp; intros [= <-]; cbn [command args args_count head].
  - apply andb_true_iff in Hamp as [Hn Hlast].
    apply Z.ltb_lt in Hn.
    destruct xs as [|x xs]; [simpl in Hn; lia|].
    rewrite fmap_cons.
    change ([Some t] ++ Some x :: (Some <$> xs))
      with (Some t :: Some x :: (Some <$> xs)).
    change (removelast (Some t :: Some x :: (Some <$> xs)))
      with (Some t :: removelast (Some x :: (Some <$> xs))).
    rewrite <- fmap_cons, removelast_fmap_Some. cbn [head length].
    rewrite length_fmap.
    assert (length (removelast (x :: xs)) = length xs) as Hl.
    { rewrite removelast_firstn_len, length_take. simpl. lia. }
    rewrite Hc. split_and!; try done.
    + constructor; [done|]. apply Forall_fmap, Forall_true. done.
    + rewrite Hl. simpl. lia.
    + simpl in *. lia.
    + simpl in *. lia.
  - change ([Some t] ++ (Some <$> xs)) with (Some t :: (Some <$> xs)).
    cbn [head length]. rewrite length_fmap, Hc. split_and!; try done.
    + by constructor.
    + lia.
    + lia.
Qed.

Lemma parsed_command_shape_witness :
  head (strtok_all "wc -l < in &") = Some (command (mk_command_line "wc" [Some "wc"; Some "-l"] 2 (Some "in") None true))
  ∧ head (args (mk_command_line "wc" [Some "wc"; Some "-l"] 2 (Some "in") None true))
    = Some (Some (command (mk_command_line "wc" [Some "wc"; Some "-l"] 2 (Some "in") None true)))
  ∧ Forall (λ a, a ≠ None)
      (args (mk_command_line "wc" [Some "wc"; Some "-l"] 2 (Some "in") None true))
  ∧ args_count (mk_command_line "wc" [Some "wc"; Some "-l"] 2 (Some "in") None true)
    = Z.of_nat (length (args (mk_command_line "wc" [Some "wc"; Some "-l"] 2 (Some "in") None true)))
  ∧ 1 ≤ args_count (mk_command_line "wc" [Some "wc"; Some "-l"] 2 (Some "in") None true) ≤ 512.
Proof. apply (parsed_command_shape "wc -l < in &"). by vm_compute. Defined.

(** X2: the arguments [parse_command_line] returns are tokens of the
    line, in the order of the line, and none after the command is a bare
    [<] or [>]. *)
Theorem parsed_arguments_are_plain_tokens (s : string) (c : command_line) :
  parse_command_line s = Ret c →
  ∃ xs, args c = Some <$> xs
        ∧ sublist xs (strtok_all s)
        ∧ Forall (λ t, is_operator t = false) (tail xs).
Proof.
  unfold parse_command_line. destruct (strtok_all s) as [|t rest]; [done|].
  destruct (parse_tokens rest _ _ _) as [[[parsed al] n]| | |] eqn:E; try done.
  cbn [bind].
  apply (parse_tokens_arguments (length rest)) in E; [|done].
  destruct E as (xs & -> & Hxs & Hsub & -> & _).
  change ([Some t] ++ (Some <$> xs)) with (Some <$> t :: xs).
  destruct (_ && _) eqn:Hamp; intros [= <-]; cbn [args].
  - apply andb_true_iff in Hamp as [Hn _]. apply Z.ltb_lt in Hn.
    destruct xs as [|x xs]; [simpl in Hn; lia|].
    exists (t :: removelast (x :: xs)). split_and!.
    + by rewrite removelast_fmap_Some.
    + apply sublist_skip. etrans; [|exact Hsub].
      rewrite removelast_firstn_len. apply sublist_take.
    + cbn [tail]. rewrite removelast_firstn_len. by apply Forall_take.
  - exists (t :: xs). split_and!; [done | by apply sublist_skip | done].
Qed.

Lemma parsed_arguments_are_plain_tokens_witness :
  ∃ xs, args (mk_command_line "wc" [Some "wc"; Some "-l"] 2 (Some "in") None true)
        = Some <$> xs
        ∧ sublist xs (strtok_all "wc -l < in &")
        ∧ Forall (λ t, is_operator t = false) (tail xs).
Proof.
  apply (parsed_arguments_are_plain_tokens "wc -l < in &"). by vm_compute.
Defined.

Lemma parse_tokens_plain (rest : list string) :
  ∀ parsed al n,
    Forall (λ t, is_operator t = false) rest →
    n + Z.of_nat (length rest) ≤ 512 →
    parse_tokens rest parsed al n
    = Ret (parsed, al ++ (Some <$> rest), n + Z.of_nat (length rest)).
Proof.
  induction rest as [|t rest IH]; intros parsed al n Hop Hn.
  { cbn. by rewrite app_nil_r, Z.add_0_r. }
  apply Forall_cons in Hop as [Ht Hop]. cbn [parse_tokens].
  rewrite is_operator_tokens in Ht. apply orb_false_iff in Ht as [-> ->].
  simpl in Hn. destruct (Z.ltb_spec n 512); [|lia].
  rewrite IH by (done || lia). rewrite <- app_assoc. cbn [length].
  rewrite Nat2Z.inj_succ. do 2 f_equal. lia.
Qed.

(** X3: on a line without bare [<] or [>] the command is the first token,
    the arguments are all the tokens, and no file is set; when there are
    at least two tokens and the last is [&], that one is taken off and the
    command is marked for the background. *)
Theorem parse_plain_line (s t : string) (rest : list string) :
  strtok_all s = t :: rest →
  Forall (λ x, is_operator x = false) rest →
  (length rest < 512)%nat →
  parse_command_line s
  = Ret (if bool_decide (last rest = Some "&")
         then {| command := t; args := Some <$> t :: removelast rest;
                 args_count := Z.of_nat (length rest);
                 input_file := None; output_file := None;
                 run_in_background := true |}
         else {| command := t; args := Some <$> t :: rest;
                 args_count := 1 + Z.of_nat (length rest);
                 input_file := None; output_file := None;
                 run_in_background := false |}).
Proof.
  intros Htok Hop Hlen. unfold parse_command_line. rewrite Htok.
  rewrite parse_tokens_plain by (done || lia). cbn [bind].
  change ([Some t] ++ (Some <$> rest)) with (Some <$> t :: rest).
  rewrite fmap_last.
  destruct rest as [|x rest].
  { cbn. done. }
  assert (last (t :: x :: rest) = last (x :: rest)) as -> by done.
  destruct (Z.ltb_spec 1 (1 + Z.of_nat (length (x :: rest))));
    [|simpl in *; lia].
  cbn [andb].
  destruct (last (x :: rest)) as [z|] eqn:Hl; cbn [fmap option_fmap option_map].
  - destruct (decide (z = "&")) as [->|Hz].
    + rewrite !bool_decide_eq_true_2 by done.
      rewrite removelast_fmap_Some. do 2 f_equal. lia.
    + rewrite !bool_decide_eq_false_2 by congruence. done.
  - by rewrite !bool_decide_eq_false_2 by done.
Qed.

Lemma parse_plain_line_witness :
  parse_command_line "sleep 5 &"
  = Ret (if bool_decide (last ["5"; "&"] = Some "&")
         then {| command := "sleep"; args := Some <$> "sleep" :: removelast ["5"; "&"];
                 args_count := Z.of_nat (length ["5"; "&"]);
                 input_file := None; output_file := None;
                 run_in_background := true |}
         else {| command := "sleep"; args := Some <$> "sleep" :: ["5"; "&"];
                 args_count := 1 + Z.of_nat (length ["5"; "&"]);
                 input_file := None; output_file := None;
                 run_in_background := false |}).
Proof.
  apply (parse_plain_line "sleep 5 &" "sleep" ["5"; "&"]);
    [by vm_compute | by repeat constructor | simpl; lia].
Defined.

(** ** The buffer of the expansion *)

Lemma size_sub_in_range (a b : Z) : 0 ≤ a - b < 2 ^ 64 → size_sub a b = a - b.
Proof. intros H. unfold size_sub. by apply Z.mod_small. Qed.

Lemma strncat_overflows (dest src : string) (n : Z) :
  2048 ≤ strlen (dest +:+ take_chars n src) →
  strncat 2048 dest src n = Undefined BufferOverflow.
Proof.
  intros H. unfold strncat.
  by destruct (Z.ltb_spec (strlen (dest +:+ take_chars n src)) 2048); [lia|].
Qed.

Lemma strncat_fits (dest src : string) (n : Z) :
  strlen (dest +:+ take_chars n src) < 2048 →
  strncat 2048 dest src n = Ret (dest +:+ take_chars n src).
Proof.
  intros H. unfold strncat.
  by destruct (Z.ltb_spec (strlen (dest +:+ take_chars n src)) 2048); [|lia].
Qed.

(** The loop and the final [strncat] when the expansion does not fit. *)
Lemma expansion_loop_overflows (pid : string) (c : ascii) (fuel : nat) :
  c ≠ "$"%char →
  ∀ expanded body,
    (String.length body ≤ fuel)%nat →
    strlen body < 2 ^ 64 →
    2048 ≤ strlen (expanded +:+ replace_dollars pid body) →
    (let* (expanded', str_pointer) :=
       expansion_loop fuel pid expanded (body +:+ String c "")
                      (strstr (body +:+ String c "") "$$") in
     strncat 2048 expanded' str_pointer (size_sub (strlen str_pointer) 1))
    = Undefined BufferOverflow.
Proof.
  intros Hc. induction fuel as [|fuel IH]; intros expanded body Hfuel Hlen Hbig.
  - destruct body; [|simpl in Hfuel; lia].
    cbn [String.append strstr]. rewrite prefix_dollars_short.
    cbn [expansion_loop bind]. apply strncat_overflows.
    change (size_sub (strlen (String c "")) 1) with 0.
    cbn [replace_dollars] in Hbig. by destruct c.
  - rewrite strstr_dollars_snoc by done.
    destruct (strstr body "$$") as [found|] eqn:Hs; simpl.
    + destruct (strstr_dollars_Some pid _ _ Hs) as (pre & rest & -> & -> & Hrep).
      rewrite Hrep in Hbig. rewrite !strlen_app in Hbig, Hlen.
      change (strlen "$$") with 2 in Hlen.
      pose proof (strlen_nonneg expanded). pose proof (strlen_nonneg pre).
      pose proof (strlen_nonneg pid). pose proof (strlen_nonneg rest).
      pose proof (strlen_nonneg (replace_dollars pid rest)).
      rewrite !app_assoc_s.
      rewrite size_sub_in_range by (rewrite !strlen_app; lia).
      replace (strlen (pre +:+ "$$" +:+ rest +:+ String c "")
               - strlen ("$$" +:+ rest +:+ String c "")) with (strlen pre)
        by (rewrite !strlen_app; lia).
      unfold strncat at 1. rewrite take_chars_app.
      destruct (Z.ltb_spec (strlen (expanded +:+ pre)) 2048); [|done].
      cbn [bind]. unfold strcat.
      destruct (Z.ltb_spec (strlen ((expanded +:+ pre) +:+ pid)) 2048); [|done].
      cbn [bind].
      replace (strlen pre + strlen "$$") with (strlen (pre +:+ "$$"))
        by (by rewrite strlen_app).
      rewrite <- (app_assoc_s pre "$$"), advance_app.
      apply IH.
      * rewrite !length_app_s in Hfuel. simpl in Hfuel. lia.
      * lia.
      * rewrite !strlen_app in *. lia.
    + rewrite (strstr_dollars_None pid _ Hs) in *.
      rewrite strlen_app in Hbig.
      pose proof (strlen_nonneg expanded). pose proof (strlen_nonneg body).
      apply strncat_overflows.
      rewrite size_sub_in_range
        by (rewrite strlen_app; change (strlen (String c "")) with 1; lia).
      replace (strlen (body +:+ String c "") - 1) with (strlen body)
        by (rewrite strlen_app; change (strlen (String c "")) with 1; lia).
      rewrite take_chars_app, strlen_app. lia.
Qed.

Lemma variable_expansion_decided (getpid : Z) (body : string) :
  strlen body < 2 ^ 64 →
  variable_expansion getpid (body +:+ nl)
  = if strlen (replace_dollars (sprintf_d getpid) body) <? 2048
    then Ret (replace_dollars (sprintf_d getpid) body)
    else Undefined BufferOverflow.
Proof.
  intros Hlen. unfold variable_expansion.
  assert (String.length body ≤ String.length (body +:+ nl))%nat
    by (rewrite length_app_s; lia).
  destruct (Z.ltb_spec (strlen (replace_dollars (sprintf_d getpid) body)) 2048).
  - by apply (expansion_loop_replaces (sprintf_d getpid) "010" _
                ltac:(done) "" body).
  - by apply (expansion_loop_overflows (sprintf_d getpid) "010" _
                ltac:(done) "" body).
Qed.

(** X4: on a line that ends with its newline, [variable_expansion] writes
    past its 2048-byte buffer exactly when the expanded line, without the
    newline, has 2048 characters or more; otherwise it returns the expanded
    line. *)
Theorem variable_expansion_buffer (getpid : Z) (body : string) :
  strlen body < 2 ^ 64 →
  (variable_expansion getpid (body +:+ nl) = Undefined BufferOverflow
   ↔ 2048 ≤ strlen (replace_dollars (sprintf_d getpid) body))
  ∧ (variable_expansion getpid (body +:+ nl)
     = Ret (replace_dollars (sprintf_d getpid) body)
     ↔ strlen (replace_dollars (sprintf_d getpid) body) < 2048).
Proof.
  intros Hlen. rewrite variable_expansion_decided by done.
  destruct (Z.ltb_spec (strlen (replace_dollars (sprintf_d getpid) body)) 2048);
    split; split; (done || lia).
Qed.

Lemma variable_expansion_buffer_witness :
  (variable_expansion 4242 ("echo $$" +:+ nl) = Undefined BufferOverflow
   ↔ 2048 ≤ strlen (replace_dollars (sprintf_d 4242) "echo $$"))
  ∧ (variable_expansion 4242 ("echo $$" +:+ nl)
     = Ret (replace_dollars (sprintf_d 4242) "echo $$")
     ↔ strlen (replace_dollars (sprintf_d 4242) "echo $$") < 2048).
Proof. apply (variable_expansion_buffer 4242 "echo $$"). by vm_compute. Defined.

(** ** The expansion leaves no token *)

Lemma string_of_uint_plain (d : Decimal.uint) :
  mentions "$" (NilEmpty.string_of_uint d) = false.
Proof. by induction d. Qed.

(** The decimal string of an identifier holds no dollar sign. *)
Lemma sprintf_d_plain (n : Z) : mentions "$" (sprintf_d n) = false.
Proof.
  unfold sprintf_d, NilZero.string_of_int, NilZero.string_of_uint.
  destruct (Z.to_int n) as [d|d]; destruct d; try done;
    apply (string_of_uint_plain (_ d)) || apply string_of_uint_plain.
Qed.

Lemma prefix_dollars_first_char (c : ascii) (s : string) :
  String.prefix "$$" (String c s)
  = Ascii.eqb c "$" && Ascii.eqb (first_char s) "$".
Proof.
  destruct s as [|b r]; [|apply prefix_dollars_cons].
  rewrite prefix_dollars_short. cbn [first_char]. by rewrite andb_false_r.
Qed.

Lemma strstr_app_plain (pid r : string) :
  mentions "$" pid = false →
  strstr r "$$" = None →
  strstr (pid +:+ r) "$$" = None.
Proof.
  intros Hm Hr. induction pid as [|a p IH]; [done|].
  cbn [mentions] in Hm. apply orb_false_iff in Hm as [Ha Hp].
  change (String a p +:+ r) with (String a (p +:+ r)). cbn [strstr].
  rewrite prefix_dollars_first_char, Ha. cbn [andb]. by apply IH.
Qed.

Lemma replace_dollars_cons (pid : string) (c c' : ascii) (r : string) :
  replace_dollars pid (String c (String c' r))
  = if Ascii.eqb c "$" && Ascii.eqb c' "$"
    then pid +:+ replace_dollars pid r
    else String c (replace_dollars pid (String c' r)).
Proof. done. Qed.

(** The replacement leaves no occurrence of the token behind. *)
Lemma replace_dollars_no_token (pid : string) :
  mentions "$" pid = false →
  ∀ (n : nat) (body : string),
    (String.length body ≤ n)%nat →
    strstr (replace_dollars pid body) "$$" = None.
Proof.
  intros Hm. induction n as [|n IH]; intros body Hn.
  { destruct body; [done | simpl in Hn; lia]. }
  destruct body as [|c [|c' rest']]; [done | |].
  { cbn [replace_dollars strstr]. by rewrite prefix_dollars_short. }
  rewrite replace_dollars_cons.
  destruct (Ascii.eqb c "$" && Ascii.eqb c' "$") eqn:E.
  - apply strstr_app_plain; [done|]. apply IH. simpl in Hn. lia.
  - cbn [strstr]. rewrite prefix_dollars_first_char.
    assert (Ascii.eqb c "$"
            && Ascii.eqb (first_char (replace_dollars pid (String c' rest'))) "$"
            = false) as ->.
    { destruct (Ascii.eqb c "$"); [|done]. cbn [andb] in *.
      destruct rest' as [|c'' r'']; [by cbn [replace_dollars first_char]|].
      rewrite replace_dollars_cons, E. by cbn [andb first_char]. }
    apply IH. simpl in Hn. simpl. lia.
Qed.

(** X5: what [variable_expansion] returns holds no occurrence of the token
    any more, and expanding it once more, with its newline put back, gives
    it again. *)
Theorem variable_expansion_idempotent (getpid : Z) (body r : string) :
  strlen body < 2 ^ 64 →
  variable_expansion getpid (body +:+ nl) = Ret r →
  has_dollars r = false ∧ variable_expansion getpid (r +:+ nl) = Ret r.
Proof.
  intros Hlen. rewrite variable_expansion_decided by done.
  destruct (Z.ltb_spec (strlen (replace_dollars (sprintf_d getpid) body)) 2048)
    as [Hfit|]; [|done].
  intros [= <-].
  pose proof (replace_dollars_no_token (sprintf_d getpid)
                (sprintf_d_plain getpid) _ body (le_n _)) as Hnone.
  split; [unfold has_dollars; by rewrite Hnone|].
  rewrite variable_expansion_decided by lia.
  rewrite (strstr_dollars_None _ _ Hnone).
  by destruct (Z.ltb_spec (strlen (replace_dollars (sprintf_d getpid) body)) 2048);
    [|lia].
Qed.

Lemma variable_expansion_idempotent_witness :
  has_dollars "kill -9 4242$" = false
  ∧ variable_expansion 4242 ("kill -9 4242$" +:+ nl) = Ret "kill -9 4242$".
Proof.
  apply (variable_expansion_idempotent 4242 "kill -9 $$$"); by vm_compute.
Defined.

(** ** The registry *)

Lemma drop_last_cons (mid : list Z) (x : Z) :
  drop (length mid) (x :: mid) = [List.last mid x].
Proof.
  revert x. induction mid as [|y mid IH]; intros x; [done|].
  cbn [length drop]. rewrite IH. destruct mid as [|z mid]; [done|].
  change (List.last (y :: z :: mid) x) with (List.last (z :: mid) x).
  f_equal. apply last_cons_default.
Qed.

(** X6: [remove_val_at_index] at an index within the counted slots takes
    the value at that index out of them, keeps the order of the others,
    lowers the count by one and leaves the length of the array and every
    slot from the last counted one on as they were. *)
Theorem remove_val_at_index_deletes (arr : list Z) (arr_length index : Z) :
  0 ≤ index < arr_length →
  arr_length ≤ Z.of_nat (length arr) →
  ∃ arr',
    remove_val_at_index arr arr_length index = Ret (arr', arr_length - 1)
    ∧ length arr' = length arr
    ∧ take (Z.to_nat (arr_length - 1)) arr'
      = delete (Z.to_nat index) (take (Z.to_nat arr_length) arr)
    ∧ drop (Z.to_nat (arr_length - 1)) arr'
      = drop (Z.to_nat (arr_length - 1)) arr.
Proof.
  intros Hi Hn.
  set (i := Z.to_nat index). set (n := Z.to_nat arr_length).
  assert (i < n ≤ length arr)%nat as Hin by lia.
  destruct (lookup_lt_is_Some_2 arr i) as [x Hx]; [lia|].
  pose proof (take_drop_middle arr i x Hx) as Harr.
  set (pre := take i arr) in *.
  set (mid := take (n - S i) (drop (S i) arr)).
  set (rest := drop (n - S i) (drop (S i) arr)).
  assert (drop (S i) arr = mid ++ rest) as Htail
    by (subst mid rest; by rewrite take_drop).
  assert (length pre = i) as Hpre by (subst pre; rewrite length_take; lia).
  assert (length mid = (n - S i)%nat) as Hmid
    by (subst mid; rewrite length_take, length_drop; lia).
  rewrite Htail in Harr. clearbody pre mid rest.
  exists (pre ++ mid ++ List.last mid x :: rest).
  replace arr_length with (Z.of_nat (length pre + S (length mid))) at 1 by lia.
  replace index with (Z.of_nat (length pre)) at 1 by lia.
  rewrite <- Harr at 1. rewrite remove_val_at_index_spec.
  replace (Z.to_nat (arr_length - 1)) with (length pre + length mid)%nat by lia.
  split_and!.
  - do 2 f_equal. lia.
  - rewrite <- Harr. rewrite !length_app. cbn [length]. rewrite !length_app.
    cbn [length]. lia.
  - replace n with (length pre + S (length mid))%nat by lia.
    rewrite <- Harr.
    rewrite !take_app_add'
      by done.
    rewrite take_app_length.
    change (x :: mid ++ rest) with ((x :: mid) ++ rest).
    replace (S (length mid)) with (length (x :: mid)) by done.
    rewrite take_app_length.
    rewrite <- Hpre. by rewrite delete_middle.
  - rewrite <- Harr. rewrite !drop_app_add' by done.
    rewrite drop_app_length.
    change (x :: mid ++ rest) with ((x :: mid) ++ rest).
    rewrite drop_app_le by (cbn [length]; lia).
    by rewrite drop_last_cons.
Qed.

Lemma remove_val_at_index_deletes_witness :
  ∃ arr',
    remove_val_at_index [10; 11; 12; 0; 0] 3 1 = Ret (arr', 3 - 1)
    ∧ length arr' = length [10; 11; 12; 0; 0]
    ∧ take (Z.to_nat (3 - 1)) arr'
      = delete (Z.to_nat 1) (take (Z.to_nat 3) [10; 11; 12; 0; 0])
    ∧ drop (Z.to_nat (3 - 1)) arr' = drop (Z.to_nat (3 - 1)) [10; 11; 12; 0; 0].
Proof.
  apply (remove_val_at_index_deletes [10; 11; 12; 0; 0] 3 1); [lia | simpl; lia].
Defined.

(** ** The exit command *)

Lemma sys_kill_frame (p sig : Z) (sh : shell) :
  status (sys_kill p sig sh) = status sh
  ∧ background_procs (sys_kill p sig sh) = background_procs sh
  ∧ bg_proc_count (sys_kill p sig sh) = bg_proc_count sh
  ∧ foreground_only (sys_kill p sig sh) = foreground_only sh
  ∧ trace (sys_kill p sig sh) = trace sh ++ [Kill p sig].
Proof.
  unfold sys_kill.
  destruct (if 0 <? p then _ else _) as [k|]; [|done]. by destruct (terminated k).
Qed.

Lemma sys_waitpid_frame (p options : Z) (sh : shell) :
  ∃ r cs sh',
    sys_waitpid p options sh = (r, cs, sh')
    ∧ status sh' = status sh
    ∧ background_procs sh' = background_procs sh
    ∧ bg_proc_count sh' = bg_proc_count sh
    ∧ foreground_only sh' = foreground_only sh
    ∧ trace sh' = trace sh ++ [Waitpid p options r].
Proof.
  unfold sys_waitpid. destruct (if 0 <? p then _ else _) as [k|].
  - destruct (_ || _); eauto 10.
  - eauto 10.
Qed.

Lemma kill_loop_spec (n : nat) :
  ∀ i sh,
    0 ≤ i → i + Z.of_nat n ≤ Z.of_nat (length (background_procs sh)) →
    ∃ sh' rs,
      kill_loop n i sh = Ret sh'
      ∧ status sh' = status sh
      ∧ background_procs sh' = background_procs sh
      ∧ bg_proc_count sh' = bg_proc_count sh
      ∧ foreground_only sh' = foreground_only sh
      ∧ length rs = n
      ∧ trace sh'
        = trace sh
          ++ concat (zip_with (λ p r, [Kill p SIGKILL; Waitpid p WNOHANG r])
                       (take n (drop (Z.to_nat i) (background_procs sh))) rs).
Proof.
  induction n as [|n IH]; intros i sh Hi Hlen.
  { exists sh, []. cbn. by rewrite app_nil_r. }
  cbn [kill_loop]. unfold array_read.
  destruct (Z.leb_spec 0 i); [|lia].
  destruct (lookup_lt_is_Some_2 (background_procs sh) (Z.to_nat i)) as [p Hp];
    [lia|].
  rewrite Hp.
  destruct (sys_kill_frame p SIGKILL sh) as (Hs1 & Hb1 & Hc1 & Hf1 & Ht1).
  set (sh1 := sys_kill p SIGKILL sh) in *. clearbody sh1.
  destruct (sys_waitpid_frame p WNOHANG sh1)
    as (r & cs & sh2 & -> & Hs2 & Hb2 & Hc2 & Hf2 & Ht2).
  destruct (IH (i + 1) sh2) as (sh' & rs & Hrun & Hs & Hb & Hc & Hf & Hrs & Ht);
    [lia | rewrite Hb2, Hb1; lia|].
  exists sh', (r :: rs). rewrite Hrun.
  split_and!; try congruence; [cbn [length]; lia|].
  rewrite Ht, Ht2, Ht1, Hb2, Hb1.
  rewrite (drop_S _ _ _ Hp). cbn [take zip_with concat].
  replace (Z.to_nat (i + 1)) with (S (Z.to_nat i)) by lia.
  by list_assoc.
Qed.

(** X7: [kill_children] returns after it has, for each tracked identifier
    in the order of the registry, sent SIGKILL to it and called [waitpid]
    on it without blocking; it does nothing else, and leaves the registry
    and the status as they were. *)
Theorem kill_children_kills_registry (sh : shell) :
  0 ≤ bg_proc_count sh ≤ Z.of_nat (length (background_procs sh)) →
  ∃ sh' rs,
    kill_children sh = Ret sh'
    ∧ length rs = length (registry sh)
    ∧ since sh sh'
      = concat (zip_with (λ p r, [Kill p SIGKILL; Waitpid p WNOHANG r])
                  (registry sh) rs)
    ∧ omap kill_target (since sh sh') = registry sh
    ∧ registry sh' = registry sh
    ∧ status sh' = status sh.
Proof.
  intros Hc. unfold kill_children.
  destruct (kill_loop_spec (Z.to_nat (bg_proc_count sh)) 0 sh)
    as (sh' & rs & Hrun & Hs & Hb & Hn & Hf & Hrs & Ht); [lia | lia |].
  change (Z.to_nat 0) with O in Ht. rewrite drop_0 in Ht.
  fold (registry sh) in Ht.
  assert (length rs = length (registry sh)) as Hlen.
  { unfold registry. rewrite length_take. lia. }
  exists sh', rs. rewrite (since_app _ _ _ Ht).
  split_and!; try done.
  - clear Ht Hrs. revert rs Hlen. generalize (registry sh). intros ps.
    induction ps as [|p ps IH]; intros [|r rs] Hlen; try done.
    cbn [zip_with concat app]. cbn [omap list_omap].
    change (kill_target (Kill p SIGKILL)) with (Some p).
    change (kill_target (Waitpid p WNOHANG r)) with (@None Z).
    cbn iota. f_equal. apply IH. by injection Hlen.
  - unfold registry. by rewrite Hb, Hn.
Qed.

Lemma kill_children_kills_registry_witness :
  ∃ sh' rs,
    kill_children three_jobs = Ret sh'
    ∧ length rs = length (registry three_jobs)
    ∧ since three_jobs sh'
      = concat (zip_with (λ p r, [Kill p SIGKILL; Waitpid p WNOHANG r])
                  (registry three_jobs) rs)
    ∧ omap kill_target (since three_jobs sh') = registry three_jobs
    ∧ registry sh' = registry three_jobs
    ∧ status sh' = status three_jobs.
Proof. apply (kill_children_kills_registry three_jobs). by compute_done. Defined.

(** ** Foreground-only mode *)

Lemma handle_SIGTSTP_step (sh : shell) :
  foreground_only (handle_SIGTSTP sh) = negb (foreground_only sh)
  ∧ trace (handle_SIGTSTP sh)
    = trace sh ++ [mode_message (foreground_only sh)]
  ∧ status (handle_SIGTSTP sh) = status sh
  ∧ background_procs (handle_SIGTSTP sh) = background_procs sh
  ∧ bg_proc_count (handle_SIGTSTP sh) = bg_proc_count sh
  ∧ children (handle_SIGTSTP sh) = children sh.
Proof.
  assert (take_chars 32 (message2 +:+ nul)
          = nl +:+ "Exiting foreground-only mode" +:+ nl +:+ ": ")
    as H2 by (by vm_compute).
  assert (take_chars 53 (message3 +:+ nul)
          = nl +:+ "Entering foreground-only mode (& is now ignored)"
            +:+ nl +:+ ": " +:+ nul)
    as H3 by (by vm_compute).
  unfold handle_SIGTSTP, mode_message.
  destruct (foreground_only sh) eqn:E; unfold_setters;
    rewrite ?H2, ?H3; by rewrite ?E.
Qed.

(** X8: [n] deliveries of SIGTSTP leave the shell in foreground-only mode
    exactly when [n] is odd and it was not, or [n] is even and it was; each
    delivery writes the message of the mode it leaves or enters, the
    entering one with the NUL that ends the literal, the leaving one
    without; status, registry and children are not touched. *)
Theorem SIGTSTP_toggles_mode (n : nat) (sh : shell) :
  foreground_only (deliver_SIGTSTP n sh)
  = xorb (Nat.odd n) (foreground_only sh)
  ∧ since sh (deliver_SIGTSTP n sh)
    = map (λ k, mode_message (xorb (Nat.odd k) (foreground_only sh))) (seq 0 n)
  ∧ status (deliver_SIGTSTP n sh) = status sh
  ∧ background_procs (deliver_SIGTSTP n sh) = background_procs sh
  ∧ bg_proc_count (deliver_SIGTSTP n sh) = bg_proc_count sh
  ∧ children (deliver_SIGTSTP n sh) = children sh.
Proof.
  assert (foreground_only (deliver_SIGTSTP n sh)
          = xorb (Nat.odd n) (foreground_only sh)
          ∧ trace (deliver_SIGTSTP n sh)
            = trace sh
              ++ map (λ k, mode_message (xorb (Nat.odd k) (foreground_only sh)))
                     (seq 0 n)
          ∧ status (deliver_SIGTSTP n sh) = status sh
          ∧ background_procs (deliver_SIGTSTP n sh) = background_procs sh
          ∧ bg_proc_count (deliver_SIGTSTP n sh) = bg_proc_count sh
          ∧ children (deliver_SIGTSTP n sh) = children sh)
    as (Hf & Ht & Hrest).
  { induction n as [|n (Hf & Ht & Hs & Hb & Hc & Hk)].
    { cbn. rewrite app_nil_r. by destruct (foreground_only sh). }
    rewrite deliver_SIGTSTP_S.
    destruct (handle_SIGTSTP_step (deliver_SIGTSTP n sh))
      as (Hf' & Ht' & Hs' & Hb' & Hc' & Hk').
    split_and!; try congruence.
    - rewrite Hf', Hf, Nat.odd_succ, <- Nat.negb_odd.
      by destruct (Nat.odd n), (foreground_only sh).
    - rewrite Ht', Ht, Hf, seq_S, map_app, <- app_assoc. done. }
  destruct Hrest as (? & ? & ? & ?).
  split_and!; try done. by apply since_app.
Qed.

(** ** Launches *)

Lemma take_insert_snoc (arr : list Z) (n : nat) (v : Z) :
  (n < length arr)%nat → take (S n) (<[n := v]> arr) = take n arr ++ [v].
Proof.
  intros Hn. rewrite (take_S_r _ _ v) by (by apply list_lookup_insert_eq).
  by rewrite take_insert_ge.
Qed.

Lemma is_stdout_nonblocking (e : event) : is_stdout e = true → nonblocking e = true.
Proof. by destruct e. Qed.

(** X9: a launch that the shell registers and does not wait for puts the
    new identifier at the end of the registry, leaves the status as it
    was, blocks in no [waitpid], and ends with the line that announces the
    identifier; the child is then running. *)
Theorem background_launch (env : environment) (l : launch)
    (c : command_line) (sh : shell) :
  0 < spawn_pid l →
  registers l c sh = true →
  detaches l c sh = true →
  0 ≤ bg_proc_count sh < Z.of_nat (length (background_procs sh)) →
  ∃ sh',
    fork_child env l c sh = Ret sh'
    ∧ registry sh' = registry sh ++ [spawn_pid l]
    ∧ status sh' = status sh
    ∧ children sh' !! spawn_pid l
      = Some (mk_child false (child_fate env l c sh))
    ∧ Forall (λ e, nonblocking e = true) (since sh sh')
    ∧ last (since sh sh')
      = Some (Stdout ("background PID is " +:+ sprintf_d (spawn_pid l) +:+ nl)).
Proof.
  intros Hpid Hreg Hdet Hroom.
  destruct (fork_child_background env l c sh Hpid Hreg Hdet Hroom)
    as (sh' & out & Hrun & Hout & Hs & Hb & Hn & Hk & Ht).
  exists sh'. rewrite (since_app _ _ _ Ht). split_and!; try done.
  - unfold registry. rewrite Hb, Hn.
    replace (Z.to_nat (bg_proc_count sh + 1))
      with (S (Z.to_nat (bg_proc_count sh))) by lia.
    apply take_insert_snoc. lia.
  - by rewrite Hk, lookup_insert_eq.
  - constructor; [done|]. apply Forall_app. split; [|by repeat constructor].
    eapply Forall_impl; [exact Hout|]. apply is_stdout_nonblocking.
  - by rewrite app_comm_cons, last_snoc.
Qed.

Lemma background_launch_witness :
  ∃ sh',
    fork_child sample_env (undisturbed 7) (one_word "sleep" true) three_jobs
    = Ret sh'
    ∧ registry sh' = registry three_jobs ++ [spawn_pid (undisturbed 7)]
    ∧ status sh' = status three_jobs
    ∧ children sh' !! spawn_pid (undisturbed 7)
      = Some (mk_child false
                (child_fate sample_env (undisturbed 7) (one_word "sleep" true)
                            three_jobs))
    ∧ Forall (λ e, nonblocking e = true) (since three_jobs sh')
    ∧ last (since three_jobs sh')
      = Some (Stdout ("background PID is "
                      +:+ sprintf_d (spawn_pid (undisturbed 7)) +:+ nl)).
Proof.
  apply (background_launch sample_env (undisturbed 7) (one_word "sleep" true)
           three_jobs); [reflexivity | reflexivity | reflexivity | by compute_done].
Defined.

(** X10: when [fork] fails, [fork_child] ends the shell with exit code 1
    after the [perror] line; no child has been added, no tracked child has
    been sent a signal or waited for, and the status has not changed. *)
Theorem fork_failure_is_fatal (env : environment) (l : launch)
    (c : command_line) (sh : shell) :
  spawn_pid l = -1 →
  0 ≤ bg_proc_count sh < Z.of_nat (length (background_procs sh)) →
  ∃ sh',
    fork_child env l c sh = Exit 1 sh'
    ∧ last (trace sh') = Some (Perror ("fork()" +:+ nl))
    ∧ children sh' = children sh
    ∧ status sh' = status sh
    ∧ Forall (λ e, kill_target e = None ∧ nonblocking e = true) (since sh sh').
Proof.
  intros Hpid Hroom. unfold fork_child. set (fate := wait_status_of _).
  clearbody fate. unfold after_fork. rewrite Hpid.
  destruct (sys_fork_frame (-1) fate sh) as (Hs0 & Hb0 & Hc0 & Hf0 & Ht0).
  assert (children (sys_fork (-1) fate sh) = children sh) as Hk0 by done.
  set (sh0 := sys_fork (-1) fate sh) in *. clearbody sh0.
  destruct (deliver_SIGTSTP_frame (sig_after_fork (shell_signals l)) sh0)
    as (Hs1 & Hb1 & Hc1 & Hk1 & Hf1 & out1 & Ht1 & Ho1).
  set (sh1 := deliver_SIGTSTP _ sh0) in *. clearbody sh1.
  destruct (register_child_room (-1) c sh1) as [sh2 Hreg];
    [rewrite Hc1, Hb1, Hc0, Hb0; lia|].
  rewrite Hreg. cbn [bind].
  apply register_child_frame in Hreg as (Hs2 & Hf2 & Hk2 & Ht2).
  destruct (deliver_SIGTSTP_frame (sig_after_register (shell_signals l)) sh2)
    as (Hs3 & Hb3 & Hc3 & Hk3 & Hf3 & out2 & Ht3 & Ho3).
  set (sh3 := deliver_SIGTSTP _ sh2) in *. clearbody sh3.
  change (-1 =? -1) with true. cbn iota.
  eexists. split; [done|]. unfold_setters.
  assert (trace sh3 ++ [Perror ("fork()" +:+ nl)]
          = trace sh ++ Fork (-1) :: out1 ++ out2 ++ [Perror ("fork()" +:+ nl)])
    as Ht.
  { rewrite Ht3, Ht2, Ht1, Ht0. by list_assoc. }
  split_and!; [by rewrite last_snoc | congruence | congruence |].
  unfold since. cbn [trace]. rewrite Ht, drop_app_length.
  constructor; [done|].
  rewrite !Forall_app. split_and!; [| |by repeat constructor].
  all: eapply Forall_impl; [eassumption|]; by intros [].
Qed.

Lemma fork_failure_is_fatal_witness :
  ∃ sh',
    fork_child sample_env (undisturbed (-1)) (one_word "sleep" true) three_jobs
    = Exit 1 sh'
    ∧ last (trace sh') = Some (Perror ("fork()" +:+ nl))
    ∧ children sh' = children three_jobs
    ∧ status sh' = status three_jobs
    ∧ Forall (λ e, kill_target e = None ∧ nonblocking e = true)
             (since three_jobs sh').
Proof.
  apply (fork_failure_is_fatal sample_env (undisturbed (-1))
           (one_word "sleep" true) three_jobs); [reflexivity | by compute_done].
Defined.

(** ** The child *)

(** One redirection block, by its outcome. *)
Lemma redirect_cases (env : environment) (path : string) (flags newfd : Z)
    (m1 m2 : string) (sh : shell) :
  let plan := perform env [(path, flags, newfd)] in
  ∃ sh' es,
    trace sh' = trace sh ++ es
    ∧ foreground_only sh' = foreground_only sh
    ∧ List.filter is_descriptor_call es = fst plan
    ∧ Forall (λ e, is_descriptor_call e || is_stdout e = true) es
    ∧ redirect env path flags newfd m1 m2 sh
      = if snd plan then Ret sh' else Exit 1 sh'.
Proof.
  unfold redirect. cbn [perform].
  set (fd := open env path flags). set (result := dup2 env fd newfd).
  destruct (fd =? -1).
  { exists (printf (m1 +:+ nl) (emit (Open path flags fd) sh)),
      [Open path flags fd; Stdout (m1 +:+ nl)].
    unfold_setters. rewrite <- app_assoc.
    split_and!; try done. by repeat constructor. }
  destruct (result =? -1).
  { exists (printf (m2 +:+ nl)
              (emit (Dup2 fd newfd result) (emit (Open path flags fd) sh))),
      [Open path flags fd; Dup2 fd newfd result; Stdout (m2 +:+ nl)].
    unfold_setters. rewrite <- !app_assoc.
    split_and!; try done. by repeat constructor. }
  exists (emit (Dup2 fd newfd result) (emit (Open path flags fd) sh)),
    [Open path flags fd; Dup2 fd newfd result].
  unfold_setters. rewrite <- !app_assoc.
  split_and!; try done. by repeat constructor.
Qed.

Lemma perform_app (env : environment) (rs1 rs2 : list (string * Z * Z)) :
  perform env (rs1 ++ rs2)
  = if snd (perform env rs1)
    then (fst (perform env rs1) ++ fst (perform env rs2),
          snd (perform env rs2))
    else perform env rs1.
Proof.
  induction rs1 as [|[[path flags] newfd] rs1 IH].
  { cbn. by destruct (perform env rs2). }
  cbn [app perform].
  destruct (open env path flags =? -1); [done|].
  destruct (dup2 env (open env path flags) newfd =? -1); [done|].
  rewrite IH. cbn [fst snd].
  destruct (snd (perform env rs1)) eqn:E; cbn [fst snd app]; by rewrite ?E.
Qed.

Ltac redirect_function Hfile :=
  match goal with
  | |- context [redirect ?env ?path ?flags ?newfd ?m1 ?m2 ?sh] =>
      destruct (redirect_cases env path flags newfd m1 m2 sh)
        as (sh' & es & Ht & Hf & Hd & Hes & ->);
      exists sh', es; split_and!; try done;
      destruct (snd (perform env [(path, flags, newfd)])); try done;
      cbn [bind]; rewrite ?Hfile; by rewrite ?andb_false_r
  end.

Lemma input_redirect_cases (env : environment) (c : command_line) (sh : shell) :
  let rs :=
    match input_file c with
    | Some path => [(path, O_RDONLY, 0)]
    | None => if background_test c sh then [("/dev/null", O_RDONLY, 0)] else []
    end in
  ∃ sh' es,
    trace sh' = trace sh ++ es
    ∧ foreground_only sh' = foreground_only sh
    ∧ List.filter is_descriptor_call es = fst (perform env rs)
    ∧ Forall (λ e, is_descriptor_call e || is_stdout e = true) es
    ∧ input_redirect env c sh
      = if snd (perform env rs) then Ret sh' else Exit 1 sh'.
Proof.
  unfold input_redirect. destruct (input_file c) as [path|] eqn:Hfile.
  { redirect_function Hfile. }
  cbn [bind]. rewrite bool_decide_eq_true_2, andb_true_r by done.
  destruct (background_test c sh).
  { redirect_function Hfile. }
  exists sh, []. by rewrite app_nil_r.
Qed.

Lemma output_redirect_cases (env : environment) (c : command_line) (sh : shell) :
  let rs :=
    match output_file c with
    | Some path => [(path, O_WRONLY_CREAT_TRUNC, 1)]
    | None => if background_test c sh
              then [("/dev/null", O_WRONLY_CREAT_TRUNC, 1)] else []
    end in
  ∃ sh' es,
    trace sh' = trace sh ++ es
    ∧ foreground_only sh' = foreground_only sh
    ∧ List.filter is_descriptor_call es = fst (perform env rs)
    ∧ Forall (λ e, is_descriptor_call e || is_stdout e = true) es
    ∧ output_redirect env c sh
      = if snd (perform env rs) then Ret sh' else Exit 1 sh'.
Proof.
  unfold output_redirect. destruct (output_file c) as [path|] eqn:Hfile.
  { redirect_function Hfile. }
  cbn [bind]. rewrite bool_decide_eq_true_2, andb_true_r by done.
  destruct (background_test c sh).
  { redirect_function Hfile. }
  exists sh, []. by rewrite app_nil_r.
Qed.

(** The two redirection functions one after the other. *)
Lemma redirections_performed (env : environment) (c : command_line)
    (sh : shell) :
  let plan := perform env (redirections c (background_test c sh)) in
  ∃ sh' es,
    trace sh' = trace sh ++ es
    ∧ List.filter is_descriptor_call es = fst plan
    ∧ Forall (λ e, is_descriptor_call e || is_stdout e = true) es
    ∧ (let* sh1 := input_redirect env c sh in output_redirect env c sh1)
      = if snd plan then Ret sh' else Exit 1 sh'.
Proof.
  unfold redirections. cbn zeta. rewrite perform_app.
  destruct (input_redirect_cases env c sh)
    as (sh1 & es1 & Ht1 & Hf1 & Hd1 & He1 & ->).
  cbn zeta in *.
  destruct (snd (perform env _)) eqn:Hok1.
  2:{ exists sh1, es1. cbn [bind fst snd]. by rewrite Hok1, Hd1. }
  cbn [bind fst snd].
  destruct (output_redirect_cases env c sh1)
    as (sh2 & es2 & Ht2 & Hf2 & Hd2 & He2 & ->).
  cbn zeta in *.
  rewrite (background_test_ext c sh sh1) in * by done.
  exists sh2, (es1 ++ es2). rewrite Ht2, Ht1, <- app_assoc.
  rewrite List.filter_app, Hd1, Hd2, Forall_app. done.
Qed.

(** X11: the child of a launch carries out the redirections its command
    owes, in order and up to the first failure, and makes no other call on
    descriptors; it calls [execvp] exactly when all of them succeeded, and
    once.  It is replaced by the program when that call succeeds and exits
    with code 1 in every other case; it never forks, waits or sends a
    signal. *)
Theorem child_redirects_then_executes (env : environment) (s : schedule)
    (c : command_line) (sh : shell) :
  let eligible := background_test c (deliver_SIGTSTP (sig_late s) sh) in
  let plan := perform env (redirections c eligible) in
  let file := nth 0 (args c) None in
  ∃ sh',
    child_case env s c sh
    = (if snd plan
       then match execvp env file (args c) with
            | Some w => Replaced w sh'
            | None => Exit 1 sh'
            end
       else Exit 1 sh')
    ∧ List.filter is_descriptor_call (since sh sh') = fst plan
    ∧ List.filter is_execvp (since sh sh')
      = (if snd plan then [Execvp file (args c)] else [])
    ∧ Forall (λ e, is_process_call e = false) (since sh sh').
Proof.
  cbn zeta. unfold child_case.
  match goal with
  | |- context [deliver_SIGTSTP _ ?X] => set (start := X)
  end.
  assert (∃ pre, trace start = trace sh ++ pre
                 ∧ foreground_only start = foreground_only sh
                 ∧ Forall (λ e, is_stdout e = true
                                ∨ ∃ n h, e = Sigaction n h) pre)
    as (pre & Hpre & Hfs & Hp).
  { subst start.
    destruct (negb (run_in_background c) || negb (foreground_only sh)).
    - exists [Sigaction SIGINT "SIG_DFL"].
      split_and!; [done | done |]. apply Forall_singleton. right. eauto.
    - exists []. by rewrite app_nil_r. }
  rewrite <- (background_test_deliver (sig_late s) c sh start) by done.
  clearbody start.
  destruct (deliver_SIGTSTP_frame (sig_late s) start)
    as (_ & _ & _ & _ & _ & out & Ht & Ho).
  set (sh1 := ignore_SIGTSTP (deliver_SIGTSTP (sig_late s) start)).
  assert (trace sh1 = trace sh ++ pre ++ out ++ [Sigaction SIGTSTP "SIG_IGN"])
    as Ht1.
  { subst sh1. unfold ignore_SIGTSTP. unfold_setters.
    rewrite Ht, Hpre. by list_assoc. }
  assert (background_test c sh1
          = background_test c (deliver_SIGTSTP (sig_late s) start)) as Hb
    by done.
  rewrite <- Hb. clearbody sh1.
  assert (Forall (λ e, is_descriptor_call e = false ∧ is_execvp e = false
                       ∧ is_process_call e = false)
                 (pre ++ out ++ [Sigaction SIGTSTP "SIG_IGN"])) as Hsetup.
  { rewrite !Forall_app. split_and!; [| |by repeat constructor].
    - eapply Forall_impl; [exact Hp|].
      intros e [He|(n & h & ->)]; [by destruct e | done].
    - eapply Forall_impl; [exact Ho|]. by intros []. }
  set (setup := pre ++ out ++ [Sigaction SIGTSTP "SIG_IGN"]) in *.
  clearbody setup.
  destruct (redirections_performed env c sh1) as (sh2 & es & Ht2 & Hd & Hes & Hrun).
  cbn zeta in *.
  assert (List.filter is_descriptor_call setup = []
          ∧ List.filter is_execvp setup = []
          ∧ Forall (λ e, is_process_call e = false) setup) as (Hs1 & Hs2 & Hs3).
  { clear -Hsetup. induction Hsetup as [|e es (Hd & He & Hp) _ (IH1 & IH2 & IH3)];
      [done|].
    cbn [List.filter]. rewrite Hd, He. split_and!; [done | done | by constructor]. }
  assert (List.filter is_execvp es = []
          ∧ Forall (λ e, is_process_call e = false) es) as (He1 & He2).
  { clear -Hes. induction Hes as [|e es He _ (IH1 & IH2)]; [done|].
    cbn [List.filter]. destruct e; try done. all: split; [done | by constructor]. }
  set (file := nth 0 (args c) None).
  destruct (input_redirect env c sh1) as [sh1'| | |] eqn:Hin; cbn [bind] in *.
  - rewrite Hrun.
    destruct (snd (perform env (redirections c (background_test c sh1)))).
    + destruct (execvp env file (args c)) as [w|].
      * exists (emit (Execvp file (args c)) sh2).
        split; [done|]. unfold since. unfold_setters.
        rewrite Ht2, Ht1, <- !app_assoc, drop_app_length.
        rewrite !List.filter_app, Hs1, Hs2, Hd, He1.
        split_and!; [by rewrite app_nil_r | done |].
        rewrite !Forall_app. split_and!; [done | done | by repeat constructor].
      * exists (emit (Perror (default "" file)) (emit (Execvp file (args c)) sh2)).
        split; [done|]. unfold since. unfold_setters.
        rewrite Ht2, Ht1, <- !app_assoc, drop_app_length.
        rewrite !List.filter_app, Hs1, Hs2, Hd, He1.
        split_and!; [by rewrite app_nil_r | done |].
        rewrite !Forall_app. split_and!; [done | done | by repeat constructor..].
    + exists sh2. split; [done|]. unfold since.
      rewrite Ht2, Ht1, <- !app_assoc, drop_app_length.
      rewrite !List.filter_app, Hs1, Hs2, Hd, He1.
      split_and!; [done | done |]. by rewrite !Forall_app.
  - destruct (snd (perform env (redirections c (background_test c sh1))));
      [done|]. injection Hrun as -> ->.
    exists sh2. split; [done|]. unfold since.
    rewrite Ht2, Ht1, <- !app_assoc, drop_app_length.
    rewrite !List.filter_app, Hs1, Hs2, Hd, He1.
    split_and!; [done | done |]. by rewrite !Forall_app.
  - by destruct (snd (perform env (redirections c (background_test c sh1)))).
  - by destruct (snd (perform env (redirections c (background_test c sh1)))).
Qed.

(** The wait status the child ends with. *)
Lemma child_case_fate (env : environment) (s : schedule) (c : command_line)
    (sh : shell) :
  let eligible := background_test c (deliver_SIGTSTP (sig_late s) sh) in
  wait_status_of (child_case env s c sh)
  = if snd (perform env (redirections c eligible))
    then default (W_EXITCODE 1) (execvp env (nth 0 (args c) None) (args c))
    else W_EXITCODE 1.
Proof.
  cbn zeta. unfold child_case.
  match goal with
  | |- context [deliver_SIGTSTP _ ?X] => set (start := X)
  end.
  assert (foreground_only start = foreground_only sh) as Hfs
    by (subst start; by destruct (_ || _)).
  rewrite <- (background_test_deliver (sig_late s) c sh start) by done.
  clearbody start.
  set (sh1 := ignore_SIGTSTP (deliver_SIGTSTP (sig_late s) start)).
  assert (background_test c sh1
          = background_test c (deliver_SIGTSTP (sig_late s) start)) as Hb
    by done.
  rewrite <- Hb. clearbody sh1.
  destruct (redirections_performed env c sh1) as (sh2 & es & _ & _ & _ & Hrun).
  cbn zeta in Hrun.
  destruct (input_redirect env c sh1) as [sh1'| | |] eqn:Hin; cbn [bind] in *.
  - rewrite Hrun.
    destruct (snd (perform env (redirections c (background_test c sh1))));
      [|done].
    by destruct (execvp env _ _).
  - by destruct (snd (perform env (redirections c (background_test c sh1))));
      [|injection Hrun as -> ->].
  - by destruct (snd (perform env (redirections c (background_test c sh1)))).
  - by destruct (snd (perform env (redirections c (background_test c sh1)))).
Qed.

Lemma register_child_returns (spawn_pid : Z) (c : command_line) (sh : shell) :
  (background_test c sh = true → has_free_slot sh) →
  ∃ sh', register_child spawn_pid c sh = Ret sh'.
Proof.
  intros Hroom. destruct (background_test c sh) eqn:Htest.
  - by apply register_child_room, Hroom.
  - exists sh. unfold register_child. by rewrite Htest.
Qed.

(** The child's way to [case 0]. *)
Lemma after_fork_child (env : environment) (s : schedule) (c : command_line)
    (sh : shell) :
  (background_test c (deliver_SIGTSTP (sig_after_fork s) sh) = true →
   has_free_slot sh) →
  ∃ sh1,
    after_fork env 0 s c sh = child_case env s c sh1
    ∧ foreground_only sh1
      = foreground_only
          (deliver_SIGTSTP (sig_after_fork s + sig_after_register s) sh).
Proof.
  intros Hroom. unfold after_fork.
  destruct (deliver_SIGTSTP_frame (sig_after_fork s) sh)
    as (_ & Hb1 & Hc1 & _ & Hf1 & _).
  destruct (register_child_returns 0 c (deliver_SIGTSTP (sig_after_fork s) sh))
    as [sh2 Hreg].
  { intros Htest. unfold has_free_slot. rewrite Hc1, Hb1. by apply Hroom. }
  rewrite Hreg. cbn [bind].
  apply register_child_frame in Hreg as (_ & Hf2 & _ & _).
  change (0 =? -1) with false. change (0 =? 0) with true. cbn iota.
  eexists. split; [done|].
  rewrite deliver_SIGTSTP_add.
  destruct (deliver_SIGTSTP_frame (sig_after_register s) sh2)
    as (_ & _ & _ & _ & -> & _).
  destruct (deliver_SIGTSTP_frame (sig_after_register s)
              (deliver_SIGTSTP (sig_after_fork s) sh))
    as (_ & _ & _ & _ & -> & _).
  by rewrite Hf2.
Qed.

Lemma child_fate_decided (env : environment) (l : launch) (c : command_line)
    (sh : shell) :
  (registers_in_child l c sh = true → has_free_slot sh) →
  let s := child_signals l in
  let eligible :=
    background_test c
      (deliver_SIGTSTP (sig_after_fork s + sig_after_register s + sig_late s)
                       sh) in
  child_fate env l c sh
  = if snd (perform env (redirections c eligible))
    then default (W_EXITCODE 1) (execvp env (nth 0 (args c) None) (args c))
    else W_EXITCODE 1.
Proof.
  intros Hroom. cbn zeta. unfold child_fate.
  destruct (after_fork_child env (child_signals l) c (emit (Fork 0) sh))
    as (sh1 & -> & Hf).
  { intros Htest. apply Hroom. unfold registers_in_child.
    by rewrite <- (background_test_deliver _ c sh (emit (Fork 0) sh)). }
  rewrite child_case_fate. cbn zeta.
  assert (background_test c (deliver_SIGTSTP (sig_late (child_signals l)) sh1)
          = background_test c
              (deliver_SIGTSTP
                 (sig_after_fork (child_signals l)
                  + sig_after_register (child_signals l)
                  + sig_late (child_signals l)) sh)) as ->.
  { rewrite (deliver_SIGTSTP_add _ (sig_late (child_signals l))).
    apply background_test_deliver. rewrite Hf.
    destruct (deliver_SIGTSTP_frame
                (sig_after_fork (child_signals l)
                 + sig_after_register (child_signals l)) (emit (Fork 0) sh))
      as (_ & _ & _ & _ & -> & _).
    by destruct (deliver_SIGTSTP_frame
                   (sig_after_fork (child_signals l)
                    + sig_after_register (child_signals l)) sh)
      as (_ & _ & _ & _ & -> & _). }
  done.
Qed.

Lemma WEXITSTATUS_range (w : Z) : 0 ≤ WEXITSTATUS w ≤ 255.
Proof.
  unfold WEXITSTATUS. rewrite Z.shiftr_land.
  change (Z.shiftr 65280 8) with (Z.ones 8). rewrite Z.land_ones by lia.
  pose proof (Z.mod_pos_bound (Z.shiftr w 8) (2 ^ 8) ltac:(done)) as H.
  change (2 ^ 8) with 256 in *. lia.
Qed.

Lemma WTERMSIG_range (w : Z) : 0 ≤ WTERMSIG w ≤ 127.
Proof.
  unfold WTERMSIG.
  assert (Z.land w 127 = w mod 2 ^ 7) as ->
    by (change 127 with (Z.ones 7); by apply Z.land_ones).
  pose proof (Z.mod_pos_bound w (2 ^ 7) ltac:(done)) as H.
  change (2 ^ 7) with 128 in *. lia.
Qed.

(** X12: a command the shell waits for, whether or not it has registered
    the child, leaves a status between 0 and 255, provided the store of
    the registration, if the shell makes it, has a free slot.  When the
    same holds of the store the child repeats in its own copy, that status
    is 1 if the child cannot start the program, because a redirection or
    [execvp] fails, and otherwise the exit value or the signal number of
    the program's wait status. *)
Theorem foreground_command_status (env : environment) (l : launch)
    (c : command_line) (sh : shell) :
  0 < spawn_pid l →
  detaches l c sh = false →
  (registers l c sh = true → has_free_slot sh) →
  let s := child_signals l in
  let eligible :=
    background_test c
      (deliver_SIGTSTP (sig_after_fork s + sig_after_register s + sig_late s)
                       sh) in
  let started := snd (perform env (redirections c eligible)) in
  let file := nth 0 (args c) None in
  ∃ sh',
    fork_child env l c sh = Ret sh'
    ∧ 0 ≤ status sh' ≤ 255
    ∧ ((registers_in_child l c sh = true → has_free_slot sh) →
       (started = false ∨ execvp env file (args c) = None → status sh' = 1)
       ∧ (∀ w, started = true → execvp env file (args c) = Some w →
               status sh'
               = if WIFEXITED w then WEXITSTATUS w else WTERMSIG w)).
Proof.
  intros Hpid Hdet Hroom. cbn zeta.
  destruct (fork_child_waited env l c sh Hpid Hdet Hroom)
    as (sh' & out & Hrun & _ & Hs & _).
  exists sh'. split; [done|]. rewrite Hs. split.
  - match goal with |- context [WIFEXITED ?w] => generalize w end.
    intros w. pose proof (WEXITSTATUS_range w). pose proof (WTERMSIG_range w).
    destruct (WIFEXITED w); lia.
  - intros Hchild. rewrite (child_fate_decided env l c sh Hchild). cbn zeta.
    split.
    + intros [->| ->]; [done|]. by destruct (snd (perform env _)).
    + by intros w -> ->.
Qed.

Lemma foreground_command_status_witness :
  let l := mk_launch 7 (mk_schedule 0 1 0) quiet in
  let c := one_word "nosuch" true in
  let s := child_signals l in
  let eligible :=
    background_test c
      (deliver_SIGTSTP (sig_after_fork s + sig_after_register s + sig_late s)
                       three_jobs) in
  let started := snd (perform sample_env (redirections c eligible)) in
  let file := nth 0 (args c) None in
  ∃ sh',
    fork_child sample_env l c three_jobs = Ret sh'
    ∧ 0 ≤ status sh' ≤ 255
    ∧ ((registers_in_child l c three_jobs = true → has_free_slot three_jobs) →
       (started = false ∨ execvp sample_env file (args c) = None →
        status sh' = 1)
       ∧ (∀ w, started = true → execvp sample_env file (args c) = Some w →
               status sh'
               = if WIFEXITED w then WEXITSTATUS w else WTERMSIG w)).
Proof.
  apply (foreground_command_status sample_env
           (mk_launch 7 (mk_schedule 0 1 0) quiet) (one_word "nosuch" true)
           three_jobs); [reflexivity | reflexivity | ].
  intros _. by compute_done.
Defined.

(** ** The registry over a session *)

(** What a launch that returns has done to the registry and the status. *)
Lemma fork_child_registry (env : environment) (l : launch)
    (c : command_line) (sh sh' : shell) :
  fork_child env l c sh = Ret sh' →
  ((background_procs sh' = background_procs sh
    ∧ bg_proc_count sh' = bg_proc_count sh)
   ∨ (0 ≤ bg_proc_count sh < Z.of_nat (length (background_procs sh))
      ∧ background_procs sh'
        = <[Z.to_nat (bg_proc_count sh) := spawn_pid l]> (background_procs sh)
      ∧ bg_proc_count sh' = bg_proc_count sh + 1))
  ∧ (status sh' = status sh ∨ 0 ≤ status sh' ≤ 255).
Proof.
  unfold fork_child. set (fate := wait_status_of _). clearbody fate.
  unfold after_fork.
  destruct (sys_fork_frame (spawn_pid l) fate sh) as (Hs0 & Hb0 & Hc0 & _ & _).
  set (sh0 := sys_fork (spawn_pid l) fate sh) in *. clearbody sh0.
  destruct (deliver_SIGTSTP_frame (sig_after_fork (shell_signals l)) sh0)
    as (Hs1 & Hb1 & Hc1 & _).
  set (sh1 := deliver_SIGTSTP _ sh0) in *. clearbody sh1.
  assert (∀ sh2, register_child (spawn_pid l) c sh1 = Ret sh2 →
            status sh2 = status sh
            ∧ ((background_procs sh2 = background_procs sh
                ∧ bg_proc_count sh2 = bg_proc_count sh)
               ∨ (0 ≤ bg_proc_count sh < Z.of_nat (length (background_procs sh))
                  ∧ background_procs sh2
                    = <[Z.to_nat (bg_proc_count sh) := spawn_pid l]>
                        (background_procs sh)
                  ∧ bg_proc_count sh2 = bg_proc_count sh + 1))) as Hreg.
  { intros sh2. unfold register_child, array_write.
    destruct (background_test c sh1).
    - rewrite Hc1, Hb1, Hc0, Hb0.
      destruct (Z.leb_spec 0 (bg_proc_count sh)); [|done].
      destruct (Z.ltb_spec (bg_proc_count sh)
                  (Z.of_nat (length (background_procs sh)))); [|done].
      intros [= <-]. unfold_setters. split; [congruence|]. right. done.
    - intros [= <-]. split; [congruence|]. left. split; congruence. }
  destruct (register_child _ c sh1) as [sh2| | |]; cbn [bind]; try done.
  destruct (Hreg sh2 eq_refl) as (Hs2 & Hr2). clear Hreg.
  destruct (deliver_SIGTSTP_frame (sig_after_register (shell_signals l)) sh2)
    as (Hs3 & Hb3 & Hc3 & _).
  set (sh3 := deliver_SIGTSTP _ sh2) in *. clearbody sh3.
  rewrite <- Hb3, <- Hc3 in Hr2. rewrite <- Hs2, <- Hs3. clear - Hr2.
  destruct (spawn_pid l =? -1); [done|].
  destruct (spawn_pid l =? 0); [intros H; by apply child_case_never_returns in H|].
  unfold parent_case. destruct (background_test c sh3).
  { intros [= <-]. unfold_setters. split; [done | by left]. }
  destruct (deliver_SIGTSTP_frame (sig_late (shell_signals l)) sh3)
    as (Hs4 & Hb4 & Hc4 & _).
  set (sh4 := deliver_SIGTSTP _ sh3) in *. clearbody sh4.
  destruct (sys_waitpid_frame (spawn_pid l) 0 sh4)
    as (r & cs & sh5 & -> & Hs5 & Hb5 & Hc5 & _).
  rewrite <- Hb4, <- Hc4, <- Hb5, <- Hc5 in Hr2.
  destruct cs as [w|]; [|done].
  pose proof (WEXITSTATUS_range w). pose proof (WTERMSIG_range w).
  destruct (WIFEXITED w); intros [= <-]; unfold_setters;
    (split; [done | right; lia]).
Qed.

Lemma filter_keeps (f : Z → bool) (xs : list Z) :
  Forall (λ p, 0 < p) xs → NoDup xs →
  Forall (λ p, 0 < p) (List.filter f xs)
  ∧ NoDup (List.filter f xs)
  ∧ List.filter f xs ⊆ xs.
Proof.
  induction 1 as [|x xs Hx _ IH]; [done|].
  intros [Hnin Hnd]%NoDup_cons. destruct (IH Hnd) as (IH1 & IH2 & IH3).
  cbn [List.filter]. destruct (f x).
  - split_and!; [by constructor | | set_solver].
    apply NoDup_cons. split; [|done]. intros Hin. apply Hnin. by apply IH3.
  - split_and!; [done | done | set_solver].
Qed.

Lemma registry_ok_ext (sh sh' : shell) :
  background_procs sh' = background_procs sh →
  bg_proc_count sh' = bg_proc_count sh →
  registry sh' = registry sh ∧ (registry_ok sh → registry_ok sh').
Proof.
  intros Hb Hc. unfold registry_ok, registry. by rewrite Hb, Hc.
Qed.

Lemma happenings_frame (hs : list happening) :
  ∀ sh, status (happenings hs sh) = status sh
        ∧ background_procs (happenings hs sh) = background_procs sh
        ∧ bg_proc_count (happenings hs sh) = bg_proc_count sh.
Proof.
  induction hs as [|h hs IH]; intros sh; [done|].
  change (happenings (h :: hs) sh) with (happenings hs (happen h sh)).
  destruct (IH (happen h sh)) as (-> & -> & ->).
  destruct h as [pid|]; cbn [happen]; [done|].
  by destruct (handle_SIGTSTP_step sh) as (_ & _ & -> & -> & -> & _).
Qed.

(** A turn with nothing happening around it, on a line that [getline]
    delivers, is a turn of the loop as the claims have it. *)
Lemma turn_plain (env : environment) (l : launch) (line : string)
    (sh : shell) :
  turn env (mk_step [] [] (Some line) l) sh = main_turn env l line sh.
Proof. done. Qed.

Lemma session_plain (env : environment) (input : list (string * launch))
    (sh : shell) :
  session env ((λ '(line, l), mk_step [] [] (Some line) l) <$> input) sh
  = main_loop env input sh.
Proof.
  revert sh. induction input as [|[line l] input IH]; intros sh; [done|].
  rewrite fmap_cons. cbn [session main_loop]. rewrite turn_plain.
  destruct (main_turn env l line sh); cbn [bind]; [apply IH | done..].
Qed.

(** What follows the prompt. *)
Lemma dispatch_registry (env : environment) (l : launch) (line : string)
    (sh2 sh' : shell) :
  registry_ok sh2 →
  0 ≤ status sh2 ≤ 255 →
  0 < spawn_pid l →
  spawn_pid l ∉ registry sh2 →
  (if inner_loop_repeats line then Ret sh2 else dispatch env l line sh2)
  = Ret sh' →
  registry_ok sh' ∧ 0 ≤ status sh' ≤ 255
  ∧ registry sh' ⊆ registry sh2 ++ [spawn_pid l].
Proof.
  intros Hok2 Hst1 Hpid Hfresh1.
  assert (∀ sh3, status sh3 = status sh2 →
            background_procs sh3 = background_procs sh2 →
            bg_proc_count sh3 = bg_proc_count sh2 →
            registry_ok sh3 ∧ 0 ≤ status sh3 ≤ 255
            ∧ registry sh3 ⊆ registry sh2 ++ [spawn_pid l]) as Hsame.
  { intros sh3 Hs Hb Hc.
    destruct (registry_ok_ext sh2 sh3 Hb Hc) as (Hr & Hok).
    rewrite Hr, Hs. split_and!; [by apply Hok | lia | lia | set_solver]. }
  destruct (inner_loop_repeats line); [intros [= <-]; by apply Hsame|].
  unfold dispatch. destruct (negb _).
  2:{ by destruct (kill_children sh2). }
  destruct (variable_expansion _ _) as [expanded| | |]; cbn [bind]; try done.
  destruct (parse_command_line _) as [c| | |]; cbn [bind]; try done.
  unfold handle_command_line.
  destruct (String.eqb (command c) "cd").
  { destruct (args_count c =? 1); intros [= <-]; apply Hsame;
      unfold change_dir; unfold_setters;
      by match goal with |- context [if ?b then _ else _] => destruct b end. }
  destruct (String.eqb (command c) "status").
  { intros [= <-]. by apply Hsame; apply display_status_effect. }
  destruct (add_NULL c) as [c'| | |]; cbn [bind]; try done.
  intros Hrun. apply fork_child_registry in Hrun as (Hreg & Hs).
  assert (0 ≤ status sh' ≤ 255) as Hst' by (destruct Hs as [->|]; lia).
  destruct Hreg as [(Hb & Hc)|(Hroom & Hb & Hc)].
  { destruct (registry_ok_ext sh2 sh' Hb Hc) as (Hr & Hok).
    rewrite Hr. split_and!; [by apply Hok | lia | lia | set_solver]. }
  destruct Hok2 as (Hlen & Hcount & Hpos & Hnd).
  assert (registry sh' = registry sh2 ++ [spawn_pid l]) as Hr.
  { unfold registry. rewrite Hb, Hc.
    replace (Z.to_nat (bg_proc_count sh2 + 1))
      with (S (Z.to_nat (bg_proc_count sh2))) by lia.
    apply take_insert_snoc. lia. }
  split_and!; try lia.
  - split_and!.
    + by rewrite Hb, length_insert.
    + lia.
    + lia.
    + rewrite Hr. apply Forall_app. split; [done | by repeat constructor].
    + rewrite Hr. apply NoDup_app. split_and!; [done | | apply NoDup_singleton].
      intros x Hx ->%list_elem_of_singleton. done.
  - rewrite Hr. set_solver.
Qed.

(** One turn of the loop of [main]. *)
Lemma turn_registry (env : environment) (t : step) (sh sh' : shell) :
  registry_ok sh →
  0 ≤ status sh ≤ 255 →
  0 < spawn_pid (launched t) →
  spawn_pid (launched t) ∉ registry sh →
  turn env t sh = Ret sh' →
  registry_ok sh' ∧ 0 ≤ status sh' ≤ 255
  ∧ registry sh' ⊆ registry sh ++ [spawn_pid (launched t)].
Proof.
  intros Hok Hst Hpid Hfresh. unfold turn.
  destruct (happenings_frame (before_pass t) sh) as (Hs0 & Hb0 & Hc0).
  set (sh0 := happenings (before_pass t) sh) in *. clearbody sh0.
  destruct (registry_ok_ext sh sh0 Hb0 Hc0) as (Hr0 & Hok0).
  destruct (Hok0 Hok) as (Hlen & Hcount & Hpos & Hnd).
  destruct (check_background_procs_spec sh0)
    as (sh1 & es & -> & _ & Hr1 & _ & _ & _ & Hs1 & _ & Hl1 & Hc1);
    [lia | done | done |].
  cbn [bind].
  destruct (filter_keeps (λ p, negb (has_terminated sh0 p)) (registry sh0)
              Hpos Hnd) as (Hpos1 & Hnd1 & Hsub1).
  rewrite <- Hr1 in Hpos1, Hnd1, Hsub1.
  assert (registry_ok sh1) as Hok1.
  { split_and!; [congruence | lia | lia | done | done]. }
  destruct (happenings_frame (at_prompt t) (printf ": " sh1))
    as (Hs2 & Hb2 & Hc2).
  set (sh2 := happenings (at_prompt t) (printf ": " sh1)) in *. clearbody sh2.
  destruct (registry_ok_ext sh1 sh2 Hb2 Hc2) as (Hr2 & Hok2).
  destruct (line_read t) as [line|]; [|done].
  intros Hrun.
  destruct (dispatch_registry env (launched t) line sh2 sh')
    as (Hok' & Hst' & Hsub').
  - by apply Hok2.
  - rewrite Hs2. change (status (printf ": " sh1)) with (status sh1).
    rewrite Hs1, Hs0. lia.
  - done.
  - rewrite Hr2. intros Hin. apply Hsub1 in Hin. by rewrite Hr0 in Hin.
  - done.
  - split_and!; try done; try lia.
    rewrite Hr2 in Hsub'. rewrite Hr0 in Hsub1. set_solver.
Qed.

(** X13: over a run of the loop of [main] that returns, in which children
    may terminate and SIGTSTP may arrive before each pass over the
    registry, at each prompt and during each launch, and in which every
    [fork] answers a positive identifier that is not in the registry at
    the start and that no earlier [fork] of the run has answered, the
    registry stays well formed (one hundred slots, a count within them,
    distinct positive identifiers in the counted slots), it holds only
    identifiers it held before or that [fork] has answered since, and the
    status stays between 0 and 255. *)
Theorem session_keeps_registry (env : environment) (steps : list step)
    (sh : shell) :
  registry_ok sh →
  0 ≤ status sh ≤ 255 →
  Forall (λ p, 0 < p ∧ p ∉ registry sh) ((spawn_pid ∘ launched) <$> steps) →
  NoDup ((spawn_pid ∘ launched) <$> steps) →
  match session env steps sh with
  | Ret sh' =>
      registry_ok sh' ∧ 0 ≤ status sh' ≤ 255
      ∧ registry sh' ⊆ registry sh ++ ((spawn_pid ∘ launched) <$> steps)
  | _ => True
  end.
Proof.
  revert sh. induction steps as [|t steps IH]; intros sh Hok Hst Hpids Hnd.
  { cbn. split_and!; [done | lia | lia | set_solver]. }
  rewrite fmap_cons in Hpids, Hnd. cbn [compose] in Hpids, Hnd.
  apply Forall_cons in Hpids as [[Hpid Hfresh] Hpids].
  apply NoDup_cons in Hnd as [Hnew Hnd].
  cbn [session].
  destruct (turn env t sh) as [sh1| | |] eqn:Hturn; cbn [bind]; try done.
  destruct (turn_registry env t sh sh1 Hok Hst Hpid Hfresh Hturn)
    as (Hok1 & Hst1 & Hsub1).
  specialize (IH sh1 Hok1 Hst1).
  destruct (session env steps sh1) as [sh'| | |]; try done.
  destruct IH as (Hok' & Hst' & Hsub'); [|done|].
  { rewrite Forall_forall in Hpids. apply Forall_forall.
    intros p Hin. destruct (Hpids p Hin) as [Hp Hnin]. split; [done|].
    intros Hin1. apply Hsub1 in Hin1.
    apply elem_of_app in Hin1 as [?| ->%list_elem_of_singleton]; done. }
  split_and!; try done; try lia.
  rewrite fmap_cons. cbn [compose]. set_solver.
Qed.

Lemma session_keeps_registry_witness :
  let steps :=
    [mk_step [] [] (Some ("sleep 5 &" +:+ nl)) (undisturbed 10);
     mk_step [ChildEnds 10] [Sigtstp] (Some ("grep" +:+ nl)) (undisturbed 11);
     mk_step [Sigtstp] [] (Some ("sleep 5 &" +:+ nl))
             (mk_launch 12 (mk_schedule 0 1 0) quiet)] in
  match session sample_env steps initial_shell with
  | Ret sh' =>
      registry_ok sh' ∧ 0 ≤ status sh' ≤ 255
      ∧ registry sh'
        ⊆ registry initial_shell ++ ((spawn_pid ∘ launched) <$> steps)
  | _ => True
  end.
Proof.
  apply (session_keeps_registry sample_env
           [mk_step [] [] (Some ("sleep 5 &" +:+ nl)) (undisturbed 10);
            mk_step [ChildEnds 10] [Sigtstp] (Some ("grep" +:+ nl))
                    (undisturbed 11);
            mk_step [Sigtstp] [] (Some ("sleep 5 &" +:+ nl))
                    (mk_launch 12 (mk_schedule 0 1 0) quiet)]
           initial_shell).
  - split_and!;
      [reflexivity | by vm_compute | by vm_compute | by constructor
      | by constructor].
  - split; by vm_compute.
  - by compute_done.
  - by compute_done.
Defined.

(** ** Passes over the registry *)

Lemma filter_all (f : Z → bool) (xs : list Z) :
  Forall (λ p, f p = true) xs → List.filter f xs = xs.
Proof.
  induction 1 as [|x xs Hx _ IH]; [done|]. cbn [List.filter].
  by rewrite Hx, IH.
Qed.

Lemma filter_none (f : Z → bool) (xs : list Z) :
  Forall (λ p, f p = false) xs → List.filter f xs = [].
Proof.
  induction 1 as [|x xs Hx _ IH]; [done|]. cbn [List.filter].
  by rewrite Hx, IH.
Qed.

(** A pass over a registry in which no tracked child has terminated. *)
Lemma check_background_procs_idle (sh : shell) :
  0 ≤ bg_proc_count sh ≤ Z.of_nat (length (background_procs sh)) →
  Forall (λ p, 0 < p) (registry sh) →
  NoDup (registry sh) →
  Forall (λ p, has_terminated sh p = false) (registry sh) →
  ∃ sh',
    check_background_procs sh = Ret sh'
    ∧ registry sh' = registry sh
    ∧ List.filter is_stdout (since sh sh') = []
    ∧ children sh' = children sh
    ∧ status sh' = status sh.
Proof.
  intros Hc Hpos Hnd Hrun.
  destruct (check_background_procs_spec sh Hc Hpos Hnd)
    as (sh' & es & Hpass & Ht & Hr & Hout & _ & Hk & Hs & _).
  exists sh'. rewrite (since_app _ _ _ Ht), Hout, Hr.
  rewrite (filter_none (has_terminated sh)) by done.
  rewrite (filter_all (λ p, negb (has_terminated sh p)))
    by (eapply Forall_impl; [exact Hrun|]; by intros p ->).
  split_and!; try done.
  apply map_eq. intros q. rewrite Hk.
  destruct (bool_decide (q ∈ registry sh)) eqn:Hq; [|done].
  apply bool_decide_eq_true in Hq.
  rewrite Forall_forall in Hrun. by rewrite (Hrun q Hq).
Qed.

(** X14: a pass of [check_background_procs] leaves nothing for a second
    pass that follows it at once: that one returns with the registry and
    the children as the first left them, and prints nothing. *)
Theorem reap_pass_settles (sh : shell) :
  0 ≤ bg_proc_count sh ≤ Z.of_nat (length (background_procs sh)) →
  Forall (λ p, 0 < p) (registry sh) →
  NoDup (registry sh) →
  ∃ sh1 sh2,
    check_background_procs sh = Ret sh1
    ∧ check_background_procs sh1 = Ret sh2
    ∧ registry sh2 = registry sh1
    ∧ List.filter is_stdout (since sh1 sh2) = []
    ∧ children sh2 = children sh1.
Proof.
  intros Hc Hpos Hnd.
  destruct (check_background_procs_spec sh Hc Hpos Hnd)
    as (sh1 & es & Hpass & _ & Hr & _ & _ & Hk & _ & _ & Hlen & Hc1).
  destruct (filter_keeps (λ p, negb (has_terminated sh p)) (registry sh) Hpos Hnd)
    as (Hpos1 & Hnd1 & _).
  rewrite <- Hr in Hpos1, Hnd1.
  destruct (check_background_procs_idle sh1) as (sh2 & Hpass2 & H2);
    [lia | done | done | | by exists sh1, sh2; destruct H2 as (? & ? & ? & ?)].
  rewrite Hr. apply Forall_forall. intros p Hp.
  apply list_elem_of_In, List.filter_In in Hp as [_ Hp].
  apply negb_true_iff in Hp.
  unfold has_terminated in *. rewrite Hk, Hp. by rewrite andb_false_r.
Qed.

Lemma reap_pass_settles_witness :
  ∃ sh1 sh2,
    check_background_procs three_jobs = Ret sh1
    ∧ check_background_procs sh1 = Ret sh2
    ∧ registry sh2 = registry sh1
    ∧ List.filter is_stdout (since sh1 sh2) = []
    ∧ children sh2 = children sh1.
Proof.
  apply (reap_pass_settles three_jobs); compute_done.
Defined.

(** X15: a child launched into the background, once it has terminated,
    is reported by the next pass of [check_background_procs] with its
    identifier and its exit value or signal, reaped, and taken out of the
    registry, which is then as it was before the launch when no other
    tracked child has terminated. *)
Theorem background_job_is_reported (env : environment) (l : launch)
    (c : command_line) (sh : shell) :
  0 < spawn_pid l →
  registers l c sh = true →
  detaches l c sh = true →
  0 ≤ bg_proc_count sh < Z.of_nat (length (background_procs sh)) →
  Forall (λ p, 0 < p) (registry sh) →
  NoDup (registry sh) →
  spawn_pid l ∉ registry sh →
  Forall (λ p, has_terminated sh p = false) (registry sh) →
  let fate := child_fate env l c sh in
  ∃ sh1 sh2,
    fork_child env l c sh = Ret sh1
    ∧ check_background_procs (child_terminates (spawn_pid l) sh1) = Ret sh2
    ∧ registry sh2 = registry sh
    ∧ children sh2 !! spawn_pid l = None
    ∧ List.filter is_stdout (since sh1 sh2)
      = [Stdout ("background pid " +:+ sprintf_d (spawn_pid l) +:+ " is done: "
                 +:+ (if WIFEXITED fate
                      then "exit value " +:+ sprintf_d (WEXITSTATUS fate)
                      else "terminated by signal "
                           +:+ sprintf_d (WTERMSIG fate))
                 +:+ nl)].
Proof.
  intros Hpid Hreg Hdet Hroom Hpos Hnd Hfresh Hrun. cbn zeta.
  set (pid := spawn_pid l) in *. set (fate := child_fate env l c sh).
  destruct (fork_child_background env l c sh Hpid Hreg Hdet Hroom)
    as (sh1 & out & Hlaunch & _ & _ & Hb & Hn & Hk & _).
  fold pid fate in Hb, Hk.
  assert (registry sh1 = registry sh ++ [pid]) as Hr1.
  { unfold registry. rewrite Hb, Hn.
    replace (Z.to_nat (bg_proc_count sh + 1))
      with (S (Z.to_nat (bg_proc_count sh))) by lia.
    apply take_insert_snoc. lia. }
  set (st := child_terminates pid sh1).
  assert (registry st = registry sh ++ [pid]) as Hrst by done.
  assert (children st !! pid = Some (mk_child true fate)) as Hkp.
  { subst st. unfold child_terminates. unfold_setters.
    by rewrite lookup_alter_eq, Hk, lookup_insert_eq. }
  assert (∀ q, q ≠ pid → children st !! q = children sh !! q) as Hkq.
  { intros q Hq. subst st. unfold child_terminates. unfold_setters.
    rewrite lookup_alter_ne by done. by rewrite Hk, lookup_insert_ne. }
  assert (has_terminated st pid = true) as Htp
    by (unfold has_terminated; by rewrite Hkp).
  assert (Forall (λ q, has_terminated st q = false) (registry sh)) as Hrun'.
  { rewrite Forall_forall in Hrun. apply Forall_forall. intros q Hq.
    rewrite <- (Hrun q Hq). apply has_terminated_ext, Hkq.
    intros ->. done. }
  destruct (check_background_procs_spec st)
    as (sh2 & es & Hpass & Ht & Hr2 & Hout & _ & Hk2 & _).
  { replace (bg_proc_count st) with (bg_proc_count sh + 1) by (symmetry; exact Hn).
    replace (length (background_procs st)) with (length (background_procs sh)).
    - lia.
    - change (background_procs st) with (background_procs sh1).
      by rewrite Hb, length_insert. }
  { rewrite Hrst. apply Forall_app. split; [done | by repeat constructor]. }
  { rewrite Hrst. apply NoDup_app. split_and!; [done | | apply NoDup_singleton].
    intros x Hx ->%list_elem_of_singleton. done. }
  exists sh1, sh2. split; [done|]. split; [done|].
  rewrite Hrst, !List.filter_app in *. cbn [List.filter] in *.
  rewrite Htp in *. cbn [negb] in *.
  rewrite (filter_none (has_terminated st)) in Hout by done.
  rewrite (filter_all (λ p, negb (has_terminated st p))) in Hr2
    by (eapply Forall_impl; [exact Hrun'|]; by intros p ->).
  rewrite app_nil_r in Hr2.
  split_and!; [done | |].
  - rewrite Hk2, Htp, andb_true_r.
    rewrite bool_decide_eq_true_2; [done|]. set_solver.
  - assert (since sh1 sh2 = es) as -> by (by apply (since_app st)).
    rewrite Hout. cbn [app map]. unfold report. rewrite Hkp.
    cbn [fmap option_fmap option_map default wstatus]. unfold id.
    destruct (WIFEXITED fate); reflexivity.
Qed.

Lemma background_job_is_reported_witness :
  ∃ sh1 sh2,
    fork_child sample_env (undisturbed 7) (one_word "sleep" true) initial_shell
    = Ret sh1
    ∧ check_background_procs (child_terminates (spawn_pid (undisturbed 7)) sh1)
      = Ret sh2
    ∧ registry sh2 = registry initial_shell
    ∧ children sh2 !! spawn_pid (undisturbed 7) = None
    ∧ List.filter is_stdout (since sh1 sh2)
      = [Stdout ("background pid " +:+ sprintf_d (spawn_pid (undisturbed 7))
                 +:+ " is done: "
                 +:+ (if WIFEXITED
                           (child_fate sample_env (undisturbed 7)
                                       (one_word "sleep" true) initial_shell)
                      then "exit value "
                           +:+ sprintf_d
                                 (WEXITSTATUS
                                    (child_fate sample_env (undisturbed 7)
                                       (one_word "sleep" true) initial_shell))
                      else "terminated by signal "
                           +:+ sprintf_d
                                 (WTERMSIG
                                    (child_fate sample_env (undisturbed 7)
                                       (one_word "sleep" true) initial_shell)))
                 +:+ nl)].
Proof.
  apply (background_job_is_reported sample_env (undisturbed 7)
           (one_word "sleep" true) initial_shell);
    [reflexivity | reflexivity | reflexivity | by compute_done
    | by constructor | by constructor | by inversion 1 | by constructor].
Defined.

(** ** Signals in the child *)

Lemma filter_sigaction_quiet (es : list event) :
  Forall (λ e, is_descriptor_call e || is_stdout e = true) es →
  List.filter is_sigaction es = [].
Proof.
  induction 1 as [|e es He _ IH]; [done|]. by destruct e.
Qed.

Lemma filter_sigaction_stdout (es : list event) :
  Forall (λ e, is_stdout e = true) es → List.filter is_sigaction es = [].
Proof.
  induction 1 as [|e es He _ IH]; [done|]. by destruct e.
Qed.

(** X16: the child of a launch sets two signal dispositions and no more:
    it restores the default action of SIGINT, unless the command was given
    for the background while the shell was in foreground-only mode, and it
    then ignores SIGTSTP.  So a command with [&] that foreground-only mode
    turns into a foreground command keeps SIGINT ignored, and a background
    command outside that mode gets the default action. *)
Theorem child_signal_dispositions (env : environment) (s : schedule)
    (c : command_line) (sh : shell) :
  ∃ sh',
    (child_case env s c sh = Exit 1 sh'
     ∨ ∃ w, child_case env s c sh = Replaced w sh')
    ∧ List.filter is_sigaction (since sh sh')
      = (if negb (run_in_background c) || negb (foreground_only sh)
         then [Sigaction SIGINT "SIG_DFL"] else [])
        ++ [Sigaction SIGTSTP "SIG_IGN"].
Proof.
  unfold child_case.
  set (pre := if negb (run_in_background c) || negb (foreground_only sh)
              then [Sigaction SIGINT "SIG_DFL"] else []).
  match goal with
  | |- context [deliver_SIGTSTP _ ?X] => set (start := X)
  end.
  assert (trace start = trace sh ++ pre) as Hpre.
  { subst start pre.
    destruct (negb (run_in_background c) || negb (foreground_only sh));
      [done | by rewrite app_nil_r]. }
  assert (List.filter is_sigaction pre = pre) as Hfpre
    by (subst pre; by destruct (_ || _)).
  clearbody start pre.
  destruct (deliver_SIGTSTP_frame (sig_late s) start)
    as (_ & _ & _ & _ & _ & out & Ht & Ho).
  set (sh1 := ignore_SIGTSTP (deliver_SIGTSTP (sig_late s) start)).
  assert (trace sh1 = trace sh ++ pre ++ out ++ [Sigaction SIGTSTP "SIG_IGN"])
    as Ht1.
  { subst sh1. unfold ignore_SIGTSTP. unfold_setters.
    rewrite Ht, Hpre. by list_assoc. }
  clearbody sh1.
  destruct (redirections_performed env c sh1) as (sh2 & es & Ht2 & _ & Hes & Hrun).
  cbn zeta in Hrun.
  assert (∀ tail, List.filter is_sigaction tail = [] →
            List.filter is_sigaction
              (drop (length (trace sh)) (trace sh2 ++ tail))
            = pre ++ [Sigaction SIGTSTP "SIG_IGN"]) as Hfilter.
  { intros tail Htail.
    rewrite Ht2, Ht1, <- !app_assoc, drop_app_length.
    rewrite !List.filter_app, Hfpre, Htail.
    rewrite (filter_sigaction_stdout out Ho), (filter_sigaction_quiet es Hes).
    by rewrite !app_nil_r. }
  set (file := nth 0 (args c) None).
  destruct (input_redirect env c sh1) as [sh1'| | |] eqn:Hin; cbn [bind] in *.
  - rewrite Hrun.
    destruct (snd (perform env (redirections c (background_test c sh1)))).
    + destruct (execvp env file (args c)) as [w|].
      * exists (emit (Execvp file (args c)) sh2). split; [right; by exists w|].
        unfold since. unfold_setters. by apply Hfilter.
      * exists (emit (Perror (default "" file)) (emit (Execvp file (args c)) sh2)).
        split; [by left|]. unfold since. unfold_setters.
        rewrite <- app_assoc. by apply Hfilter.
    + exists sh2. split; [by left|]. unfold since.
      rewrite <- (app_nil_r (trace sh2)). by apply Hfilter.
  - destruct (snd (perform env (redirections c (background_test c sh1))));
      [done|]. injection Hrun as -> ->.
    exists sh2. split; [by left|]. unfold since.
    rewrite <- (app_nil_r (trace sh2)). by apply Hfilter.
  - by destruct (snd (perform env (redirections c (background_test c sh1)))).
  - by destruct (snd (perform env (redirections c (background_test c sh1)))).
Qed.

(** ** Foreground-only mode and the background mark *)

(** X17: in foreground-only mode, when no signal arrives during the
    launch, the shell treats a command marked for the background exactly
    as the same command without the mark: it registers nothing, waits for
    the child, and ends in the same state. *)
Theorem foreground_only_ignores_mark (env : environment) (pid : Z)
    (c : command_line) (sh : shell) :
  foreground_only sh = true →
  0 < pid →
  ∃ sh',
    fork_child env (undisturbed pid) c sh = Ret sh'
    ∧ fork_child env (undisturbed pid) (in_foreground c) sh = Ret sh'
    ∧ registry sh' = registry sh
    ∧ Waitpid pid 0 pid ∈ since sh sh'.
Proof.
  intros Hmode Hpid.
  assert (∀ c', registers_in_child (undisturbed pid) c' sh = true →
                has_free_slot sh) as Hchild.
  { intros c'. unfold registers_in_child, background_test. cbn.
    rewrite Hmode. by rewrite andb_false_r. }
  assert (∀ c', registers (undisturbed pid) c' sh = false
                ∧ detaches (undisturbed pid) c' sh = false) as Htests.
  { intros c'. unfold registers, detaches, background_test. cbn.
    rewrite Hmode. by rewrite andb_false_r. }
  destruct (fork_child_foreground_effect env (undisturbed pid) c sh Hpid
              (proj1 (Htests c)) (proj2 (Htests c)))
    as (sh' & out & Hrun & _ & _ & Ht & Hb & Hn & _).
  exists sh'. split; [done|].
  assert (fork_child env (undisturbed pid) (in_foreground c) sh
          = fork_child env (undisturbed pid) c sh) as ->.
  { unfold fork_child.
    fold (child_fate env (undisturbed pid) (in_foreground c) sh).
    fold (child_fate env (undisturbed pid) c sh).
    rewrite !child_fate_decided by apply Hchild. cbn zeta.
    cbn [undisturbed child_signals shell_signals spawn_pid quiet
         sig_after_fork sig_after_register sig_late Nat.add].
    change (deliver_SIGTSTP 0 sh) with sh.
    assert (background_test c sh = false) as ->
      by (unfold background_test; rewrite Hmode; by rewrite andb_false_r).
    change (background_test (in_foreground c) sh) with false.
    change (redirections (in_foreground c) false) with (redirections c false).
    change (args (in_foreground c)) with (args c).
    set (fate := if snd (perform env (redirections c false)) then _ else _).
    rewrite !after_fork_quiet_decided.
    assert (foreground_only (sys_fork pid fate sh) = true) as Hmode'
      by (rewrite <- Hmode; apply sys_fork_frame).
    assert (∀ c', background_test c' (sys_fork pid fate sh) = false) as Hno.
    { intros c'. unfold background_test. rewrite Hmode'. by rewrite andb_false_r. }
    rewrite !Hno. unfold after_fork_decided.
    destruct (Z.eqb_spec pid (-1)); [lia|].
    by destruct (Z.eqb_spec pid 0); [lia|]. }
  split; [done|]. split.
  - unfold registry. by rewrite Hb, Hn.
  - rewrite (since_app _ _ _ Ht). cbn [spawn_pid undisturbed]. set_solver.
Qed.

Lemma foreground_only_ignores_mark_witness :
  ∃ sh',
    fork_child sample_env (undisturbed 7) (one_word "sleep" true)
               (handle_SIGTSTP initial_shell) = Ret sh'
    ∧ fork_child sample_env (undisturbed 7)
                 (in_foreground (one_word "sleep" true))
                 (handle_SIGTSTP initial_shell) = Ret sh'
    ∧ registry sh' = registry (handle_SIGTSTP initial_shell)
    ∧ Waitpid 7 0 7 ∈ since (handle_SIGTSTP initial_shell) sh'.
Proof.
  apply (foreground_only_ignores_mark sample_env 7 (one_word "sleep" true)
           (handle_SIGTSTP initial_shell)); [reflexivity | lia].
Defined.

(** ** The exit command at the prompt *)

(** X19: on the exit command the shell makes its pass over the registry,
    prompts, sends SIGKILL to each child that is still tracked after the
    pass, followed by a [waitpid] that does not block, and ends with exit
    code 0; the children the pass has reaped are sent nothing. *)
Theorem exit_command_kills_tracked (env : environment) (l : launch)
    (sh : shell) :
  0 ≤ bg_proc_count sh ≤ Z.of_nat (length (background_procs sh)) →
  Forall (λ p, 0 < p) (registry sh) →
  NoDup (registry sh) →
  ∃ sh1 sh' rs,
    check_background_procs sh = Ret sh1
    ∧ main_turn env l ("exit" +:+ nl) sh = Exit 0 sh'
    ∧ registry sh1
      = List.filter (λ p, negb (has_terminated sh p)) (registry sh)
    ∧ length rs = length (registry sh1)
    ∧ since sh1 sh'
      = Stdout ": "
        :: concat (zip_with (λ p r, [Kill p SIGKILL; Waitpid p WNOHANG r])
                     (registry sh1) rs).
Proof.
  intros Hc Hpos Hnd.
  destruct (check_background_procs_spec sh Hc Hpos Hnd)
    as (sh1 & es & Hpass & _ & Hr & _ & _ & _ & _ & _ & Hlen & Hc1).
  unfold main_turn. rewrite Hpass. cbn [bind].
  change (inner_loop_repeats ("exit" +:+ nl)) with false. cbn iota.
  unfold dispatch. rewrite String.eqb_refl. cbn [negb].
  set (sh2 := get_command_line sh1).
  unfold kill_children.
  destruct (kill_loop_spec (Z.to_nat (bg_proc_count sh2)) 0 sh2)
    as (sh' & rs & -> & _ & _ & _ & _ & Hrs & Ht);
    [lia | change (background_procs sh2) with (background_procs sh1);
           change (bg_proc_count sh2) with (bg_proc_count sh1); lia |].
  change (Z.to_nat 0) with O in Ht. rewrite drop_0 in Ht.
  fold (registry sh2) in Ht. change (registry sh2) with (registry sh1) in Ht.
  exists sh1, sh', rs. cbn [bind]. split_and!; try done.
  - rewrite Hrs. unfold registry. rewrite length_take.
    change (bg_proc_count sh2) with (bg_proc_count sh1). lia.
  - unfold since. rewrite Ht. subst sh2. unfold get_command_line.
    unfold_setters. by rewrite <- app_assoc, drop_app_length.
Qed.

Lemma exit_command_kills_tracked_witness :
  ∃ sh1 sh' rs,
    check_background_procs three_jobs = Ret sh1
    ∧ main_turn sample_env (undisturbed 7) ("exit" +:+ nl) three_jobs
      = Exit 0 sh'
    ∧ registry sh1
      = List.filter (λ p, negb (has_terminated three_jobs p))
                    (registry three_jobs)
    ∧ length rs = length (registry sh1)
    ∧ since sh1 sh'
      = Stdout ": "
        :: concat (zip_with (λ p r, [Kill p SIGKILL; Waitpid p WNOHANG r])
                     (registry sh1) rs).
Proof.
  apply (exit_command_kills_tracked sample_env (undisturbed 7) three_jobs);
    compute_done.
Defined.

(** ** The built-in [cd] *)

(** X20: the command [cd] makes one [chdir], to the value of HOME when the
    command has no argument and to its first argument otherwise, whatever
    else the line holds; it prints one line when the call fails, starts no
    process, and leaves status, registry and children as they were. *)
Theorem cd_changes_directory_only (env : environment) (l : launch)
    (c : command_line) (sh : shell) :
  command c = "cd" →
  let target :=
    if args_count c =? 1 then getenv_HOME env else nth 1 (args c) None in
  ∃ sh',
    handle_command_line env l c sh = Ret sh'
    ∧ since sh sh'
      = Chdir target (chdir env target)
        :: (if chdir env target =? -1
            then [Stdout ("Error changing directories." +:+ nl)] else [])
    ∧ status sh' = status sh
    ∧ background_procs sh' = background_procs sh
    ∧ bg_proc_count sh' = bg_proc_count sh
    ∧ children sh' = children sh
    ∧ foreground_only sh' = foreground_only sh.
Proof.
  intros Hcd. cbn zeta. unfold handle_command_line. rewrite Hcd.
  change (String.eqb "cd" "cd") with true. cbn iota.
  assert (∀ target,
            since sh (change_dir env target sh)
            = Chdir target (chdir env target)
              :: (if chdir env target =? -1
                  then [Stdout ("Error changing directories." +:+ nl)] else [])
            ∧ status (change_dir env target sh) = status sh
            ∧ background_procs (change_dir env target sh) = background_procs sh
            ∧ bg_proc_count (change_dir env target sh) = bg_proc_count sh
            ∧ children (change_dir env target sh) = children sh
            ∧ foreground_only (change_dir env target sh) = foreground_only sh)
    as Hcase.
  { intros target. unfold change_dir, since.
    destruct (chdir env target =? -1); unfold_setters;
      by rewrite <- ?app_assoc, drop_app_length. }
  destruct (args_count c =? 1); eexists; (split; [done|]); apply Hcase.
Qed.

Lemma cd_changes_directory_only_witness :
  ∃ sh',
    handle_command_line sample_env (undisturbed 7)
      (mk_command_line "cd" [Some "cd"; Some "/nowhere"] 2 None None true)
      three_jobs = Ret sh'
    ∧ since three_jobs sh'
      = Chdir (if args_count
                    (mk_command_line "cd" [Some "cd"; Some "/nowhere"] 2
                                     None None true) =? 1
               then getenv_HOME sample_env
               else nth 1 (args (mk_command_line "cd"
                                   [Some "cd"; Some "/nowhere"] 2
                                   None None true)) None)
              (chdir sample_env
                 (if args_count
                       (mk_command_line "cd" [Some "cd"; Some "/nowhere"] 2
                                        None None true) =? 1
                  then getenv_HOME sample_env
                  else nth 1 (args (mk_command_line "cd"
                                      [Some "cd"; Some "/nowhere"] 2
                                      None None true)) None))
        :: (if chdir sample_env
                 (if args_count
                       (mk_command_line "cd" [Some "cd"; Some "/nowhere"] 2
                                        None None true) =? 1
                  then getenv_HOME sample_env
                  else nth 1 (args (mk_command_line "cd"
                                      [Some "cd"; Some "/nowhere"] 2
                                      None None true)) None) =? -1
            then [Stdout ("Error changing directories." +:+ nl)] else [])
    ∧ status sh' = status three_jobs
    ∧ background_procs sh' = background_procs three_jobs
    ∧ bg_proc_count sh' = bg_proc_count three_jobs
    ∧ children sh' = children three_jobs
    ∧ foreground_only sh' = foreground_only three_jobs.
Proof.
  apply (cd_changes_directory_only sample_env (undisturbed 7)
           (mk_command_line "cd" [Some "cd"; Some "/nowhere"] 2 None None true)
           three_jobs).
  reflexivity.
Defined.

(** ** The capacity of the argument array *)

Lemma parse_tokens_overflows (rest : list string) :
  ∀ parsed al n,
    Forall (λ t, is_operator t = false) rest →
    n ≤ 512 → 512 < n + Z.of_nat (length rest) →
    parse_tokens rest parsed al n = Undefined OutOfBounds.
Proof.
  induction rest as [|t rest IH]; intros parsed al n Hop Hn Hbig.
  { simpl in Hbig. lia. }
  apply Forall_cons in Hop as [Ht Hop]. cbn [parse_tokens].
  rewrite is_operator_tokens in Ht. apply orb_false_iff in Ht as [-> ->].
  destruct (Z.ltb_spec n 512); [|done].
  apply IH; [done | lia | simpl in Hbig; lia].
Qed.

(** X21: the argument array has 512 slots.  A line of more than 512 words
    without redirection makes [parse_command_line] store past its end; a
    line of exactly 512 words is parsed, and when it is not a built-in
    command, [handle_command_line] stores the closing NULL past the end of
    the array. *)
Theorem argument_array_capacity (s t : string) (rest : list string) :
  strtok_all s = t :: rest →
  Forall (λ x, is_operator x = false) rest →
  (512 ≤ length rest)%nat ∨ (length rest = 511%nat ∧ last rest ≠ Some "&") →
  if bool_decide (512 ≤ length rest)%nat
  then parse_command_line s = Undefined OutOfBounds
  else ∃ c,
      parse_command_line s = Ret c
      ∧ args_count c = 512
      ∧ (t ≠ "cd" → t ≠ "status" →
         ∀ env l sh, handle_command_line env l c sh = Undefined OutOfBounds).
Proof.
  intros Htok Hop Hlen. unfold parse_command_line. rewrite Htok.
  case_bool_decide as Hbig.
  { rewrite parse_tokens_overflows; [done | done | lia | lia]. }
  destruct Hlen as [?|[Hlen Hlast]]; [lia|].
  rewrite parse_tokens_plain by (done || lia). cbn [bind].
  change ([Some t] ++ (Some <$> rest)) with (Some <$> t :: rest).
  rewrite fmap_last.
  assert (last (t :: rest) = last rest) as ->
    by (destruct rest; [done | done]).
  rewrite (bool_decide_eq_false_2 (Some <$> last rest = Some (Some "&"))).
  2:{ destruct (last rest); cbn; congruence. }
  rewrite andb_false_r. eexists. split; [done|]. cbn [args_count command].
  split; [lia|]. intros Hcd Hst env l sh.
  unfold handle_command_line. cbn [command].
  rewrite (proj2 (String.eqb_neq t "cd") Hcd).
  rewrite (proj2 (String.eqb_neq t "status") Hst).
  unfold add_NULL. cbn [args_count].
  by destruct (Z.ltb_spec (1 + Z.of_nat (length rest)) 512); [lia|].
Qed.

Lemma argument_array_capacity_witness :
  if bool_decide (512 ≤ length (repeat "w" 511))%nat
  then parse_command_line (words 512) = Undefined OutOfBounds
  else ∃ c,
      parse_command_line (words 512) = Ret c
      ∧ args_count c = 512
      ∧ ("w" ≠ "cd" → "w" ≠ "status" →
         ∀ env l sh, handle_command_line env l c sh = Undefined OutOfBounds).
Proof.
  apply (argument_array_capacity (words 512) "w" (repeat "w" 511)).
  - by vm_compute.
  - by compute_done.
  - right. split; [reflexivity | by compute_done].
Defined.

(** ** The store of the registration *)

Lemma child_case_ends (env : environment) (s : schedule) (c : command_line)
    (sh : shell) :
  ∃ sh', child_case env s c sh = Exit 1 sh'
         ∨ ∃ w, child_case env s c sh = Replaced w sh'.
Proof.
  unfold child_case.
  match goal with
  | |- context [ignore_SIGTSTP ?X] => set (sh1 := ignore_SIGTSTP X)
  end.
  clearbody sh1.
  destruct (redirections_performed env c sh1) as (sh2 & es & _ & _ & _ & Hrun).
  cbn zeta in Hrun.
  destruct (input_redirect env c sh1) as [sh1'| | |] eqn:Hin; cbn [bind] in *.
  - rewrite Hrun.
    destruct (snd (perform env (redirections c (background_test c sh1))));
      [|eauto].
    destruct (execvp env _ _); eauto.
  - destruct (snd (perform env (redirections c (background_test c sh1))));
      [done|]. injection Hrun as -> ->. eauto.
  - by destruct (snd (perform env (redirections c (background_test c sh1)))).
  - by destruct (snd (perform env (redirections c (background_test c sh1)))).
Qed.

(** X22: a launch stores outside the registry exactly when the test of
    line 414 makes the shell register the child while the count is not the
    index of a slot of the array; this is so whatever [fork] has returned,
    a failure included, since the store comes before the switch. *)
Theorem launch_overruns_registry_iff (env : environment) (l : launch)
    (c : command_line) (sh : shell) :
  fork_child env l c sh = Undefined OutOfBounds
  ↔ registers l c sh = true ∧ ¬ has_free_slot sh.
Proof.
  unfold fork_child. set (fate := wait_status_of _). clearbody fate.
  unfold after_fork, register_child.
  rewrite registers_after_fork.
  destruct (deliver_SIGTSTP_frame (sig_after_fork (shell_signals l))
              (sys_fork (spawn_pid l) fate sh)) as (_ & Hb1 & Hc1 & _).
  destruct (sys_fork_frame (spawn_pid l) fate sh) as (_ & Hb0 & Hc0 & _).
  set (sh1 := deliver_SIGTSTP (sig_after_fork (shell_signals l))
                (sys_fork (spawn_pid l) fate sh)) in *.
  assert (∀ sh2, (let sh3 :=
                    deliver_SIGTSTP (sig_after_register (shell_signals l)) sh2 in
                  if spawn_pid l =? -1
                  then Exit 1 (emit (Perror ("fork()" +:+ nl)) sh3)
                  else if spawn_pid l =? 0
                       then child_case env (shell_signals l) c sh3
                       else parent_case (spawn_pid l) (shell_signals l) c sh3)
                 ≠ Undefined OutOfBounds) as Hrest.
  { intros sh2. cbn zeta. destruct (spawn_pid l =? -1); [done|].
    destruct (spawn_pid l =? 0).
    - destruct (child_case_ends env (shell_signals l) c
                  (deliver_SIGTSTP (sig_after_register (shell_signals l)) sh2))
        as (sh' & [-> | (w & ->)]); done.
    - unfold parent_case. destruct (background_test c _); [done|].
      destruct (sys_waitpid _ _ _) as [[r stored] sh4].
      destruct stored as [w|]; [|done]. by destruct (WIFEXITED w). }
  destruct (registers l c sh).
  - unfold array_write. rewrite Hb1, Hc1, Hb0, Hc0. unfold has_free_slot.
    destruct (Z.leb_spec 0 (bg_proc_count sh));
      destruct (Z.ltb_spec (bg_proc_count sh)
                  (Z.of_nat (length (background_procs sh))));
      cbn [andb bind].
    + split; [intros Hu; by apply Hrest in Hu
             | intros [_ Hfull]; destruct Hfull; lia].
    + split; [intros _; split; [done | lia] | done].
    + split; [intros _; split; [done | lia] | done].
    + split; [intros _; split; [done | lia] | done].
  - cbn [bind]. split; [intros Hu; by apply Hrest in Hu | by intros [? _]].
Qed.

(** ** Words *)

Lemma mentions_app (a : ascii) (s1 s2 : string) :
  mentions a (s1 +:+ s2) = mentions a s1 || mentions a s2.
Proof.
  induction s1 as [|b s1 IH]; [done|].
  change (String b s1 +:+ s2) with (String b (s1 +:+ s2)).
  cbn [mentions]. by rewrite IH, orb_assoc.
Qed.

Lemma Forall_of_sublist (P : string → Prop) (xs ys : list string) :
  sublist xs ys → Forall P ys → Forall P xs.
Proof.
  induction 1 as [|x xs ys _ IH|x xs ys _ IH]; [done | |];
    intros [Hx Hys]%Forall_cons; [constructor|]; auto.
Qed.

(** The tokens [strtok_r] delivers are not empty and hold no space. *)
Lemma strtok_go_words (s : string) :
  ∀ cur, mentions " " cur = false →
         Forall (λ t, t ≠ "" ∧ mentions " " t = false) (strtok_go cur s).
Proof.
  induction s as [|c rest IH]; intros cur Hcur; cbn [strtok_go].
  - destruct (String.eqb_spec cur ""); [done | by repeat constructor].
  - destruct (Ascii.eqb c " ") eqn:Hc.
    + destruct (String.eqb_spec cur ""); [by apply IH|].
      constructor; [done | by apply IH].
    + apply IH. rewrite mentions_app, Hcur. cbn [mentions orb].
      by rewrite Hc.
Qed.

Lemma parse_tokens_files (k : nat) :
  ∀ rest parsed al n parsed' al' n',
    (length rest ≤ k)%nat →
    parse_tokens rest parsed al n = Ret (parsed', al', n') →
    (input_file parsed' = input_file parsed
     ∨ ∃ p, p ∈ rest ∧ input_file parsed' = Some p)
    ∧ (output_file parsed' = output_file parsed
       ∨ ∃ p, p ∈ rest ∧ output_file parsed' = Some p).
Proof.
  induction k as [|k IH]; intros rest parsed al n parsed' al' n' Hk.
  { destruct rest; [|simpl in Hk; lia]. intros [= <- <- <-]. by split; left. }
  destruct rest as [|t rest]; [intros [= <- <- <-]; by split; left|].
  cbn [parse_tokens].
  destruct (is_token "<" t); [|destruct (is_token ">" t)].
  - destruct rest as [|path rest]; [done|]. intros H.
    apply IH in H as [[Hi|(p & Hp & Hi)] [Ho|(q & Hq & Ho)]];
      [| | | |simpl in *; lia]; cbn [set_input_file input_file output_file] in *.
    + split; [right; exists path; split; [set_solver | done] | by left].
    + split; [right; exists path; split; [set_solver | done]
             | right; exists q; split; [set_solver | done]].
    + split; [right; exists p; split; [set_solver | done] | by left].
    + split; [right; exists p; split; [set_solver | done]
             | right; exists q; split; [set_solver | done]].
  - destruct rest as [|path rest]; [done|]. intros H.
    apply IH in H as [[Hi|(p & Hp & Hi)] [Ho|(q & Hq & Ho)]];
      [| | | |simpl in *; lia]; cbn [set_output_file input_file output_file] in *.
    + split; [by left | right; exists path; split; [set_solver | done]].
    + split; [by left | right; exists q; split; [set_solver | done]].
    + split; [right; exists p; split; [set_solver | done]
             | right; exists path; split; [set_solver | done]].
    + split; [right; exists p; split; [set_solver | done]
             | right; exists q; split; [set_solver | done]].
  - destruct (n <? 512); [|done]. intros H.
    apply IH in H as [[Hi|(p & Hp & Hi)] [Ho|(q & Hq & Ho)]];
      [| | | |simpl in *; lia].
    + by split; left.
    + split; [by left | right; exists q; split; [set_solver | done]].
    + split; [right; exists p; split; [set_solver | done] | by left].
    + split; [right; exists p; split; [set_solver | done]
             | right; exists q; split; [set_solver | done]].
Qed.

(** X23: the command, every argument and both file names that
    [parse_command_line] returns are words of the line: none is empty and
    none holds a space. *)
Theorem parsed_words_hold_no_space (s : string) (c : command_line) :
  parse_command_line s = Ret c →
  let word := λ t : string, t ≠ "" ∧ mentions " " t = false in
  word (command c)
  ∧ Forall (λ a, ∃ t, a = Some t ∧ word t) (args c)
  ∧ (∀ p, input_file c = Some p → word p)
  ∧ (∀ p, output_file c = Some p → word p).
Proof.
  intros Hparse. cbn zeta.
  pose proof (strtok_go_words s "" eq_refl) as Hwords.
  fold (strtok_all s) in Hwords.
  unfold parse_command_line in Hparse.
  destruct (strtok_all s) as [|t rest]; [done|].
  apply Forall_cons in Hwords as [Ht Hrest].
  destruct (parse_tokens rest _ _ _) as [[[parsed al] n]| | |] eqn:E; try done.
  cbn [bind] in Hparse.
  pose proof E as Hfiles.
  apply (parse_tokens_files (length rest)) in Hfiles as [Hi Ho]; [|done].
  apply (parse_tokens_arguments (length rest)) in E; [|done].
  destruct E as (xs & -> & _ & Hsub & _ & _ & Hc & _).
  cbn [command input_file output_file] in *.
  assert (Forall (λ a, ∃ t0, a = Some t0 ∧ t0 ≠ "" ∧ mentions " " t0 = false)
                 ([Some t] ++ (Some <$> xs))) as Hargs.
  { apply Forall_app. split; [repeat constructor; by exists t|].
    apply Forall_fmap. eapply Forall_impl.
    - eapply Forall_of_sublist; [exact Hsub | exact Hrest].
    - intros x Hx. by exists x. }
  assert (∀ p, p ∈ rest → p ≠ "" ∧ mentions " " p = false) as Hin
    by (by apply Forall_forall).
  assert (command c = t ∧ input_file c = input_file parsed
          ∧ output_file c = output_file parsed
          ∧ (args c = [Some t] ++ (Some <$> xs)
             ∨ args c = removelast ([Some t] ++ (Some <$> xs))))
    as (-> & -> & -> & Hargs_c).
  { destruct (_ && _); injection Hparse as <-; cbn; rewrite ?Hc; auto. }
  split; [done|]. split; [|split].
  - destruct Hargs_c as [-> | ->]; [done|].
    rewrite removelast_firstn_len. by apply Forall_take.
  - intros p Hp. destruct Hi as [Hi|(q & Hq & Hi)]; [congruence|].
    rewrite Hi in Hp. injection Hp as <-. by apply Hin.
  - intros p Hp. destruct Ho as [Ho|(q & Hq & Ho)]; [congruence|].
    rewrite Ho in Hp. injection Hp as <-. by apply Hin.
Qed.

Lemma parsed_words_hold_no_space_witness :
  let c := mk_command_line "wc" [Some "wc"; Some "-l"] 2 (Some "in") None true in
  let word := λ t : string, t ≠ "" ∧ mentions " " t = false in
  word (command c)
  ∧ Forall (λ a, ∃ t, a = Some t ∧ word t) (args c)
  ∧ (∀ p, input_file c = Some p → word p)
  ∧ (∀ p, output_file c = Some p → word p).
Proof.
  apply (parsed_words_hold_no_space "wc  -l < in &"). by vm_compute.
Defined.

(** ** A turn that is skipped *)

(** X24: on a line whose first character is white space or the comment
    mark, a turn of the loop returns after the pass over the registry and
    the prompt: what it prints is the reports of the tracked children that
    have terminated, in registry order, and then the prompt; it blocks in
    no [waitpid] and leaves the status as it was. *)
Theorem skipped_turn_reports_then_prompts (env : environment) (l : launch)
    (line : string) (sh : shell) :
  0 ≤ bg_proc_count sh ≤ Z.of_nat (length (background_procs sh)) →
  Forall (λ p, 0 < p) (registry sh) →
  NoDup (registry sh) →
  inner_loop_repeats line = true →
  ∃ sh',
    main_turn env l line sh = Ret sh'
    ∧ List.filter is_stdout (since sh sh')
      = map (report sh) (List.filter (has_terminated sh) (registry sh))
        ++ [Stdout ": "]
    ∧ Forall (λ e, nonblocking e = true) (since sh sh')
    ∧ registry sh'
      = List.filter (λ p, negb (has_terminated sh p)) (registry sh)
    ∧ status sh' = status sh.
Proof.
  intros Hc Hpos Hnd Hskip.
  destruct (check_background_procs_spec sh Hc Hpos Hnd)
    as (sh1 & es & Hpass & Ht & Hr & Hout & Hnb & _ & Hs & _).
  exists (get_command_line sh1). unfold main_turn.
  rewrite Hpass, Hskip. cbn [bind]. split; [done|].
  assert (since sh (get_command_line sh1) = es ++ [Stdout ": "]) as ->.
  { apply since_app. unfold get_command_line. unfold_setters.
    by rewrite Ht, <- app_assoc. }
  rewrite List.filter_app, Hout. split_and!; try done.
  apply Forall_app. split; [done | by repeat constructor].
Qed.

Lemma skipped_turn_reports_then_prompts_witness :
  ∃ sh',
    main_turn sample_env (undisturbed 7) ("# a comment" +:+ nl) three_jobs
    = Ret sh'
    ∧ List.filter is_stdout (since three_jobs sh')
      = map (report three_jobs)
            (List.filter (has_terminated three_jobs) (registry three_jobs))
        ++ [Stdout ": "]
    ∧ Forall (λ e, nonblocking e = true) (since three_jobs sh')
    ∧ registry sh'
      = List.filter (λ p, negb (has_terminated three_jobs p))
                    (registry three_jobs)
    ∧ status sh' = status three_jobs.
Proof.
  apply (skipped_turn_reports_then_prompts sample_env (undisturbed 7)
           ("# a comment" +:+ nl) three_jobs); compute_done.
Defined.

(** ** What is handed to [execvp] *)

(** The arguments of a parsed command: the command and then further
    words, as many as the count says. *)
Lemma parsed_arguments (s : string) (c : command_line) :
  parse_command_line s = Ret c →
  ∃ xs, args c = Some <$> command c :: xs
        ∧ args_count c = Z.of_nat (length (args c)).
Proof.
  unfold parse_command_line. destruct (strtok_all s) as [|t rest]; [done|].
  destruct (parse_tokens rest _ _ _) as [[[parsed al] n]| | |] eqn:E; try done.
  cbn [bind].
  apply (parse_tokens_arguments (length rest)) in E; [|done].
  destruct E as (xs & -> & _ & _ & -> & _ & Hc & _). cbn [command] in Hc.
  change ([Some t] ++ (Some <$> xs)) with (Some <$> t :: xs).
  destruct (_ && _) eqn:Hamp.
  - apply andb_true_iff in Hamp as [Hn _]. apply Z.ltb_lt in Hn.
    destruct xs as [|x xs]; [simpl in Hn; lia|].
    rewrite removelast_fmap_Some.
    change (removelast (t :: x :: xs)) with (t :: removelast (x :: xs)).
    set (ys := removelast (x :: xs)).
    assert (length ys = length xs) as Hys
      by (subst ys; rewrite removelast_firstn_len, length_take;
          cbn [length]; lia).
    clearbody ys. intros [= <-]. exists ys.
    cbn [command args args_count]. rewrite Hc. split; [done|].
    cbn [length]. fold (fmap (M := list) (@Some string) ys).
    rewrite length_fmap. lia.
  - intros [= <-]. exists xs. cbn [command args args_count]. rewrite Hc.
    split; [done|]. cbn [length]. fold (fmap (M := list) (@Some string) xs).
    rewrite length_fmap. lia.
Qed.

(** X25: for a parsed command that is not built in and has fewer than 512
    arguments, [handle_command_line] launches the same command with the
    same files and background mark, and with the arguments of the parsed
    command followed by one NULL, which is the only NULL of the vector and
    sits at the index the count gave; the first element of the vector,
    which is the file handed to [execvp], is the command. *)
Theorem command_is_launched_with_its_words (env : environment) (l : launch)
    (s : string) (c : command_line) (sh : shell) :
  parse_command_line s = Ret c →
  command c ≠ "cd" → command c ≠ "status" →
  args_count c < 512 →
  ∃ c',
    handle_command_line env l c sh = fork_child env l c' sh
    ∧ args c' = args c ++ [None]
    ∧ Forall (λ a, a ≠ None) (args c)
    ∧ args c' !! Z.to_nat (args_count c) = Some None
    ∧ nth 0 (args c') None = Some (command c)
    ∧ args_count c' = Z.of_nat (length (args c'))
    ∧ command c' = command c
    ∧ input_file c' = input_file c
    ∧ output_file c' = output_file c
    ∧ run_in_background c' = run_in_background c.
Proof.
  intros Hparse Hcd Hst Hroom.
  destruct (parsed_arguments s c Hparse) as (xs & Hargs & Hcount).
  unfold handle_command_line, add_NULL.
  rewrite (proj2 (String.eqb_neq _ _) Hcd), (proj2 (String.eqb_neq _ _) Hst).
  destruct (Z.ltb_spec (args_count c) 512); [|lia]. cbn [bind].
  eexists. split; [done|].
  cbn [command args args_count input_file output_file run_in_background].
  split_and!; try done.
  - rewrite Hargs. apply Forall_fmap. by apply Forall_true.
  - rewrite Hcount, Nat2Z.id. by rewrite lookup_app_r, Nat.sub_diag.
  - by rewrite Hargs.
  - rewrite length_app. cbn [length]. lia.
Qed.

Lemma command_is_launched_with_its_words_witness :
  let c := mk_command_line "wc" [Some "wc"; Some "-l"] 2 (Some "in") None true in
  ∃ c',
    handle_command_line sample_env (undisturbed 7) c initial_shell
    = fork_child sample_env (undisturbed 7) c' initial_shell
    ∧ args c' = args c ++ [None]
    ∧ Forall (λ a, a ≠ None) (args c)
    ∧ args c' !! Z.to_nat (args_count c) = Some None
    ∧ nth 0 (args c') None = Some (command c)
    ∧ args_count c' = Z.of_nat (length (args c'))
    ∧ command c' = command c
    ∧ input_file c' = input_file c
    ∧ output_file c' = output_file c
    ∧ run_in_background c' = run_in_background c.
Proof.
  apply (command_is_launched_with_its_words sample_env (undisturbed 7)
           "wc -l < in &");
    [by vm_compute | done | done | by vm_compute].
Defined.

(** ** A signal between the two tests of a launch *)

(** The test of line 444 as the shell makes it, whatever line 414 did. *)
Lemma detaches_after_register (l : launch) (c : command_line)
    (sh sh0 sh2 : shell) :
  foreground_only sh0 = foreground_only sh →
  foreground_only sh2
  = foreground_only (deliver_SIGTSTP (sig_after_fork (shell_signals l)) sh0) →
  background_test c
    (deliver_SIGTSTP (sig_after_register (shell_signals l)) sh2)
  = detaches l c sh.
Proof.
  intros Hf0 Hf2. unfold detaches. rewrite deliver_SIGTSTP_add.
  apply background_test_deliver. rewrite Hf2.
  destruct (deliver_SIGTSTP_frame (sig_after_fork (shell_signals l)) sh0)
    as (_ & _ & _ & _ & -> & _).
  destruct (deliver_SIGTSTP_frame (sig_after_fork (shell_signals l)) sh)
    as (_ & _ & _ & _ & -> & _).
  by rewrite Hf0.
Qed.

(** The launch in which the child is registered and then waited for. *)
Lemma fork_child_registered_and_waited (env : environment) (l : launch)
    (c : command_line) (sh : shell) :
  0 < spawn_pid l →
  registers l c sh = true →
  detaches l c sh = false →
  0 ≤ bg_proc_count sh < Z.of_nat (length (background_procs sh)) →
  ∃ sh',
    fork_child env l c sh = Ret sh'
    ∧ background_procs sh'
      = <[Z.to_nat (bg_proc_count sh) := spawn_pid l]> (background_procs sh)
    ∧ bg_proc_count sh' = bg_proc_count sh + 1
    ∧ children sh' = delete (spawn_pid l) (children sh).
Proof.
  intros Hpid Hreg Hdet Hroom.
  unfold fork_child. set (fate := wait_status_of _).
  unfold after_fork, register_child.
  rewrite registers_after_fork, Hreg.
  destruct (sys_fork_frame (spawn_pid l) fate sh) as (_ & Hb0 & Hc0 & Hf0 & _).
  pose proof (sys_fork_child (spawn_pid l) fate sh Hpid) as Hk0.
  set (sh0 := sys_fork (spawn_pid l) fate sh) in *. clearbody sh0.
  destruct (deliver_SIGTSTP_frame (sig_after_fork (shell_signals l)) sh0)
    as (_ & Hb1 & Hc1 & Hk1 & _).
  set (sh1 := deliver_SIGTSTP (sig_after_fork (shell_signals l)) sh0) in *.
  unfold array_write. rewrite Hb1, Hc1, Hb0, Hc0.
  destruct (Z.leb_spec 0 (bg_proc_count sh)); [|lia].
  destruct (Z.ltb_spec (bg_proc_count sh)
              (Z.of_nat (length (background_procs sh)))); [|lia].
  cbn [andb bind].
  set (sh2 := set_registry _ _ sh1).
  assert (foreground_only sh2 = foreground_only sh1) as Hf2 by done.
  assert (children sh2 = children sh1) as Hk2 by done.
  assert (background_procs sh2
          = <[Z.to_nat (bg_proc_count sh) := spawn_pid l]> (background_procs sh)
          ∧ bg_proc_count sh2 = bg_proc_count sh + 1) as [Hb2 Hc2] by done.
  clearbody sh2.
  destruct (Z.eqb_spec (spawn_pid l) (-1)); [lia|].
  destruct (Z.eqb_spec (spawn_pid l) 0); [lia|].
  unfold parent_case.
  rewrite (detaches_after_register l c sh sh0 sh2 Hf0 Hf2), Hdet.
  destruct (deliver_SIGTSTP_frame (sig_after_register (shell_signals l)) sh2)
    as (_ & Hb3 & Hc3 & Hk3 & _).
  set (sh3 := deliver_SIGTSTP (sig_after_register (shell_signals l)) sh2) in *.
  clearbody sh3.
  destruct (deliver_SIGTSTP_frame (sig_late (shell_signals l)) sh3)
    as (_ & Hb4 & Hc4 & Hk4 & _).
  set (sh4 := deliver_SIGTSTP (sig_late (shell_signals l)) sh3) in *.
  clearbody sh4.
  assert (children sh4 = <[spawn_pid l := mk_child false fate]> (children sh))
    as Hk by congruence.
  unfold sys_waitpid. rewrite Hk.
  destruct (Z.ltb_spec 0 (spawn_pid l)); [|lia].
  rewrite lookup_insert_eq. cbn [terminated wstatus orb].
  change (Z.land 0 WNOHANG =? 0) with true. cbn iota.
  rewrite delete_insert_eq.
  destruct (WIFEXITED fate); eexists; (split; [done|]); unfold_setters;
    (split_and!; congruence).
Qed.

(** X26: when SIGTSTP turns foreground-only mode on between the two tests
    of a launch, the child is registered and then waited for.  Its
    identifier then sits in the registry without a child behind it, and a
    pass of [check_background_procs] does not take it out. *)
Theorem registered_and_waited_child_stays_tracked (env : environment)
    (l : launch) (c : command_line) (sh : shell) :
  0 < spawn_pid l →
  registers l c sh = true →
  detaches l c sh = false →
  0 ≤ bg_proc_count sh < Z.of_nat (length (background_procs sh)) →
  Forall (λ p, 0 < p) (registry sh) →
  NoDup (registry sh) →
  spawn_pid l ∉ registry sh →
  ∃ sh1 sh2,
    fork_child env l c sh = Ret sh1
    ∧ registry sh1 = registry sh ++ [spawn_pid l]
    ∧ children sh1 !! spawn_pid l = None
    ∧ check_background_procs sh1 = Ret sh2
    ∧ spawn_pid l ∈ registry sh2.
Proof.
  intros Hpid Hreg Hdet Hroom Hpos Hnd Hfresh.
  destruct (fork_child_registered_and_waited env l c sh Hpid Hreg Hdet Hroom)
    as (sh1 & Hrun & Hb & Hn & Hk).
  assert (registry sh1 = registry sh ++ [spawn_pid l]) as Hr1.
  { unfold registry. rewrite Hb, Hn.
    replace (Z.to_nat (bg_proc_count sh + 1))
      with (S (Z.to_nat (bg_proc_count sh))) by lia.
    apply take_insert_snoc. lia. }
  assert (children sh1 !! spawn_pid l = None) as Hgone
    by (by rewrite Hk, lookup_delete_eq).
  destruct (check_background_procs_spec sh1)
    as (sh2 & es & Hpass & _ & Hr2 & _).
  { rewrite Hn, Hb, length_insert. lia. }
  { rewrite Hr1. apply Forall_app. split; [done | by repeat constructor]. }
  { rewrite Hr1. apply NoDup_app. split_and!; [done | | apply NoDup_singleton].
    intros x Hx ->%list_elem_of_singleton. done. }
  exists sh1, sh2. split_and!; try done.
  rewrite Hr2, Hr1, List.filter_app. apply elem_of_app. right.
  cbn [List.filter]. unfold has_terminated. rewrite Hgone. cbn [negb].
  set_solver.
Qed.

Lemma registered_and_waited_child_stays_tracked_witness :
  let l := mk_launch 7 (mk_schedule 0 1 0) quiet in
  ∃ sh1 sh2,
    fork_child sample_env l (one_word "sleep" true) initial_shell = Ret sh1
    ∧ registry sh1 = registry initial_shell ++ [spawn_pid l]
    ∧ children sh1 !! spawn_pid l = None
    ∧ check_background_procs sh1 = Ret sh2
    ∧ spawn_pid l ∈ registry sh2.
Proof.
  apply (registered_and_waited_child_stays_tracked sample_env
           (mk_launch 7 (mk_schedule 0 1 0) quiet) (one_word "sleep" true)
           initial_shell);
    [reflexivity | reflexivity | reflexivity | by compute_done
    | by constructor | by constructor | by compute_done].
Defined.

(** The launch in which the child is neither registered nor waited for. *)
Lemma fork_child_unregistered_and_detached (env : environment) (l : launch)
    (c : command_line) (sh : shell) :
  0 < spawn_pid l →
  registers l c sh = false →
  detaches l c sh = true →
  ∃ sh',
    fork_child env l c sh = Ret sh'
    ∧ background_procs sh' = background_procs sh
    ∧ bg_proc_count sh' = bg_proc_count sh
    ∧ children sh'
      = <[spawn_pid l := mk_child false (child_fate env l c sh)]> (children sh)
    ∧ last (trace sh')
      = Some (Stdout ("background PID is " +:+ sprintf_d (spawn_pid l) +:+ nl)).
Proof.
  intros Hpid Hreg Hdet.
  unfold fork_child. fold (child_fate env l c sh).
  set (fate := child_fate env l c sh).
  unfold after_fork, register_child.
  rewrite registers_after_fork, Hreg. cbn [bind].
  destruct (sys_fork_frame (spawn_pid l) fate sh) as (_ & Hb0 & Hc0 & Hf0 & _).
  pose proof (sys_fork_child (spawn_pid l) fate sh Hpid) as Hk0.
  set (sh0 := sys_fork (spawn_pid l) fate sh) in *. clearbody sh0.
  destruct (deliver_SIGTSTP_frame (sig_after_fork (shell_signals l)) sh0)
    as (_ & Hb1 & Hc1 & Hk1 & _).
  set (sh1 := deliver_SIGTSTP (sig_after_fork (shell_signals l)) sh0) in *.
  destruct (Z.eqb_spec (spawn_pid l) (-1)); [lia|].
  destruct (Z.eqb_spec (spawn_pid l) 0); [lia|].
  unfold parent_case.
  rewrite (detaches_after_register l c sh sh0 sh1 Hf0 eq_refl), Hdet.
  destruct (deliver_SIGTSTP_frame (sig_after_register (shell_signals l)) sh1)
    as (_ & Hb3 & Hc3 & Hk3 & _).
  eexists. split; [done|]. unfold_setters.
  split_and!; [congruence | congruence | congruence | by rewrite last_snoc].
Qed.

(** X27: when SIGTSTP turns foreground-only mode off between the two tests
    of a launch, the child is announced as a background child but not
    registered.  When it has terminated, a pass of
    [check_background_procs] does not reap it, and prints nothing when no
    tracked child has terminated. *)
Theorem unregistered_child_is_never_reaped (env : environment)
    (l : launch) (c : command_line) (sh : shell) :
  0 < spawn_pid l →
  registers l c sh = false →
  detaches l c sh = true →
  0 ≤ bg_proc_count sh ≤ Z.of_nat (length (background_procs sh)) →
  Forall (λ p, 0 < p) (registry sh) →
  NoDup (registry sh) →
  spawn_pid l ∉ registry sh →
  Forall (λ p, has_terminated sh p = false) (registry sh) →
  ∃ sh1 sh2,
    fork_child env l c sh = Ret sh1
    ∧ registry sh1 = registry sh
    ∧ last (trace sh1)
      = Some (Stdout ("background PID is " +:+ sprintf_d (spawn_pid l) +:+ nl))
    ∧ check_background_procs (child_terminates (spawn_pid l) sh1) = Ret sh2
    ∧ has_terminated sh2 (spawn_pid l) = true
    ∧ List.filter is_stdout (since sh1 sh2) = [].
Proof.
  intros Hpid Hreg Hdet Hcount Hpos Hnd Hfresh Hrun.
  destruct (fork_child_unregistered_and_detached env l c sh Hpid Hreg Hdet)
    as (sh1 & Hlaunch & Hb & Hn & Hk & Hlast).
  set (pid := spawn_pid l) in *. set (fate := child_fate env l c sh) in *.
  assert (registry sh1 = registry sh) as Hr1
    by (unfold registry; by rewrite Hb, Hn).
  set (st := child_terminates pid sh1).
  assert (registry st = registry sh) as Hrst by done.
  assert (children st !! pid = Some (mk_child true fate)) as Hkp.
  { subst st. unfold child_terminates. unfold_setters.
    by rewrite lookup_alter_eq, Hk, lookup_insert_eq. }
  assert (∀ q, q ≠ pid → children st !! q = children sh !! q) as Hkq.
  { intros q Hq. subst st. unfold child_terminates. unfold_setters.
    rewrite lookup_alter_ne by done. by rewrite Hk, lookup_insert_ne. }
  assert (Forall (λ q, has_terminated st q = false) (registry st)) as Hrun'.
  { rewrite Hrst. rewrite Forall_forall in Hrun. apply Forall_forall.
    intros q Hq. rewrite <- (Hrun q Hq). apply has_terminated_ext, Hkq.
    intros ->. done. }
  destruct (check_background_procs_idle st)
    as (sh2 & Hpass & _ & Hout & Hk2 & _); [| | |done|].
  { change (bg_proc_count st) with (bg_proc_count sh1).
    change (background_procs st) with (background_procs sh1).
    rewrite Hn, Hb. lia. }
  { by rewrite Hrst. }
  { by rewrite Hrst. }
  exists sh1, sh2. split_and!; try done.
  unfold has_terminated. by rewrite Hk2, Hkp.
Qed.

Lemma unregistered_child_is_never_reaped_witness :
  let l := mk_launch 7 (mk_schedule 0 1 0) quiet in
  let sh := handle_SIGTSTP initial_shell in
  ∃ sh1 sh2,
    fork_child sample_env l (one_word "sleep" true) sh = Ret sh1
    ∧ registry sh1 = registry sh
    ∧ last (trace sh1)
      = Some (Stdout ("background PID is " +:+ sprintf_d (spawn_pid l) +:+ nl))
    ∧ check_background_procs (child_terminates (spawn_pid l) sh1) = Ret sh2
    ∧ has_terminated sh2 (spawn_pid l) = true
    ∧ List.filter is_stdout (since sh1 sh2) = [].
Proof.
  apply (unregistered_child_is_never_reaped sample_env
           (mk_launch 7 (mk_schedule 0 1 0) quiet) (one_word "sleep" true)
           (handle_SIGTSTP initial_shell));
    [reflexivity | reflexivity | reflexivity | by compute_done
    | by constructor | by constructor | by compute_done | by constructor].
Defined.

(** ** How a turn can end *)

Lemma bind_faults_within {A B} (allowed : fault → bool) (m : outcome A)
    (k : A → outcome B) :
  faults_within allowed m →
  (∀ a, m = Ret a → faults_within allowed (k a)) →
  faults_within allowed (bind m k).
Proof. destruct m; cbn; auto. Qed.

(** The fuel of the expansion loop is enough for every line: the loop
    returns or overruns the buffer. *)
Lemma expansion_loop_faults (pid : string) (fuel : nat) :
  ∀ expanded str_pointer,
    (String.length str_pointer ≤ fuel)%nat →
    faults_within memory_fault
      (expansion_loop fuel pid expanded str_pointer
                      (strstr str_pointer "$$")).
Proof.
  induction fuel as [|fuel IH]; intros expanded sp Hlen.
  { destruct sp; [done | simpl in Hlen; lia]. }
  destruct (strstr sp "$$") as [found|] eqn:Hs; [|done].
  destruct (strstr_dollars_Some pid _ _ Hs) as (pre & rest & -> & -> & _).
  cbn [expansion_loop]. apply bind_faults_within.
  { unfold strncat. by destruct (_ <? _). }
  intros expanded1 _. apply bind_faults_within.
  { unfold strcat. by destruct (_ <? _). }
  intros expanded2 _.
  replace (strlen (pre +:+ "$$" +:+ rest) - strlen ("$$" +:+ rest)
           + strlen "$$") with (strlen (pre +:+ "$$"))
    by (rewrite !strlen_app; lia).
  rewrite <- (app_assoc_s pre "$$"), advance_app.
  apply IH. rewrite !length_app_s in Hlen. simpl in Hlen. lia.
Qed.

Lemma variable_expansion_faults (getpid : Z) (s : string) :
  faults_within memory_fault (variable_expansion getpid s).
Proof.
  unfold variable_expansion. apply bind_faults_within.
  { by apply expansion_loop_faults. }
  intros [expanded str_pointer] _. unfold strncat. by destruct (_ <? _).
Qed.

Lemma parse_tokens_faults (k : nat) :
  ∀ tokens parsed al n,
    (length tokens ≤ k)%nat →
    faults_within memory_fault (parse_tokens tokens parsed al n).
Proof.
  induction k as [|k IH]; intros [|t rest] parsed al n Hk; try done.
  { simpl in Hk. lia. }
  cbn [parse_tokens].
  destruct (is_token "<" t); [|destruct (is_token ">" t)].
  1,2: destruct rest as [|path rest]; [done | apply IH; simpl in *; lia].
  destruct (n <? 512); [|done]. apply IH. simpl in *. lia.
Qed.

Lemma parse_command_line_faults (s : string) :
  faults_within memory_fault (parse_command_line s).
Proof.
  unfold parse_command_line. destruct (strtok_all s) as [|t rest]; [done|].
  apply bind_faults_within; [by apply (parse_tokens_faults (length rest))|].
  intros [[parsed al] n] _. by destruct (_ && _).
Qed.

(** The ways [fork_child] can end in the shell. *)
Lemma fork_child_outcome (env : environment) (l : launch) (c : command_line)
    (sh : shell) :
  0 < spawn_pid l ∨ spawn_pid l = -1 →
  0 ≤ bg_proc_count sh ≤ Z.of_nat (length (background_procs sh)) →
  match fork_child env l c sh with
  | Ret _ => 0 < spawn_pid l
  | Exit code _ => spawn_pid l = -1 ∧ code = 1
  | Replaced _ _ => False
  | Undefined f => f = OutOfBounds
  end.
Proof.
  intros [Hpid|Hpid] Hcount.
  - destruct (Z.ltb_spec (bg_proc_count sh)
                (Z.of_nat (length (background_procs sh)))) as [Hroom|Hfull].
    + destruct (registers l c sh) eqn:Hreg, (detaches l c sh) eqn:Hdet.
      * destruct (fork_child_background env l c sh Hpid Hreg Hdet)
          as (sh' & _ & -> & _); [lia | done].
      * destruct (fork_child_registered_effect env l c sh Hpid Hreg Hdet)
          as (sh' & _ & -> & _); [lia | done].
      * by destruct (fork_child_unregistered_and_detached env l c sh Hpid
                       Hreg Hdet) as (sh' & -> & _).
      * by destruct (fork_child_foreground_effect env l c sh Hpid Hreg Hdet)
          as (sh' & _ & -> & _).
    + destruct (registers l c sh) eqn:Hreg.
      * assert (fork_child env l c sh = Undefined OutOfBounds) as ->; [|done].
        unfold fork_child. set (fate := wait_status_of _).
        unfold after_fork, register_child.
        rewrite registers_after_fork, Hreg.
        destruct (deliver_SIGTSTP_frame (sig_after_fork (shell_signals l))
                    (sys_fork (spawn_pid l) fate sh)) as (_ & -> & -> & _).
        destruct (sys_fork_frame (spawn_pid l) fate sh) as (_ & -> & -> & _).
        unfold array_write.
        destruct (Z.ltb_spec (bg_proc_count sh)
                    (Z.of_nat (length (background_procs sh)))); [lia|].
        by rewrite andb_false_r.
      * destruct (detaches l c sh) eqn:Hdet.
        -- by destruct (fork_child_unregistered_and_detached env l c sh Hpid
                          Hreg Hdet) as (sh' & -> & _).
        -- by destruct (fork_child_foreground_effect env l c sh Hpid Hreg Hdet)
             as (sh' & _ & -> & _).
  - unfold fork_child, after_fork. rewrite Hpid.
    destruct (register_child _ _ _) as [sh2| | |f] eqn:Hreg; cbn [bind].
    + done.
    + unfold register_child in Hreg. destruct (background_test _ _); [|done].
      by destruct (array_write _ _ _).
    + unfold register_child in Hreg. destruct (background_test _ _); [|done].
      by destruct (array_write _ _ _).
    + unfold register_child in Hreg. destruct (background_test _ _); [|done].
      destruct (array_write _ _ _); [done|]. by injection Hreg as <-.
Qed.

(** X18: a turn of the loop of [main] on a registry whose count is within
    the array and whose tracked identifiers are positive and distinct, in
    which [fork], when it is called, returns a positive identifier or -1,
    while children end and SIGTSTP arrives before the pass and at the
    prompt, and in which a child the shell waits for ends with the wait
    status of the launch.  The shell is ended by the return of [main] or
    by [exit] in two cases only: the line read is the exit command, and
    then the turn ends so, with exit code 0, and in no other way; or
    [fork] has failed on another line, with exit code 1.  The shell is
    never replaced by another program.  A turn that returns to the loop
    has read a line other than the exit command.  Every other turn has
    undefined behaviour, in which the process can be ended from outside
    by a signal such as SIGSEGV: when [getline] fails, the read of the
    first character of a buffer in which nothing was stored; when it
    delivers a line other than the exit command, a fault of memory and no
    other (the expansion buffer overrun, a NULL token in the parser, a
    store past the argument array or past the registry). *)
Theorem turn_ends_shell_by_exit_or_failed_fork (env : environment) (t : step)
    (sh : shell) :
  0 ≤ bg_proc_count sh ≤ Z.of_nat (length (background_procs sh)) →
  Forall (λ p, 0 < p) (registry sh) →
  NoDup (registry sh) →
  0 < spawn_pid (launched t) ∨ spawn_pid (launched t) = -1 →
  match turn env t sh with
  | Ret _ => line_read t ≠ None ∧ line_read t ≠ Some ("exit" +:+ nl)
  | Exit code _ =>
      (line_read t = Some ("exit" +:+ nl) ∧ code = 0)
      ∨ (line_read t ≠ Some ("exit" +:+ nl)
         ∧ spawn_pid (launched t) = -1 ∧ code = 1)
  | Replaced _ _ => False
  | Undefined f =>
      (line_read t = None ∧ f = UninitializedRead)
      ∨ (line_read t ≠ None ∧ line_read t ≠ Some ("exit" +:+ nl)
         ∧ memory_fault f = true)
  end.
Proof.
  intros Hcount Hpos Hnd Hpid. unfold turn.
  destruct (happenings_frame (before_pass t) sh) as (_ & Hb0 & Hc0).
  set (sh0 := happenings (before_pass t) sh) in *.
  assert (registry sh0 = registry sh) as Hr0
    by (unfold registry; by rewrite Hb0, Hc0).
  clearbody sh0.
  destruct (check_background_procs_spec sh0)
    as (sh1 & es & -> & _ & _ & _ & _ & _ & _ & _ & Hl1 & Hc1);
    [rewrite Hb0, Hc0; lia | by rewrite Hr0 | by rewrite Hr0 |].
  cbn [bind].
  destruct (happenings_frame (at_prompt t) (printf ": " sh1))
    as (_ & Hb2 & Hc2).
  set (sh2 := happenings (at_prompt t) (printf ": " sh1)) in *.
  change (background_procs (printf ": " sh1)) with (background_procs sh1)
    in Hb2.
  change (bg_proc_count (printf ": " sh1)) with (bg_proc_count sh1) in Hc2.
  assert (0 ≤ bg_proc_count sh2 ≤ Z.of_nat (length (background_procs sh2)))
    as Hcount2 by (rewrite Hb2, Hc2, Hl1, Hb0; lia).
  clearbody sh2.
  destruct (line_read t) as [line|]; [|by left].
  destruct (String.eqb_spec ("exit" +:+ nl) line) as [<-|Hline].
  { change (inner_loop_repeats ("exit" +:+ nl)) with false. cbn iota.
    unfold dispatch. rewrite String.eqb_refl. cbn [negb].
    unfold kill_children.
    destruct (kill_loop_spec (Z.to_nat (bg_proc_count sh2)) 0 sh2)
      as (sh' & rs & -> & _); [lia | lia |].
    cbn [bind]. by left. }
  assert (Some line ≠ Some ("exit" +:+ nl)) as Hline' by congruence.
  destruct (inner_loop_repeats line); [done|].
  unfold dispatch.
  rewrite (proj2 (String.eqb_neq _ _) Hline). cbn [negb].
  pose proof (variable_expansion_faults (getpid env) line) as He.
  destruct (variable_expansion (getpid env) line) as [expanded| | |f];
    cbn [bind]; try done; [|by right].
  pose proof (parse_command_line_faults expanded) as Hp.
  destruct (parse_command_line expanded) as [c| | |f]; cbn [bind]; try done;
    [|by right].
  unfold handle_command_line.
  destruct (String.eqb (command c) "cd"); [by destruct (args_count c =? 1)|].
  destruct (String.eqb (command c) "status"); [done|].
  unfold add_NULL. destruct (args_count c <? 512); cbn [bind]; [|by right].
  match goal with
  | |- context [fork_child env ?l ?c' sh2] =>
      pose proof (fork_child_outcome env l c' sh2 Hpid Hcount2) as Hf;
      destruct (fork_child env l c' sh2) as [sh'|code sh'|w sh'|f]
  end.
  - done.
  - right. by destruct Hf.
  - done.
  - right. by rewrite Hf.
Qed.

Lemma turn_ends_shell_by_exit_or_failed_fork_witness :
  let t := mk_step [ChildEnds 11] [Sigtstp] (Some ("sleep 5 &" +:+ nl))
                   (undisturbed (-1)) in
  match turn sample_env t three_jobs with
  | Ret _ => line_read t ≠ None ∧ line_read t ≠ Some ("exit" +:+ nl)
  | Exit code _ =>
      (line_read t = Some ("exit" +:+ nl) ∧ code = 0)
      ∨ (line_read t ≠ Some ("exit" +:+ nl)
         ∧ spawn_pid (launched t) = -1 ∧ code = 1)
  | Replaced _ _ => False
  | Undefined f =>
      (line_read t = None ∧ f = UninitializedRead)
      ∨ (line_read t ≠ None ∧ line_read t ≠ Some ("exit" +:+ nl)
         ∧ memory_fault f = true)
  end.
Proof.
  apply (turn_ends_shell_by_exit_or_failed_fork sample_env
           (mk_step [ChildEnds 11] [Sigtstp] (Some ("sleep 5 &" +:+ nl))
                    (undisturbed (-1))) three_jobs);
    [by compute_done | by compute_done | by compute_done | by right].
Defined.
